(** * Event-management console: page handlers, route guard and their properties

    A shallow embedding of the React components of the repository:

    - [EventsPage], [AttendeesPage], [TasksPage]: the state of each page
      (its [useState] hooks) and its handlers ([fetch...], [handleSubmit],
      [handleDelete], [toggleStatus], the buttons and inputs of the form);
    - [App]: the route table, matched as the router matches it, and
      [ProtectedRoute];
    - [LoginPage]: the two sign-in handlers and the redirect of a signed-in
      user.

    Modelling choices.

    - JavaScript objects (form data, rows sent to and received from the
      backend) are finite maps from property names to values; an object
      literal with a spread is a sequence of insertions, later keys winning.
    - An [async] function is a function from a context (the component state,
      the outside world, the effects observed so far) to a completion
      (normal or thrown) and a new context. [try], [catch] and [finally] are
      combinators on such functions. The effects are the calls to the
      outside, the notifications and the calls of [setLoading] of a record
      page, so that a run shows every value the loading flag is given, not
      only the value it has when a handler has settled.
    - The hosted backend ([supabase.auth.getUser], awaiting a query), the
      browser dialog ([confirm]) and the date routines are an interface,
      [Environment]; the handlers are written once against it and the
      general theorems hold for every implementation of it.
    - A handler runs from the state its closure captured to the state
      reached when everything it started has settled. A fetch that a handler
      starts without awaiting it as its last step ([fetchEvents()] at the
      end of [handleSubmit]) catches all its errors itself, so it is run in
      place. The effect of the task page starts three fetches without
      awaiting any: these are cut at their awaits and resumed in the order
      in which their answers arrive. [e.preventDefault()] touches no state
      and is left out.
    - [Backend] is an in-memory reference backend following the
      specification, used for the statements that speak about what a fetch
      returns after a mutation. *)

From Stdlib Require Import Ascii String.
From stdpp Require Import gmap strings list fin_maps sorting pretty.

Set Warnings "-register-all".
Open Scope string_scope.
Open Scope list_scope.

(** ** JavaScript values *)

Inductive JsVal : Type :=
| JUndefined
| JNull
| JStr (s : string)
| JObj (o : gmap string JsVal).

Abbreviation JsObj := (gmap string JsVal).

(** [o.k]: a missing property reads as [undefined]. *)
Definition prop (o : JsObj) (k : string) : JsVal :=
  default JUndefined (o !! k).

(** Truthiness, as used by [!x], [x || y] and [x && y]. *)
Definition truthy (v : JsVal) : bool :=
  match v with
  | JUndefined | JNull => false
  | JStr s => negb (String.eqb s "")
  | JObj _ => true
  end.

(** [a || b] *)
Definition js_or (a b : JsVal) : JsVal := if truthy a then a else b.

(** [a === 'lit'] for a string literal. *)
Definition strict_eq_str (a : JsVal) (lit : string) : bool :=
  match a with
  | JStr s => String.eqb s lit
  | _ => false
  end.

(** An object literal [{ k1: v1, ..., kn: vn }] : later keys win. *)
Definition obj (fields : list (string * JsVal)) : JsObj :=
  foldl (fun o kv => <[kv.1 := kv.2]> o) ∅ fields.

(** [{ ...base, k1: v1, ..., kn: vn }] *)
Definition spread (base : JsObj) (fields : list (string * JsVal)) : JsObj :=
  foldl (fun o kv => <[kv.1 := kv.2]> o) base fields.

(** ** The backend client (supabase-js) *)

(** The user object returned by [supabase.auth.getUser()]; [uid] is its
    [id] property. *)
Record User := mkUser { uid : string }.

(** A thrown or returned error; only [message] is ever read. *)
Record Error := mkError { message : string }.

(** The argument of [.select(...)]: ['*'], a column, or an embedded
    resource [alias:table(columns)]. *)
Inductive Column :=
| Star
| Col (name : string)
| Embed (alias table : string) (columns : list string).

Inductive Verb :=
| SELECT (columns : list Column)
| INSERT (rows : list JsObj)
| UPDATE (patch : JsObj)
| DELETE.

(** A query as the builder has assembled it when it is awaited. *)
Record Query := mkQuery {
  q_table : string;
  q_verb : Verb;
  q_eq : list (string * JsVal);
  q_order : option (string * bool)
}.

(** [supabase.from(table)] *)
Definition from (table : string) : string := table.

Definition select (columns : list Column) (table : string) : Query :=
  mkQuery table (SELECT columns) [] None.
Definition insert (rows : list JsObj) (table : string) : Query :=
  mkQuery table (INSERT rows) [] None.
Definition update (patch : JsObj) (table : string) : Query :=
  mkQuery table (UPDATE patch) [] None.
Definition delete_ (table : string) : Query :=
  mkQuery table DELETE [] None.

(** [.eq(column, value)] *)
Definition eq_ (column : string) (value : JsVal) (q : Query) : Query :=
  mkQuery (q_table q) (q_verb q) (q_eq q ++ [(column, value)]) (q_order q).

(** [.order(column, { ascending })]; without options the client sorts
    ascending. *)
Definition order (column : string) (ascending : option bool) (q : Query) : Query :=
  mkQuery (q_table q) (q_verb q) (q_eq q) (Some (column, default true ascending)).

(** The [{ data, error }] pair every awaited query resolves to. *)
Record Response := mkResponse {
  data : option (list JsObj);
  error : option Error
}.

(** How an evaluation completes: normally with a value, or abruptly with a
    thrown error. *)
Inductive Completion (A : Type) :=
| Normal (a : A)
| Thrown (e : Error).
Arguments Normal {A}.
Arguments Thrown {A}.

(** ** The environment of a page *)

(** The client reports a failure in the [error] field of what it resolves
    to; its promises do not reject. *)
Class Environment (W : Type) := {
  (** [await supabase.auth.getUser()], projected to [data.user] *)
  getUser : W → option User * W;
  (** awaiting a query builder *)
  execute : Query → W → Response * W;
  (** [window.confirm(message)] *)
  confirm : string → W → bool * W;
  (** [new Date(v).toISOString()], which throws a RangeError for an invalid
      date *)
  toISOString : JsVal → Completion string;
  (** [format(new Date(v), "yyyy-MM-dd'T'HH:mm")] of date-fns, which throws a
      RangeError for an invalid date *)
  format_datetime_local : JsVal → Completion string
}.

(** ** Observable effects *)

(** The calls to the outside, the notifications, and the calls of the
    setter of the loading flag of a record page ([setLoading(v)]): while
    that flag is [true] the page renders its loading screen instead of its
    list. *)
Inductive Effect :=
| GetUser
| Request (q : Query)
| Confirm (message : string)
| ToastError (message : string)
| ToastSuccess (message : string)
| SetLoading (v : bool).

(** The queries sent to the backend, in order. *)
Definition queries (t : list Effect) : list Query :=
  omap (fun e => match e with Request q => Some q | _ => None end) t.

Definition is_insert (q : Query) : bool :=
  match q_verb q with INSERT _ => true | _ => false end.
Definition is_update (q : Query) : bool :=
  match q_verb q with UPDATE _ => true | _ => false end.

Definition inserts (t : list Effect) : list Query := List.filter is_insert (queries t).
Definition updates (t : list Effect) : list Query := List.filter is_update (queries t).

(** The error notifications shown, in order. *)
Definition error_toasts (t : list Effect) : list string :=
  omap (fun e => match e with ToastError m => Some m | _ => None end) t.

(** The values passed to the setter of the loading flag, in order. *)
Definition loading_writes (t : list Effect) : list bool :=
  omap (fun e => match e with SetLoading v => Some v | _ => None end) t.

(** No call of the setter of the loading flag passes [v]. *)
Definition cleared (v : bool) (t : list Effect) : Prop :=
  Forall (fun b => b = negb v) (loading_writes t).

(** ** Asynchronous handlers *)

Record Ctx (St W : Type) := mkCtx {
  page : St;
  world : W;
  trace : list Effect
}.
Arguments mkCtx {St W}.
Arguments page {St W}.
Arguments world {St W}.
Arguments trace {St W}.

Definition Async (St W A : Type) : Type := Ctx St W → Completion A * Ctx St W.

Section Async.
Context {St W : Type}.

Definition ret {A} (a : A) : Async St W A := fun c => (Normal a, c).

Definition bind {A B} (m : Async St W A) (k : A → Async St W B) : Async St W B :=
  fun c =>
    match m c with
    | (Normal a, c') => k a c'
    | (Thrown e, c') => (Thrown e, c')
    end.

Definition throw {A} (e : Error) : Async St W A := fun c => (Thrown e, c).

(** [try { body } catch (error) { handler(error) }] *)
Definition try_catch {A} (body : Async St W A) (handler : Error → Async St W A)
  : Async St W A :=
  fun c =>
    match body c with
    | (Normal a, c') => (Normal a, c')
    | (Thrown e, c') => handler e c'
    end.

(** [try { body } finally { finalizer }] *)
Definition try_finally {A} (body : Async St W A) (finalizer : Async St W unit)
  : Async St W A :=
  fun c =>
    match body c with
    | (r, c') =>
        match finalizer c' with
        | (Normal _, c'') => (r, c'')
        | (Thrown e, c'') => (Thrown e, c'')
        end
    end.

Definition emit (e : Effect) : Async St W unit :=
  fun c => (Normal tt, mkCtx (page c) (world c) (trace c ++ [e])).

(** A state setter of [useState]. *)
Definition setState (f : St → St) : Async St W unit :=
  fun c => (Normal tt, mkCtx (f (page c)) (world c) (trace c)).

(** The state captured by the closure of the handler. *)
Definition getState : Async St W St := fun c => (Normal (page c), c).

(** Calling the outside world and recording the call. *)
Definition call {A} (e : Effect) (f : W → A * W) : Async St W A :=
  fun c =>
    let '(a, w') := f (world c) in
    (Normal a, mkCtx (page c) w' (trace c ++ [e])).

(** The completion of a synchronous routine of the runtime. *)
Definition returned {A} (r : Completion A) : Async St W A := fun c => (r, c).

(** Running a handler from a page state, with an empty trace. *)
Definition run {A} (m : Async St W A) (s : St) (w : W) : Completion A * Ctx St W :=
  m (mkCtx s w []).
End Async.

#[global] Instance Async_ret {St W} : MRet (Async St W) := @ret St W.
#[global] Instance Async_bind {St W} : MBind (Async St W) :=
  fun A B k m => bind m k.

Section Calls.
Context {St W : Type} `{Environment W}.

Definition auth_getUser : Async St W (option User) := call GetUser getUser.
Definition await (q : Query) : Async St W Response := call (Request q) (execute q).
Definition window_confirm (msg : string) : Async St W bool :=
  call (Confirm msg) (confirm msg).
Definition toast_error (msg : string) : Async St W unit := emit (ToastError msg).
Definition toast_success (msg : string) : Async St W unit := emit (ToastSuccess msg).
End Calls.

Notation "x |> f" := (f x) (at level 45, left associativity, only parsing).

(** ** Calls that are not awaited *)

(** What the call of an [async] function hands to a caller that does not
    await it. The function has run up to its first [await] and waits there,
    or it has settled. [resume] is the rest of the function from that
    [await] on, run when the awaited answer arrives; it ends at the next
    [await] or settles. The call to the outside was made before the function
    suspended, and the environment answers a call when it is made, so
    [resume] carries the answer. *)
Inductive Promise (St W : Type) : Type :=
| Settled
| Awaiting (resume : Async St W (Promise St W)).
Arguments Settled {St W}.
Arguments Awaiting {St W}.

Section Promises.
Context {St W : Type}.

(** [await p]: the function runs on to its end. *)
Fixpoint settle (p : Promise St W) : Async St W unit :=
  fun c =>
    match p with
    | Settled => (Normal tt, c)
    | Awaiting resume =>
        match resume c with
        | (Normal p', c') => settle p' c'
        | (Thrown e, c') => (Thrown e, c')
        end
    end.

(** The answer that the [i]-th of the calls [ps] waits for arrives: that
    call runs on to its next [await] or to its end. An exception that
    escapes it rejects its promise, which nobody observes. Nothing happens
    when that call is not waiting. *)
Definition deliver (i : nat) (ps : list (Promise St W))
  : Async St W (list (Promise St W)) :=
  fun c =>
    match ps !! i with
    | Some (Awaiting resume) =>
        match resume c with
        | (Normal p, c') => (Normal (<[i := p]> ps), c')
        | (Thrown _, c') => (Normal (<[i := Settled]> ps), c')
        end
    | _ => (Normal ps, c)
    end.

Fixpoint deliver_all (arrivals : list nat) (ps : list (Promise St W))
  : Async St W (list (Promise St W)) :=
  match arrivals with
  | [] => mret ps
  | i :: rest => ps' ← deliver i ps; deliver_all rest ps'
  end.

(** A call that settles after at most [n] more answers, each of its
    resumptions completing normally and keeping every property of the
    family [I]. *)
Fixpoint keeps {A : Type} (I : A → Ctx St W → Prop) (n : nat) (p : Promise St W)
  : Prop :=
  match p with
  | Settled => True
  | Awaiting resume =>
      match n with
      | O => False
      | S n =>
          ∀ a c, I a c →
                 ∃ p' c', resume c = (Normal p', c') ∧ I a c' ∧ keeps I n p'
      end
  end.

(** A pending call that settles after at most [n] more answers: while it is
    pending its resumptions keep [I false], and the resumption with which
    it settles takes [I false] to [I true]. *)
Fixpoint leads (I : bool → Ctx St W → Prop) (n : nat) (p : Promise St W) : Prop :=
  match n, p with
  | S n, Awaiting resume =>
      ∀ c, I false c →
           ∃ p' c', resume c = (Normal p', c') ∧
                    ((p' = Settled ∧ I true c') ∨ (I false c' ∧ leads I n p'))
  | _, _ => False
  end.

(** Where the first of three calls stands: settled with [I true], or
    pending with [I false]. *)
Definition stage (I : bool → Ctx St W → Prop) (n : nat) (p : Promise St W)
    (c : Ctx St W) : Prop :=
  (p = Settled ∧ I true c) ∨ (I false c ∧ leads I n p).

End Promises.

(** ** EventsPage *)

Module EventsPage.

Record State := mkState {
  events : list JsObj;
  loading : bool;
  showForm : bool;
  formData : JsObj
}.

Definition empty_form : JsObj :=
  obj [("name", JStr ""); ("description", JStr "");
       ("location", JStr ""); ("date", JStr "")].

(** The initial values of the four [useState] hooks. *)
Definition init : State := mkState [] true false empty_form.

Section Handlers.
Context {W : Type} `{Environment W}.

Definition setEvents (v : list JsObj) : Async State W unit :=
  setState (fun s => mkState v (loading s) (showForm s) (formData s)).
Definition setLoading (v : bool) : Async State W unit :=
  emit (SetLoading v);;
  setState (fun s => mkState (events s) v (showForm s) (formData s)).
Definition setShowForm (v : bool) : Async State W unit :=
  setState (fun s => mkState (events s) (loading s) v (formData s)).
Definition setFormData (v : JsObj) : Async State W unit :=
  setState (fun s => mkState (events s) (loading s) (showForm s) v).

Definition fetchEvents : Async State W unit :=
  try_finally
    (try_catch
       (user ← auth_getUser;
        match user with
        | None => throw (mkError "No user found")
        | Some _ =>
            r ← await (from "events" |> select [Star]
                                     |> order "date" (Some true));
            match error r with
            | Some e => throw e
            | None => setEvents (default [] (data r))
            end
        end)
       (fun error => toast_error (message error)))
    (setLoading false).

Definition handleSubmit : Async State W unit :=
  s ← getState;
  let formData := formData s in
  try_catch
    (user ← auth_getUser;
     match user with
     | None => throw (mkError "No user found")
     | Some user =>
         date ← returned (toISOString (prop formData "date"));
         r ← await (from "events" |> insert [
                 spread formData [("date", JStr date);
                                  ("user_id", JStr (uid user))] ]);
         match error r with
         | Some e => throw e
         | None =>
             toast_success "Event created successfully";;
             setShowForm false;;
             setFormData empty_form;;
             fetchEvents
         end
     end)
    (fun error => toast_error (message error)).

Definition handleDelete (id : JsVal) : Async State W unit :=
  ok ← window_confirm "Are you sure you want to delete this event?";
  if negb ok then mret tt
  else
    try_catch
      (r ← await (from "events" |> delete_ |> eq_ "id" id);
       match error r with
       | Some e => throw e
       | None =>
           toast_success "Event deleted successfully";;
           fetchEvents
       end)
      (fun error => toast_error (message error)).

(** The [onClick] of the edit button of a listed event. *)
Definition editClick (event : JsObj) : Async State W unit :=
  date ← returned (format_datetime_local (prop event "date"));
  setFormData (obj [("name", prop event "name");
                    ("description", prop event "description");
                    ("location", prop event "location");
                    ("date", JStr date)]);;
  setShowForm true.

(** The "New Event" button. *)
Definition newClick : Async State W unit :=
  s ← getState; setShowForm (negb (showForm s)).

(** The "Cancel" button of the form. *)
Definition cancelClick : Async State W unit := setShowForm false.

(** The [onChange] of the input bound to [field]. *)
Definition change (field : string) (value : string) : Async State W unit :=
  s ← getState; setFormData (spread (formData s) [(field, JStr value)]).

(** [useEffect(() => { fetchEvents(); }, [])] *)
Definition mount : Async State W unit := fetchEvents.

(** The user actions the rendered page offers. *)
Inductive Action :=
| Submit
| Delete (id : JsVal)
| Edit (event : JsObj)
| New
| Cancel
| Change (field value : string).

Definition handle (a : Action) : Async State W unit :=
  match a with
  | Submit => handleSubmit
  | Delete id => handleDelete id
  | Edit event => editClick event
  | New => newClick
  | Cancel => cancelClick
  | Change field value => change field value
  end.

(** An exception that escapes an event handler is reported by the
    runtime; the page stays mounted with the state reached. *)
Definition step (c : Ctx State W) (a : Action) : Ctx State W := (handle a c).2.

(** The contexts reached after each of a sequence of actions. *)
Fixpoint history (c : Ctx State W) (actions : list Action) : list (Ctx State W) :=
  match actions with
  | [] => []
  | a :: rest => step c a :: history (step c a) rest
  end.
End Handlers.

(** The queries of the page, as the builder assembles them. *)
Definition fetch_query : Query :=
  mkQuery "events" (SELECT [Star]) [] (Some ("date", true)).

Definition new_row (formData : JsObj) (date : string) (user : User) : JsObj :=
  <["user_id" := JStr (uid user)]> (<["date" := JStr date]> formData).

Definition insert_query (formData : JsObj) (date : string) (user : User) : Query :=
  mkQuery "events" (INSERT [new_row formData date user]) [] None.

Definition delete_query (id : JsVal) : Query :=
  mkQuery "events" DELETE [("id", id)] None.

Definition confirm_message : string := "Are you sure you want to delete this event?".

End EventsPage.

(** ** AttendeesPage *)

Module AttendeesPage.

Record State := mkState {
  attendees : list JsObj;
  loading : bool;
  showForm : bool;
  formData : JsObj
}.

Definition empty_form : JsObj :=
  obj [("name", JStr ""); ("email", JStr ""); ("task", JStr "")].

Definition init : State := mkState [] true false empty_form.

Section Handlers.
Context {W : Type} `{Environment W}.

Definition setAttendees (v : list JsObj) : Async State W unit :=
  setState (fun s => mkState v (loading s) (showForm s) (formData s)).
Definition setLoading (v : bool) : Async State W unit :=
  emit (SetLoading v);;
  setState (fun s => mkState (attendees s) v (showForm s) (formData s)).
Definition setShowForm (v : bool) : Async State W unit :=
  setState (fun s => mkState (attendees s) (loading s) v (formData s)).
Definition setFormData (v : JsObj) : Async State W unit :=
  setState (fun s => mkState (attendees s) (loading s) (showForm s) v).

Definition fetchAttendees : Async State W unit :=
  try_finally
    (try_catch
       (user ← auth_getUser;
        match user with
        | None => throw (mkError "No user found")
        | Some _ =>
            r ← await (from "attendees" |> select [Star] |> order "name" None);
            match error r with
            | Some e => throw e
            | None => setAttendees (default [] (data r))
            end
        end)
       (fun error => toast_error (message error)))
    (setLoading false).

Definition handleSubmit : Async State W unit :=
  s ← getState;
  let formData := formData s in
  try_catch
    (user ← auth_getUser;
     match user with
     | None => throw (mkError "No user found")
     | Some user =>
         r ← await (from "attendees" |> insert [
                 spread formData [("user_id", JStr (uid user))] ]);
         match error r with
         | Some e => throw e
         | None =>
             toast_success "Attendee added successfully";;
             setShowForm false;;
             setFormData empty_form;;
             fetchAttendees
         end
     end)
    (fun error => toast_error (message error)).

Definition handleDelete (id : JsVal) : Async State W unit :=
  ok ← window_confirm "Are you sure you want to delete this attendee?";
  if negb ok then mret tt
  else
    try_catch
      (r ← await (from "attendees" |> delete_ |> eq_ "id" id);
       match error r with
       | Some e => throw e
       | None =>
           toast_success "Attendee deleted successfully";;
           fetchAttendees
       end)
      (fun error => toast_error (message error)).

(** The [onClick] of the edit button of a listed attendee. *)
Definition editClick (attendee : JsObj) : Async State W unit :=
  setFormData (obj [("name", prop attendee "name");
                    ("email", prop attendee "email");
                    ("task", js_or (prop attendee "task") (JStr ""))]);;
  setShowForm true.

Definition newClick : Async State W unit :=
  s ← getState; setShowForm (negb (showForm s)).

Definition cancelClick : Async State W unit := setShowForm false.

Definition change (field : string) (value : string) : Async State W unit :=
  s ← getState; setFormData (spread (formData s) [(field, JStr value)]).

(** [useEffect(() => { fetchAttendees(); }, [])] *)
Definition mount : Async State W unit := fetchAttendees.

(** The user actions the rendered page offers. *)
Inductive Action :=
| Submit
| Delete (id : JsVal)
| Edit (attendee : JsObj)
| New
| Cancel
| Change (field value : string).

Definition handle (a : Action) : Async State W unit :=
  match a with
  | Submit => handleSubmit
  | Delete id => handleDelete id
  | Edit attendee => editClick attendee
  | New => newClick
  | Cancel => cancelClick
  | Change field value => change field value
  end.

(** An exception that escapes an event handler is reported by the
    runtime; the page stays mounted with the state reached. *)
Definition step (c : Ctx State W) (a : Action) : Ctx State W := (handle a c).2.

(** The contexts reached after each of a sequence of actions. *)
Fixpoint history (c : Ctx State W) (actions : list Action) : list (Ctx State W) :=
  match actions with
  | [] => []
  | a :: rest => step c a :: history (step c a) rest
  end.
End Handlers.

(** The queries of the page, as the builder assembles them. *)
Definition fetch_query : Query :=
  mkQuery "attendees" (SELECT [Star]) [] (Some ("name", true)).

Definition new_row (formData : JsObj) (user : User) : JsObj :=
  <["user_id" := JStr (uid user)]> formData.

Definition insert_query (formData : JsObj) (user : User) : Query :=
  mkQuery "attendees" (INSERT [new_row formData user]) [] None.

Definition delete_query (id : JsVal) : Query :=
  mkQuery "attendees" DELETE [("id", id)] None.

Definition confirm_message : string := "Are you sure you want to delete this attendee?".

End AttendeesPage.

(** ** TasksPage *)

Module TasksPage.

Record State := mkState {
  tasks : list JsObj;
  events : list JsObj;
  attendees : list JsObj;
  loading : bool;
  showForm : bool;
  formData : JsObj
}.

Definition empty_form : JsObj :=
  obj [("name", JStr ""); ("deadline", JStr "");
       ("event_id", JStr ""); ("attendee_id", JStr "")].

Definition init : State := mkState [] [] [] true false empty_form.

(** [currentStatus === 'pending' ? 'completed' : 'pending'] *)
Definition newStatus (currentStatus : JsVal) : JsVal :=
  if strict_eq_str currentStatus "pending" then JStr "completed" else JStr "pending".

Section Handlers.
Context {W : Type} `{Environment W}.

Definition setTasks (v : list JsObj) : Async State W unit :=
  setState (fun s => mkState v (events s) (attendees s) (loading s)
                             (showForm s) (formData s)).
Definition setEvents (v : list JsObj) : Async State W unit :=
  setState (fun s => mkState (tasks s) v (attendees s) (loading s)
                             (showForm s) (formData s)).
Definition setAttendees (v : list JsObj) : Async State W unit :=
  setState (fun s => mkState (tasks s) (events s) v (loading s)
                             (showForm s) (formData s)).
Definition setLoading (v : bool) : Async State W unit :=
  emit (SetLoading v);;
  setState (fun s => mkState (tasks s) (events s) (attendees s) v
                             (showForm s) (formData s)).
Definition setShowForm (v : bool) : Async State W unit :=
  setState (fun s => mkState (tasks s) (events s) (attendees s) (loading s)
                             v (formData s)).
Definition setFormData (v : JsObj) : Async State W unit :=
  setState (fun s => mkState (tasks s) (events s) (attendees s) (loading s)
                             (showForm s) v).

Definition fetchTasks : Async State W unit :=
  try_finally
    (try_catch
       (user ← auth_getUser;
        match user with
        | None => throw (mkError "No user found")
        | Some _ =>
            r ← await (from "tasks"
                         |> select [Star;
                                    Embed "event" "events" ["name"];
                                    Embed "attendee" "attendees" ["name"]]
                         |> order "deadline" None);
            match error r with
            | Some e => throw e
            | None => setTasks (default [] (data r))
            end
        end)
       (fun error => toast_error (message error)))
    (setLoading false).

(** The options of the event drop-down. *)
Definition fetchEvents : Async State W unit :=
  user ← auth_getUser;
  match user with
  | None => mret tt
  | Some user =>
      r ← await (from "events" |> select [Col "id"; Col "name"]
                               |> eq_ "user_id" (JStr (uid user)));
      setEvents (default [] (data r))
  end.

(** The options of the attendee drop-down. *)
Definition fetchAttendees : Async State W unit :=
  user ← auth_getUser;
  match user with
  | None => mret tt
  | Some user =>
      r ← await (from "attendees" |> select [Col "id"; Col "name"]
                                  |> eq_ "user_id" (JStr (uid user)));
      setAttendees (default [] (data r))
  end.

Definition handleSubmit : Async State W unit :=
  s ← getState;
  let formData := formData s in
  try_catch
    (user ← auth_getUser;
     match user with
     | None => throw (mkError "No user found")
     | Some user =>
         deadline ← returned (toISOString (prop formData "deadline"));
         r ← await (from "tasks" |> insert [
                 spread formData [("status", JStr "pending");
                                  ("deadline", JStr deadline);
                                  ("user_id", JStr (uid user))] ]);
         match error r with
         | Some e => throw e
         | None =>
             toast_success "Task created successfully";;
             setShowForm false;;
             setFormData empty_form;;
             fetchTasks
         end
     end)
    (fun error => toast_error (message error)).

Definition toggleStatus (id : JsVal) (currentStatus : JsVal) : Async State W unit :=
  try_catch
    (let newStatus := newStatus currentStatus in
     r ← await (from "tasks" |> update (obj [("status", newStatus)])
                             |> eq_ "id" id);
     match error r with
     | Some e => throw e
     | None => fetchTasks
     end)
    (fun error => toast_error (message error)).

Definition handleDelete (id : JsVal) : Async State W unit :=
  ok ← window_confirm "Are you sure you want to delete this task?";
  if negb ok then mret tt
  else
    try_catch
      (r ← await (from "tasks" |> delete_ |> eq_ "id" id);
       match error r with
       | Some e => throw e
       | None =>
           toast_success "Task deleted successfully";;
           fetchTasks
       end)
      (fun error => toast_error (message error)).

(** The status button of a listed task:
    [onClick={() => toggleStatus(task.id, task.status)}]. *)
Definition statusClick (task : JsObj) : Async State W unit :=
  toggleStatus (prop task "id") (prop task "status").

Definition newClick : Async State W unit :=
  s ← getState; setShowForm (negb (showForm s)).

Definition cancelClick : Async State W unit := setShowForm false.

Definition change (field : string) (value : string) : Async State W unit :=
  s ← getState; setFormData (spread (formData s) [(field, JStr value)]).

(** The three fetches as [useEffect] calls them, without awaiting them,
    each cut at its two awaits: the call itself, which runs up to
    [await supabase.auth.getUser()]; the part from there to the awaited
    query; and the part from the answer of the query to the end. *)
Definition fetchTasks_answered (r : Response) : Async State W (Promise State W) :=
  try_finally
    (try_catch
       (match error r with
        | Some e => throw e
        | None => setTasks (default [] (data r))
        end)
       (fun error => toast_error (message error)))
    (setLoading false);;
  mret Settled.

Definition fetchTasks_resolved (user : option User)
  : Async State W (Promise State W) :=
  match user with
  | None =>
      try_finally
        (try_catch (throw (mkError "No user found"))
                   (fun error => toast_error (message error)))
        (setLoading false);;
      mret Settled
  | Some _ =>
      r ← await (from "tasks"
                   |> select [Star;
                              Embed "event" "events" ["name"];
                              Embed "attendee" "attendees" ["name"]]
                   |> order "deadline" None);
      mret (Awaiting (fetchTasks_answered r))
  end.

Definition fetchTasks_call : Async State W (Promise State W) :=
  user ← auth_getUser;
  mret (Awaiting (fetchTasks_resolved user)).

Definition fetchEvents_answered (r : Response) : Async State W (Promise State W) :=
  setEvents (default [] (data r));;
  mret Settled.

Definition fetchEvents_resolved (user : option User)
  : Async State W (Promise State W) :=
  match user with
  | None => mret Settled
  | Some user =>
      r ← await (from "events" |> select [Col "id"; Col "name"]
                               |> eq_ "user_id" (JStr (uid user)));
      mret (Awaiting (fetchEvents_answered r))
  end.

Definition fetchEvents_call : Async State W (Promise State W) :=
  user ← auth_getUser;
  mret (Awaiting (fetchEvents_resolved user)).

Definition fetchAttendees_answered (r : Response) : Async State W (Promise State W) :=
  setAttendees (default [] (data r));;
  mret Settled.

Definition fetchAttendees_resolved (user : option User)
  : Async State W (Promise State W) :=
  match user with
  | None => mret Settled
  | Some user =>
      r ← await (from "attendees" |> select [Col "id"; Col "name"]
                                  |> eq_ "user_id" (JStr (uid user)));
      mret (Awaiting (fetchAttendees_answered r))
  end.

Definition fetchAttendees_call : Async State W (Promise State W) :=
  user ← auth_getUser;
  mret (Awaiting (fetchAttendees_resolved user)).

(** Each of the three calls once, then once more. *)
Definition in_turn : list nat := [0; 1; 2; 0; 1; 2].

(** [useEffect(() => { fetchTasks(); fetchEvents(); fetchAttendees(); }, [])]:
    the three calls are made one after the other and none is awaited, so
    each has called [getUser] before any of them goes on. [arrivals] is the
    order in which the answers then arrive, each entry naming the call (0, 1
    or 2) that is resumed next; whatever is still pending after these is
    resumed in turn. The result is the three promises. *)
Definition mounting (arrivals : list nat) : Async State W (list (Promise State W)) :=
  tasks ← fetchTasks_call;
  events ← fetchEvents_call;
  attendees ← fetchAttendees_call;
  deliver_all (arrivals ++ in_turn) [tasks; events; attendees].

Definition mountEffect (arrivals : list nat) : Async State W unit :=
  mounting arrivals;; mret tt.

(** The mount when every answer arrives in the order of the calls. *)
Definition mount : Async State W unit := mountEffect [].

(** The user actions the rendered page offers. *)
Inductive Action :=
| Submit
| Delete (id : JsVal)
| Status (task : JsObj)
| New
| Cancel
| Change (field value : string).

Definition handle (a : Action) : Async State W unit :=
  match a with
  | Submit => handleSubmit
  | Delete id => handleDelete id
  | Status task => statusClick task
  | New => newClick
  | Cancel => cancelClick
  | Change field value => change field value
  end.

(** An exception that escapes an event handler is reported by the
    runtime; the page stays mounted with the state reached. *)
Definition step (c : Ctx State W) (a : Action) : Ctx State W := (handle a c).2.

(** The contexts reached after each of a sequence of actions. *)
Fixpoint history (c : Ctx State W) (actions : list Action) : list (Ctx State W) :=
  match actions with
  | [] => []
  | a :: rest => step c a :: history (step c a) rest
  end.
End Handlers.

(** The queries of the page, as the builder assembles them. *)
Definition fetch_query : Query :=
  mkQuery "tasks"
    (SELECT [Star; Embed "event" "events" ["name"];
             Embed "attendee" "attendees" ["name"]])
    [] (Some ("deadline", true)).

Definition events_query (user : User) : Query :=
  mkQuery "events" (SELECT [Col "id"; Col "name"]) [("user_id", JStr (uid user))] None.

Definition attendees_query (user : User) : Query :=
  mkQuery "attendees" (SELECT [Col "id"; Col "name"])
    [("user_id", JStr (uid user))] None.

Definition new_row (formData : JsObj) (deadline : string) (user : User) : JsObj :=
  <["user_id" := JStr (uid user)]>
    (<["deadline" := JStr deadline]> (<["status" := JStr "pending"]> formData)).

Definition insert_query (formData : JsObj) (deadline : string) (user : User) : Query :=
  mkQuery "tasks" (INSERT [new_row formData deadline user]) [] None.

Definition update_query (id status : JsVal) : Query :=
  mkQuery "tasks" (UPDATE {["status" := status]}) [("id", id)] None.

Definition delete_query (id : JsVal) : Query :=
  mkQuery "tasks" DELETE [("id", id)] None.

Definition confirm_message : string := "Are you sure you want to delete this task?".

End TasksPage.

(** ** App: routes and the route guard *)

Module App.

(** The session object held by the auth context; the guard only tests
    whether there is one. *)
Record Session := mkSession { session_user : User }.

Inductive PageComponent := Login | Events | Attendees | Tasks.

#[global] Instance PageComponent_eq_dec : EqDecision PageComponent.
Proof. solve_decision. Defined.

(** The elements the router can be asked to render. *)
Inductive Element :=
| Null
| Navigate (to : string) (replace : bool)
| Fragment (children : Element)
| Layout (outlet : Element)
| Page (p : PageComponent).

(** [const { session } = useAuth();
     if (!session) return <Navigate to="/login" replace />;
     return <>{children}</>;] *)
Definition ProtectedRoute (session : option Session) (children : Element) : Element :=
  match session with
  | None => Navigate "/login" true
  | Some _ => Fragment children
  end.

(** How [<Routes>] compares the pathname of a location with the path of a
    route ([matchPath] of react-router 6 with its defaults, [caseSensitive]
    off and [end] on): the path is matched from the start of the pathname
    without regard to the case of letters, and any number of trailing
    slashes is ignored. The paths of [App] have neither parameters nor
    wildcards. [pathname] is the pathname as the router compares it, that
    is, decoded. *)
Definition lower (c : ascii) : ascii :=
  let n := nat_of_ascii c in
  if (65 <=? n)%nat && (n <=? 90)%nat then ascii_of_nat (n + 32) else c.

Fixpoint slashes (s : string) : bool :=
  match s with
  | EmptyString => true
  | String c rest => Ascii.eqb c "/" && slashes rest
  end.

Fixpoint matchPath (pattern pathname : string) : bool :=
  match pattern, pathname with
  | EmptyString, rest => slashes rest
  | String a p, String b q => Ascii.eqb (lower a) (lower b) && matchPath p q
  | String _ _, EmptyString => false
  end.

(** The children of the route ["/"]: the index route and the three pages.
    Their paths are relative to the parent, so the full paths are ["/"],
    ["/events"], ["/attendees"] and ["/tasks"]. *)
Definition child_route (pathname : string) : option Element :=
  if matchPath "/" pathname then Some (Navigate "/events" true)
  else if matchPath "/events" pathname then Some (Page Events)
  else if matchPath "/attendees" pathname then Some (Page Attendees)
  else if matchPath "/tasks" pathname then Some (Page Tasks)
  else None.

(** [<Routes>] of [App] at a location; a location no route matches renders
    nothing. *)
Definition Routes (session : option Session) (pathname : string) : Element :=
  if matchPath "/login" pathname then Page Login
  else
    match child_route pathname with
    | Some outlet => ProtectedRoute session (Layout outlet)
    | None => Null
    end.

(** Modelled from the spec: the component [Layout] (components/Layout) is
    the common layout and navigation shell under which the page of the
    matched child route is composed, so the pages it mounts are those of
    its outlet. A [Navigate] element mounts no page. *)
Fixpoint mounted (e : Element) : list PageComponent :=
  match e with
  | Null => []
  | Navigate _ _ => []
  | Fragment children => mounted children
  | Layout outlet => mounted outlet
  | Page p => [p]
  end.

(** The location a rendered [Navigate] sends the router to. *)
Fixpoint redirect (e : Element) : option string :=
  match e with
  | Null => None
  | Navigate to _ => Some to
  | Fragment children => redirect children
  | Layout outlet => redirect outlet
  | Page _ => None
  end.

Section Mount.
Context {W : Type} `{Environment W}.

(** The effects of mounting a page: its [useEffect] run from its initial
    state. The login page issues no request of its own on mount. *)
Definition mount_page (p : PageComponent) (w : W) : list Effect * W :=
  match p with
  | Login => ([], w)
  | Events =>
      let c := (run EventsPage.mount EventsPage.init w).2 in (trace c, world c)
  | Attendees =>
      let c := (run AttendeesPage.mount AttendeesPage.init w).2 in
      (trace c, world c)
  | Tasks =>
      let c := (run TasksPage.mount TasksPage.init w).2 in (trace c, world c)
  end.

Fixpoint mount_all (ps : list PageComponent) (w : W) : list Effect * W :=
  match ps with
  | [] => ([], w)
  | p :: ps =>
      let '(t1, w1) := mount_page p w in
      let '(t2, w2) := mount_all ps w1 in
      (t1 ++ t2, w2)
  end.

(** Rendering a location: the pages mounted and the effects they run. *)
Definition render (session : option Session) (path : string) (w : W)
  : list PageComponent * list Effect * W :=
  let ps := mounted (Routes session path) in
  let '(t, w') := mount_all ps w in
  (ps, t, w').

(** Following the redirects of [Navigate] elements and of the login page
    (its effect [if (session) navigate('/events')], run where the login page
    is mounted) until a location settles; the result is the final location,
    the pages mounted there and all effects run on the way. *)
Fixpoint visit (fuel : nat) (session : option Session) (path : string) (w : W)
  : option (string * list PageComponent * list Effect * W) :=
  match fuel with
  | O => None
  | S fuel =>
      let e := Routes session path in
      let '(ps, t, w') := render session path w in
      let next :=
        match redirect e with
        | Some to => Some to
        | None =>
            if bool_decide (Login ∈ ps) then
              match session with
              | Some _ => Some "/events"
              | None => None
              end
            else None
        end in
      match next with
      | None => Some (path, ps, t, w')
      | Some to =>
          match visit fuel session to w' with
          | Some (path', ps', t', w'') => Some (path', ps', t ++ t', w'')
          | None => None
          end
      end
  end.
End Mount.

End App.

(** ** A reference backend *)

Module Backend.

(** Modelled from the spec: the hosted backend is not part of the
    repository. This in-memory stand-in follows sections 3 and 6 of the
    specification: three collections whose rows carry an opaque string
    identifier and an owning-user column; [select] with equality filters,
    an order and joins, [insert], [update] and [delete] by filter, all
    implicitly scoped by the authenticated user of the request;
    [getCurrentUser] yields that user or none. It also scripts the answers
    given to the confirmation dialog. *)
Record World := mkWorld {
  current_user : option User;
  tables : gmap string (list JsObj);
  next_id : nat;
  answers : list bool
}.

(** SQL equality of a stored value and a filter value: only two strings
    can be equal. *)
Definition matches (v filter : JsVal) : bool :=
  match v, filter with
  | JStr a, JStr b => String.eqb a b
  | _, _ => false
  end.

Definition owned_by (u : User) (row : JsObj) : bool :=
  matches (prop row "user_id") (JStr (uid u)).

(** Row-level scoping: a request sees the rows of its user only. *)
Definition visible (w : World) (row : JsObj) : bool :=
  match current_user w with
  | Some u => owned_by u row
  | None => false
  end.

Definition satisfies (filters : list (string * JsVal)) (row : JsObj) : bool :=
  forallb (fun f => matches (prop row f.1) f.2) filters.

Definition selected (w : World) (filters : list (string * JsVal)) (row : JsObj) : bool :=
  visible w row && satisfies filters row.

(** Ordering of sort keys: strings in lexicographic order, anything else
    after them. *)
Definition key_leb (a b : JsVal) : bool :=
  match a, b with
  | JStr x, JStr y => String.leb x y
  | JStr _, _ => true
  | _, JStr _ => false
  | _, _ => true
  end.

Definition row_le (column : string) (ascending : bool) (r1 r2 : JsObj) : Prop :=
  (if ascending then key_leb (prop r1 column) (prop r2 column)
   else key_leb (prop r2 column) (prop r1 column)) = true.

#[global] Instance row_le_dec column ascending r1 r2 :
  Decision (row_le column ascending r1 r2).
Proof. unfold row_le. apply _. Defined.

Definition pick (columns : list string) (row : JsObj) : JsObj :=
  foldl (fun o c => match row !! c with
                    | Some v => <[c := v]> o
                    | None => o
                    end) ∅ columns.

(** The joined resource [alias:table(columns)]: the row of [table] the
    foreign key [alias_id] points to, or [null]. *)
Definition embed (w : World) (row : JsObj) (alias table : string)
    (columns : list string) : JsVal :=
  match List.find (fun r => visible w r &&
                            matches (prop r "id") (prop row (String.append alias "_id")))
                  (default [] (tables w !! table)) with
  | Some r => JObj (pick columns r)
  | None => JNull
  end.

Definition project (w : World) (columns : list Column) (row : JsObj) : JsObj :=
  foldl (fun o c =>
           match c with
           | Star => row ∪ o
           | Col name =>
               match row !! name with
               | Some v => <[name := v]> o
               | None => o
               end
           | Embed alias table cols => <[alias := embed w row alias table cols]> o
           end) ∅ columns.

(** A task row with the two resources the task page asks for joined in. *)
Definition joined (w : World) (row : JsObj) : JsObj :=
  <["attendee" := embed w row "attendee" "attendees" ["name"]]>
    (<["event" := embed w row "event" "events" ["name"]]> row).

Definition sort_rows (order : option (string * bool)) (rows : list JsObj) : list JsObj :=
  match order with
  | Some (column, ascending) => merge_sort (row_le column ascending) rows
  | None => rows
  end.

(** The identifier given to the [n]-th row ever inserted. *)
Definition fresh_id (n : nat) : JsVal := JStr (String.append "id-" (pretty n)).

Definition with_ids (n : nat) (rows : list JsObj) : list JsObj :=
  imap (fun i row => <["id" := fresh_id (n + i)]> row) rows.

Definition failure (msg : string) : Response := mkResponse None (Some (mkError msg)).

Definition set_table (w : World) (table : string) (rows : list JsObj) (n : nat) : World :=
  mkWorld (current_user w) (<[table := rows]> (tables w)) n (answers w).

(** Modelled from the spec: the gateway operations
    [select(collection, filter, order, joins) -> records | error],
    [insert(collection, record)], [update(collection, id, patch)] and
    [delete(collection, id)], scoped by the user of the request. A query on
    a collection that does not exist, or an insert without a user, is
    answered with an error; an inserted row receives a fresh identifier. *)
Definition run_query (q : Query) (w : World) : Response * World :=
  match tables w !! q_table q with
  | None => (failure "relation does not exist", w)
  | Some rows =>
      match q_verb q with
      | SELECT columns =>
          let found := List.filter (selected w (q_eq q)) rows in
          (mkResponse (Some (project w columns <$> sort_rows (q_order q) found)) None, w)
      | INSERT new =>
          match current_user w with
          | None => (failure "permission denied", w)
          | Some _ =>
              (mkResponse None None,
               set_table w (q_table q) (rows ++ with_ids (next_id w) new)
                         (next_id w + length new))
          end
      | UPDATE patch =>
          (mkResponse None None,
           set_table w (q_table q)
             ((fun row => if selected w (q_eq q) row then patch ∪ row else row) <$> rows)
             (next_id w))
      | DELETE =>
          (mkResponse None None,
           set_table w (q_table q)
             (List.filter (fun row => negb (selected w (q_eq q) row)) rows)
             (next_id w))
      end
  end.

(** The rows of the collection after [update({ status }).eq('id', id)]. *)
Definition patched (w : World) (id status : JsVal) (rows : list JsObj) : list JsObj :=
  (fun row => if selected w [("id", id)] row then {["status" := status]} ∪ row else row)
    <$> rows.

(** Every row of [u] with identifier [i] has the status [s]: the status an
    up-to-date page shows for that task. *)
Definition stored_status (u : User) (i : string) (s : JsVal) (rows : list JsObj) : bool :=
  forallb (fun row => implb (owned_by u row && matches (prop row "id") (JStr i))
                            (matches (prop row "status") s))
          rows.

Definition answer (w : World) : bool * World :=
  match answers w with
  | b :: rest => (b, mkWorld (current_user w) (tables w) (next_id w) rest)
  | [] => (false, w)
  end.

(** Modelled from the spec: the backend as an environment
    ([getCurrentUser() -> user | none] and the gateway above), for any date
    routines of the runtime. *)
Definition env (toISO fmt : JsVal → Completion string) : Environment World := {|
  getUser := fun w => (current_user w, w);
  execute := run_query;
  confirm := fun _ => answer;
  toISOString := toISO;
  format_datetime_local := fmt
|}.

(** A database with the three collections, all empty. *)
Definition empty_tables : gmap string (list JsObj) :=
  <["tasks" := []]> (<["attendees" := []]> (<["events" := []]> ∅)).

End Backend.

(** A sample runtime whose local time zone is UTC. Dates are time values,
    milliseconds since 1970-01-01T00:00Z. Strings are parsed in the
    date-time string format of ECMAScript, with or without seconds,
    fraction and offset, as a [datetime-local] input produces them, as the
    backend returns them ([+00:00]) and as [toISOString] prints them; as in
    V8 a day up to 31 counts on into the next month and [24:00] is the end
    of the day. Strings in other formats, on which engines differ, are
    invalid here. *)
Module UTC.
#[local] Open Scope Z_scope.

(** The RangeError of the date routines. *)
Definition invalid_time_value : Error := mkError "Invalid time value".

Definition digit (c : ascii) : option Z :=
  let n := Z.of_nat (nat_of_ascii c) in
  if (48 <=? n) && (n <=? 57) then Some (n - 48) else None.

(** [n] digits at the head of [s]: their value and the rest of [s]. *)
Fixpoint number (n : nat) (acc : Z) (s : string) : option (Z * string) :=
  match n with
  | O => Some (acc, s)
  | S n =>
      match s with
      | String c rest => d ← digit c; number n (10 * acc + d) rest
      | EmptyString => None
      end
  end.

(** What follows the character [c] when [s] starts with it, [absent]
    otherwise. *)
Definition after {A : Type} (c : ascii) (p : string → option (A * string))
    (absent : A) (s : string) : option (A * string) :=
  match s with
  | String c' rest => if Ascii.eqb c c' then p rest else Some (absent, s)
  | EmptyString => Some (absent, s)
  end.

(** [YYYY], or a sign and six digits. *)
Definition year (s : string) : option (Z * string) :=
  match s with
  | String "+" rest => number 6 0 rest
  | String "-" rest =>
      '(y, rest) ← number 6 0 rest;
      if y =? 0 then None else Some (- y, rest)
  | _ => number 4 0 s
  end.

(** The digits after the decimal point of the seconds, as milliseconds:
    digits beyond the third are dropped. *)
Fixpoint fraction (scale acc : Z) (seen : bool) (s : string) : option (Z * string) :=
  match s with
  | String c rest =>
      match digit c with
      | Some d => fraction (scale / 10) (acc + d * scale) true rest
      | None => if seen then Some (acc, s) else None
      end
  | EmptyString => if seen then Some (acc, s) else None
  end.

Definition seconds (s : string) : option (Z * Z * string) :=
  '(sec, s) ← number 2 0 s;
  '(ms, s) ← after "." (fraction 100 0 false) 0 s;
  Some (sec, ms, s).

(** [Z] or [+HH:mm] or [-HH:mm], in minutes east of Greenwich; without an
    offset the time is local time, which is UTC here. *)
Definition offset (s : string) : option (Z * string) :=
  match s with
  | String "Z" rest => Some (0, rest)
  | String "+" rest =>
      '(h, rest) ← number 2 0 rest;
      '(m, rest) ← after ":" (number 2 0) (-1) rest;
      if (h <=? 23) && (0 <=? m) && (m <=? 59) then Some (60 * h + m, rest) else None
  | String "-" rest =>
      '(h, rest) ← number 2 0 rest;
      '(m, rest) ← after ":" (number 2 0) (-1) rest;
      if (h <=? 23) && (0 <=? m) && (m <=? 59) then Some (- (60 * h + m), rest) else None
  | _ => Some (0, s)
  end.

(** [HH:mm], [HH:mm:ss] or [HH:mm:ss.sss], then the offset: the
    milliseconds since midnight UTC. *)
Definition time (s : string) : option (Z * string) :=
  '(h, s) ← number 2 0 s;
  '(m, s) ← after ":" (number 2 0) (-1) s;
  '(sec, ms, s) ← after ":" seconds (0, 0) s;
  '(east, s) ← offset s;
  if (0 <=? m) && (m <=? 59) && (sec <=? 59) &&
     ((h <=? 23) || ((h =? 24) && (m =? 0) && (sec =? 0) && (ms =? 0)))
  then Some (((h * 60 + m - east) * 60 + sec) * 1000 + ms, s)
  else None.

(** The days from 1970-01-01 to a date of the proleptic Gregorian
    calendar; a day beyond the end of its month counts on into the next. *)
Definition days_from_civil (y m d : Z) : Z :=
  let y := if m <=? 2 then y - 1 else y in
  let era := y / 400 in
  let yoe := y - era * 400 in
  let mp := (m + 9) mod 12 in
  let doy := (153 * mp + 2) / 5 + d - 1 in
  let doe := yoe * 365 + yoe / 4 - yoe / 100 + doy in
  era * 146097 + doe - 719468.

Definition civil_from_days (z : Z) : Z * Z * Z :=
  let z := z + 719468 in
  let era := z / 146097 in
  let doe := z - era * 146097 in
  let yoe := (doe - doe / 1460 + doe / 36524 - doe / 146096) / 365 in
  let doy := doe - (365 * yoe + yoe / 4 - yoe / 100) in
  let mp := (5 * doy + 2) / 153 in
  let d := doy - (153 * mp + 2) / 5 + 1 in
  let m := if mp <? 10 then mp + 3 else mp - 9 in
  (if m <=? 2 then yoe + era * 400 + 1 else yoe + era * 400, m, d).

(** [Date.parse] on the date-time string format of ECMAScript: a date
    [YYYY], [YYYY-MM] or [YYYY-MM-DD], alone or followed by [T] and a time.
    Strings in other formats, on which engines differ, are invalid here. *)
Definition parse (s : string) : option Z :=
  '(y, s) ← year s;
  '(m, s) ← after "-" (number 2 0) 1 s;
  '(d, s) ← after "-" (number 2 0) 1 s;
  '(ms, s) ← after "T" time 0 s;
  let t := days_from_civil y m d * 86400000 + ms in
  if String.eqb s "" && (1 <=? m) && (m <=? 12) && (1 <=? d) && (d <=? 31) &&
     (Z.abs t <=? 8640000000000000)
  then Some t else None.

(** The time value of [new Date(v)]. *)
Definition time_value (v : JsVal) : option Z :=
  match v with
  | JNull => Some 0
  | JStr s => parse s
  | JUndefined | JObj _ => None
  end.

(** [n] in [width] decimal digits. *)
Fixpoint fixed (width : nat) (n : Z) (acc : string) : string :=
  match width with
  | O => acc
  | S width =>
      fixed width (n / 10) (String (ascii_of_nat (48 + Z.to_nat (n mod 10))) acc)
  end.

Definition two (n : Z) : string := fixed 2 n "".

Definition clock (t : Z) : Z * Z * Z * Z :=
  let ms := t mod 86400000 in
  (ms / 3600000, ms / 60000 mod 60, ms / 1000 mod 60, ms mod 1000).

(** [new Date(v).toISOString()] *)
Definition toISOString (v : JsVal) : Completion string :=
  match time_value v with
  | None => Thrown invalid_time_value
  | Some t =>
      let '(y, m, d) := civil_from_days (t / 86400000) in
      let '(h, mi, s, ms) := clock t in
      let year :=
        if (0 <=? y) && (y <=? 9999) then fixed 4 y ""
        else if y <? 0 then String "-" (fixed 6 (- y) "")
        else String "+" (fixed 6 y "") in
      Normal (String.concat ""
                [year; "-"; two m; "-"; two d; "T";
                 two h; ":"; two mi; ":"; two s; "."; fixed 3 ms ""; "Z"])
  end.

(** [format(new Date(v), "yyyy-MM-dd'T'HH:mm")] of date-fns: the year of the
    era in at least four digits. *)
Definition format_datetime_local (v : JsVal) : Completion string :=
  match time_value v with
  | None => Thrown invalid_time_value
  | Some t =>
      let '(y, m, d) := civil_from_days (t / 86400000) in
      let '(h, mi, _, _) := clock t in
      let y := if 0 <? y then y else 1 - y in
      let year :=
        if y <? 10000 then fixed 4 y ""
        else if y <? 100000 then fixed 5 y ""
        else fixed 6 y "" in
      Normal (String.concat "" [year; "-"; two m; "-"; two d; "T"; two h; ":"; two mi])
  end.
Definition env : Environment Backend.World :=
  Backend.env toISOString format_datetime_local.

End UTC.


(** ** Statements shared by the three record pages *)

Section PageStatements.
Context {St W : Type} `{Environment W}.
Variable items : St → list JsObj.
Variable loading : St → bool.
Variable showForm : St → bool.
Variable formData : St → JsObj.

(** What [fetchAll] leaves behind: the loading flag is cleared in every
    case; without a user or on a remote error the items are untouched and
    the message is shown; on success the items are the fetched records. *)
Definition fetch_settles (fetch : Async St W unit) (q : Query) : Prop :=
  ∀ (s : St) (w : W),
    let c := (run fetch s w).2 in
    loading (page c) = false ∧
    match getUser w with
    | (None, _) =>
        items (page c) = items s ∧ error_toasts (trace c) = ["No user found"]
    | (Some _, w1) =>
        let r := (execute q w1).1 in
        match error r with
        | Some e => items (page c) = items s ∧ error_toasts (trace c) = [message e]
        | None => items (page c) = default [] (data r) ∧ error_toasts (trace c) = []
        end
    end.

(** What [delete(id)] does: the dialog comes first; declined, nothing else
    happens; confirmed, the row is deleted by identifier and, on success,
    the list is fetched again. *)
Definition delete_confirms (handleDelete : JsVal → Async St W unit)
    (fetch : Async St W unit) (question done : string) (q : JsVal → Query) : Prop :=
  ∀ (id : JsVal) (s : St) (w : W),
    let r := run (handleDelete id) s w in
    head (trace r.2) = Some (Confirm question) ∧
    match confirm question w with
    | (false, w1) => r = (Normal tt, mkCtx s w1 [Confirm question])
    | (true, w1) =>
        let '(resp, w2) := execute (q id) w1 in
        match error resp with
        | Some e =>
            r = (Normal tt,
                 mkCtx s w2 [Confirm question; Request (q id); ToastError (message e)])
        | None =>
            r = fetch (mkCtx s w2 [Confirm question; Request (q id); ToastSuccess done])
        end
    end.


(** An operation that fails with the authentication-required error when no
    user can be resolved: the error is shown and nothing is sent. *)
Definition authentication_required (op : Async St W unit) : Prop :=
  ∀ (s : St) (w : W),
    (getUser w).1 = None →
    let c := (run op s w).2 in
    error_toasts (trace c) = ["No user found"] ∧ queries (trace c) = [].

End PageStatements.

(** The number of times a flag changes value along a run. *)
Fixpoint flips (l : list bool) : nat :=
  match l with
  | a :: (b :: _) as rest => (if Bool.eqb a b then 0 else 1) + flips rest
  | _ => 0
  end.

(** ** Sample data *)

Module Sample.

Definition alice : User := mkUser "alice".

(** A signed-in user and three empty collections; the dialog is declined
    once, then confirmed. *)
Definition signed_in : Backend.World :=
  Backend.mkWorld (Some alice) Backend.empty_tables 0 [false; true].

(** Nobody is signed in. *)
Definition anonymous : Backend.World :=
  Backend.mkWorld None Backend.empty_tables 0 [].

(** A signed-in user against a database that lacks the collections: every
    query is answered with an error. *)
Definition broken : Backend.World :=
  Backend.mkWorld (Some alice) ∅ 0 [true].

Definition launch_form : JsObj :=
  obj [("name", JStr "Launch"); ("description", JStr "");
       ("location", JStr "HQ"); ("date", JStr "2025-06-01T10:00")].

Definition launch : JsObj :=
  obj [("id", JStr "id-0"); ("name", JStr "Launch"); ("description", JStr "");
       ("location", JStr "HQ"); ("date", JStr "2025-06-01T10:00:00.000Z");
       ("user_id", JStr "alice")].

Definition prep_deck_form : JsObj :=
  obj [("name", JStr "Prep deck"); ("deadline", JStr "2025-05-30T09:00");
       ("event_id", JStr "id-0"); ("attendee_id", JStr "")].

Definition prep_deck : JsObj :=
  obj [("id", JStr "id-1"); ("name", JStr "Prep deck");
       ("deadline", JStr "2025-05-30T09:00:00.000Z");
       ("event_id", JStr "id-0"); ("attendee_id", JStr "");
       ("status", JStr "pending"); ("user_id", JStr "alice")].

(** An attendee of alice with a task label, as the backend lists it. *)
Definition bob : JsObj :=
  obj [("id", JStr "id-7"); ("name", JStr "Bob"); ("email", JStr "bob@example.com");
       ("task", JStr "Catering"); ("user_id", JStr "alice")].

(** The database after the launch event and the task to prepare the deck
    have been created. *)
Definition planned : Backend.World :=
  Backend.mkWorld (Some alice)
    (<["tasks" := [prep_deck]]> (<["events" := [launch]]> Backend.empty_tables))
    2 [].

End Sample.


(** ** LoginPage *)

(** The sign-in calls of the client and the router, as the login page uses
    them. *)
Class SignIn (W : Type) := {
  (** [await supabase.auth.signInWithPassword({ email, password })],
      projected to [error] *)
  signInWithPassword : string → string → W → option Error * W;
  (** [await supabase.auth.signInWithOAuth({ provider })], projected to
      [error] *)
  signInWithOAuth : string → W → option Error * W;
  (** [navigate(to)] of the router *)
  navigate : string → W → W
}.

Module LoginPage.

Record State := mkState {
  email : string;
  password : string;
  loading : bool
}.

(** The initial values of the three [useState] hooks. *)
Definition init : State := mkState "" "" false.

Section Handlers.
Context {W : Type} `{SignIn W}.

Definition setEmail (v : string) : Async State W unit :=
  setState (fun s => mkState v (password s) (loading s)).
Definition setPassword (v : string) : Async State W unit :=
  setState (fun s => mkState (email s) v (loading s)).
Definition setLoading (v : bool) : Async State W unit :=
  setState (fun s => mkState (email s) (password s) v).

(** A call to the sign-in client or the router. *)
Definition outside {A} (f : W → A * W) : Async State W A :=
  fun c => let '(a, w') := f (world c) in (Normal a, mkCtx (page c) w' (trace c)).

Definition go (to : string) : Async State W unit :=
  outside (fun w => (tt, navigate to w)).

(** [useEffect(() => { if (session) navigate('/events'); }, [session, navigate])] *)
Definition sessionEffect (session : option App.Session) : Async State W unit :=
  match session with
  | Some _ => go "/events"
  | None => mret tt
  end.

Definition handleEmailSignIn : Async State W unit :=
  s ← getState;
  setLoading true;;
  try_finally
    (try_catch
       (error ← outside (signInWithPassword (email s) (password s));
        match error with
        | Some e => throw e
        | None => go "/events"
        end)
       (fun error => toast_error (message error)))
    (setLoading false).

Definition handleGoogleSignIn : Async State W unit :=
  setLoading true;;
  try_finally
    (try_catch
       (error ← outside (signInWithOAuth "google");
        match error with
        | Some e => throw e
        | None => toast_success "Redirecting to Google sign-in..."
        end)
       (fun error => toast_error (message error)))
    (setLoading false).

(** Both buttons carry [disabled={loading}]. *)
Definition buttonsDisabled (s : State) : bool := loading s.

End Handlers.

End LoginPage.

(** ** What the task list shows *)

Module TasksView.

Inductive Icon := CheckCircle | XCircle.

(** [status === 'completed' ? <CheckCircle /> : <XCircle />] *)
Definition icon (status : JsVal) : Icon :=
  if strict_eq_str status "completed" then CheckCircle else XCircle.

(** The icon of the status button of a listed task. *)
Definition statusIcon (task : JsObj) : Icon := icon (prop task "status").

End TasksView.

(** ** The inputs of the forms *)

Module Inputs.

(** The properties of [formData] the inputs of each form are bound to. *)
Definition events : list string := ["name"; "description"; "location"; "date"].
Definition attendees : list string := ["name"; "email"; "task"].
Definition tasks : list string := ["name"; "event_id"; "attendee_id"; "deadline"].

(** The actions a rendered page offers: a change is always that of one of
    its inputs. *)
Definition events_offer (a : EventsPage.Action) : bool :=
  match a with
  | EventsPage.Change field _ => bool_decide (field ∈ events)
  | _ => true
  end.

Definition attendees_offer (a : AttendeesPage.Action) : bool :=
  match a with
  | AttendeesPage.Change field _ => bool_decide (field ∈ attendees)
  | _ => true
  end.

Definition tasks_offer (a : TasksPage.Action) : bool :=
  match a with
  | TasksPage.Change field _ => bool_decide (field ∈ tasks)
  | _ => true
  end.

(** An insert of one row whose properties are exactly [columns]. *)
Definition inserts_columns (columns : gset string) (q : Query) : Prop :=
  ∃ row : JsObj, q_verb q = INSERT [row] ∧ dom row = columns.

End Inputs.

(** The shape a page keeps: the form has exactly the properties its inputs
    are bound to, and every insert sent so far was of one row with exactly
    those properties and the owner (for a task also the status). *)
Section Shapes.
Context {W : Type}.

Definition events_shape (c : Ctx EventsPage.State W) : Prop :=
  dom (EventsPage.formData (page c)) = list_to_set Inputs.events ∧
  Forall (Inputs.inserts_columns (list_to_set Inputs.events ∪ {["user_id"]}))
         (inserts (trace c)).

Definition attendees_shape (c : Ctx AttendeesPage.State W) : Prop :=
  dom (AttendeesPage.formData (page c)) = list_to_set Inputs.attendees ∧
  Forall (Inputs.inserts_columns (list_to_set Inputs.attendees ∪ {["user_id"]}))
         (inserts (trace c)).

Definition tasks_shape (c : Ctx TasksPage.State W) : Prop :=
  dom (TasksPage.formData (page c)) = list_to_set Inputs.tasks ∧
  Forall (Inputs.inserts_columns
            (list_to_set Inputs.tasks ∪ {["status"]} ∪ {["user_id"]}))
         (inserts (trace c)).

End Shapes.

(** Where the loading flag of the task page stands while the calls of its
    effect are pending: as long as the call of [fetchTasks] has not settled
    the setter has not been called; once it has, the setter has been called
    once, with [false]. *)
Definition tasks_loading_stage {W : Type} (settled : bool)
    (c : Ctx TasksPage.State W) : Prop :=
  if settled
  then loading_writes (trace c) = [false] ∧ TasksPage.loading (page c) = false
  else loading_writes (trace c) = [].

(** The actions of the task page other than choosing an attendee. *)
Definition leaves_unassigned (a : TasksPage.Action) : bool :=
  match a with
  | TasksPage.Change field _ => negb (String.eqb field "attendee_id")
  | _ => true
  end.

(** The form holds the value of the option "Unassigned", and so did every
    row inserted so far. *)
Definition unassigned {W : Type} (c : Ctx TasksPage.State W) : Prop :=
  TasksPage.formData (page c) !! "attendee_id" = Some (JStr "") ∧
  Forall (fun q => ∃ row : JsObj, q_verb q = INSERT [row] ∧
                                  row !! "attendee_id" = Some (JStr ""))
         (inserts (trace c)).

(** A query that only reads. *)
Definition is_read (q : Query) : bool :=
  match q_verb q with
  | SELECT _ => true
  | _ => false
  end.

(** ** A scripted environment *)

(** An environment for examples whose answers are read off lists: each call
    takes the next answer of its kind. When a list is exhausted nobody is
    signed in, a query is answered with an error and the dialog is declined.
    The date routines are those of [UTC]. *)
Module Script.

Record World := mkWorld {
  users : list (option User);
  responses : list Response;
  answers : list bool
}.

Definition next_user (w : World) : option User * World :=
  match users w with
  | u :: rest => (u, mkWorld rest (responses w) (answers w))
  | [] => (None, w)
  end.

Definition next_response (w : World) : Response * World :=
  match responses w with
  | r :: rest => (r, mkWorld (users w) rest (answers w))
  | [] => (mkResponse None (Some (mkError "no response")), w)
  end.

Definition next_answer (w : World) : bool * World :=
  match answers w with
  | b :: rest => (b, mkWorld (users w) (responses w) rest)
  | [] => (false, w)
  end.

Definition env : Environment World := {|
  getUser := next_user;
  execute := fun _ => next_response;
  confirm := fun _ => next_answer;
  toISOString := UTC.toISOString;
  format_datetime_local := UTC.format_datetime_local
|}.

Definition ok : Response := mkResponse None None.

(** A sign-in service that knows one password, and a router that records
    where it was sent. *)
Record Door := mkDoor {
  secret : string;
  location : string
}.

Definition door : SignIn Door := {|
  signInWithPassword := fun _ password d =>
    (if String.eqb password (secret d) then None
     else Some (mkError "Invalid login credentials"), d);
  signInWithOAuth := fun _ d => (None, d);
  navigate := fun to d => mkDoor (secret d) to
|}.

End Script.


(** * Properties *)

(** ** Proof support *)

Ltac async_unfold :=
  unfold run, auth_getUser, await, window_confirm, toast_error, toast_success,
    returned, try_finally, try_catch, getState, setState, emit, call, throw,
    mbind, mret, Async_bind, Async_ret, bind, ret in *;
  unfold from, select, insert, update, delete_, eq_, order, spread, obj in *.

(** Case analysis on the next answer of the environment. *)
Ltac answer :=
  match goal with
  | |- context [getUser ?w] =>
      let u := fresh "u" in let w1 := fresh "w" in
      destruct (getUser w) as [[u|] w1]; simpl
  | |- context [execute ?q ?w] =>
      let r := fresh "r" in let w1 := fresh "w" in
      let d := fresh "d" in let e := fresh "e" in
      destruct (execute q w) as [[d [e|]] w1]; simpl
  | |- context [confirm ?m ?w] =>
      let b := fresh "b" in let w1 := fresh "w" in
      destruct (confirm m w) as [[|] w1]; simpl
  | |- context [toISOString ?v] =>
      let d := fresh "d" in let e := fresh "e" in
      destruct (toISOString v) as [d|e]; simpl
  | |- context [format_datetime_local ?v] =>
      let d := fresh "d" in let e := fresh "e" in
      destruct (format_datetime_local v) as [d|e]; simpl
  end.

Ltac settle := repeat answer; rewrite <- ?app_assoc; try reflexivity.

(** ** EventsPage: what each handler does, by cases on the environment *)

Module EventsFacts.
Import EventsPage.

Section Facts.
Context {W : Type} `{Environment W}.

Lemma events_fetch_eq (s : State) (w : W) (t : list Effect) :
  fetchEvents (mkCtx s w t) =
  match getUser w with
  | (None, w1) =>
      (Normal tt,
       mkCtx (mkState (events s) false (showForm s) (formData s)) w1
             (t ++ [GetUser; ToastError "No user found"; SetLoading false]))
  | (Some _, w1) =>
      match execute fetch_query w1 with
      | (r, w2) =>
          match error r with
          | Some e =>
              (Normal tt,
               mkCtx (mkState (events s) false (showForm s) (formData s)) w2
                     (t ++ [GetUser; Request fetch_query; ToastError (message e);
                          SetLoading false]))
          | None =>
              (Normal tt,
               mkCtx (mkState (default [] (data r)) false (showForm s) (formData s)) w2
                     (t ++ [GetUser; Request fetch_query; SetLoading false]))
          end
      end
  end.
Proof.
  unfold fetchEvents, setEvents, setLoading, fetch_query. async_unfold. simpl.
  settle.
Qed.

Lemma events_submit_eq (s : State) (w : W) (t : list Effect) :
  handleSubmit (mkCtx s w t) =
  match getUser w with
  | (None, w1) => (Normal tt, mkCtx s w1 (t ++ [GetUser; ToastError "No user found"]))
  | (Some u, w1) =>
      match toISOString (prop (formData s) "date") with
      | Thrown e => (Normal tt, mkCtx s w1 (t ++ [GetUser; ToastError (message e)]))
      | Normal d =>
          match execute (insert_query (formData s) d u) w1 with
          | (r, w2) =>
              match error r with
              | Some e =>
                  (Normal tt,
                   mkCtx s w2 (t ++ [GetUser; Request (insert_query (formData s) d u);
                                     ToastError (message e)]))
              | None =>
                  fetchEvents
                    (mkCtx (mkState (events s) (loading s) false empty_form) w2
                           (t ++ [GetUser; Request (insert_query (formData s) d u);
                                  ToastSuccess "Event created successfully"]))
              end
          end
      end
  end.
Proof.
  unfold handleSubmit, setShowForm, setFormData, insert_query, new_row.
  async_unfold. simpl.
  settle.
  rewrite !events_fetch_eq. settle.
Qed.

Lemma events_delete_eq (id : JsVal) (s : State) (w : W) (t : list Effect) :
  handleDelete id (mkCtx s w t) =
  match confirm confirm_message w with
  | (false, w1) => (Normal tt, mkCtx s w1 (t ++ [Confirm confirm_message]))
  | (true, w1) =>
      match execute (delete_query id) w1 with
      | (r, w2) =>
          match error r with
          | Some e =>
              (Normal tt,
               mkCtx s w2 (t ++ [Confirm confirm_message; Request (delete_query id);
                                 ToastError (message e)]))
          | None =>
              fetchEvents
                (mkCtx s w2 (t ++ [Confirm confirm_message; Request (delete_query id);
                                   ToastSuccess "Event deleted successfully"]))
          end
      end
  end.
Proof.
  unfold handleDelete, delete_query, confirm_message. async_unfold. simpl.
  settle.
  rewrite !events_fetch_eq. settle.
Qed.

Lemma events_edit_eq (event : JsObj) (s : State) (w : W) (t : list Effect) :
  editClick event (mkCtx s w t) =
  match format_datetime_local (prop event "date") with
  | Normal d =>
      (Normal tt,
       mkCtx (mkState (events s) (loading s) true
                (obj [("name", prop event "name");
                      ("description", prop event "description");
                      ("location", prop event "location");
                      ("date", JStr d)]))
             w t)
  | Thrown e => (Thrown e, mkCtx s w t)
  end.
Proof.
  unfold editClick, setShowForm, setFormData. async_unfold. simpl.
  settle.
Qed.

End Facts.
End EventsFacts.

(** ** AttendeesPage: what each handler does, by cases on the environment *)

Module AttendeesFacts.
Import AttendeesPage.

Section Facts.
Context {W : Type} `{Environment W}.

Lemma attendees_fetch_eq (s : State) (w : W) (t : list Effect) :
  fetchAttendees (mkCtx s w t) =
  match getUser w with
  | (None, w1) =>
      (Normal tt,
       mkCtx (mkState (attendees s) false (showForm s) (formData s)) w1
             (t ++ [GetUser; ToastError "No user found"; SetLoading false]))
  | (Some _, w1) =>
      match execute fetch_query w1 with
      | (r, w2) =>
          match error r with
          | Some e =>
              (Normal tt,
               mkCtx (mkState (attendees s) false (showForm s) (formData s)) w2
                     (t ++ [GetUser; Request fetch_query; ToastError (message e);
                          SetLoading false]))
          | None =>
              (Normal tt,
               mkCtx (mkState (default [] (data r)) false (showForm s) (formData s)) w2
                     (t ++ [GetUser; Request fetch_query; SetLoading false]))
          end
      end
  end.
Proof.
  unfold fetchAttendees, setAttendees, setLoading, fetch_query. async_unfold. simpl.
  settle.
Qed.

Lemma attendees_submit_eq (s : State) (w : W) (t : list Effect) :
  handleSubmit (mkCtx s w t) =
  match getUser w with
  | (None, w1) => (Normal tt, mkCtx s w1 (t ++ [GetUser; ToastError "No user found"]))
  | (Some u, w1) =>
      match execute (insert_query (formData s) u) w1 with
      | (r, w2) =>
          match error r with
          | Some e =>
              (Normal tt,
               mkCtx s w2 (t ++ [GetUser; Request (insert_query (formData s) u);
                                 ToastError (message e)]))
          | None =>
              fetchAttendees
                (mkCtx (mkState (attendees s) (loading s) false empty_form) w2
                       (t ++ [GetUser; Request (insert_query (formData s) u);
                              ToastSuccess "Attendee added successfully"]))
          end
      end
  end.
Proof.
  unfold handleSubmit, setShowForm, setFormData, insert_query, new_row.
  async_unfold. simpl.
  settle.
  rewrite !attendees_fetch_eq. settle.
Qed.

Lemma attendees_delete_eq (id : JsVal) (s : State) (w : W) (t : list Effect) :
  handleDelete id (mkCtx s w t) =
  match confirm confirm_message w with
  | (false, w1) => (Normal tt, mkCtx s w1 (t ++ [Confirm confirm_message]))
  | (true, w1) =>
      match execute (delete_query id) w1 with
      | (r, w2) =>
          match error r with
          | Some e =>
              (Normal tt,
               mkCtx s w2 (t ++ [Confirm confirm_message; Request (delete_query id);
                                 ToastError (message e)]))
          | None =>
              fetchAttendees
                (mkCtx s w2 (t ++ [Confirm confirm_message; Request (delete_query id);
                                   ToastSuccess "Attendee deleted successfully"]))
          end
      end
  end.
Proof.
  unfold handleDelete, delete_query, confirm_message. async_unfold. simpl.
  settle.
  rewrite !attendees_fetch_eq. settle.
Qed.

Lemma attendees_edit_eq (attendee : JsObj) (s : State) (w : W) (t : list Effect) :
  editClick attendee (mkCtx s w t) =
  (Normal tt,
   mkCtx (mkState (attendees s) (loading s) true
            (obj [("name", prop attendee "name");
                  ("email", prop attendee "email");
                  ("task", js_or (prop attendee "task") (JStr ""))]))
         w t).
Proof. reflexivity. Qed.

End Facts.
End AttendeesFacts.

(** ** TasksPage: what each handler does, by cases on the environment *)

Module TasksFacts.
Import TasksPage.

Section Facts.
Context {W : Type} `{Environment W}.

Lemma tasks_fetch_eq (s : State) (w : W) (t : list Effect) :
  fetchTasks (mkCtx s w t) =
  match getUser w with
  | (None, w1) =>
      (Normal tt,
       mkCtx (mkState (tasks s) (events s) (attendees s) false (showForm s) (formData s))
             w1 (t ++ [GetUser; ToastError "No user found"; SetLoading false]))
  | (Some _, w1) =>
      match execute fetch_query w1 with
      | (r, w2) =>
          match error r with
          | Some e =>
              (Normal tt,
               mkCtx (mkState (tasks s) (events s) (attendees s) false
                              (showForm s) (formData s))
                     w2 (t ++ [GetUser; Request fetch_query; ToastError (message e);
                          SetLoading false]))
          | None =>
              (Normal tt,
               mkCtx (mkState (default [] (data r)) (events s) (attendees s) false
                              (showForm s) (formData s))
                     w2 (t ++ [GetUser; Request fetch_query; SetLoading false]))
          end
      end
  end.
Proof.
  unfold fetchTasks, setTasks, setLoading, fetch_query. async_unfold. simpl.
  settle.
Qed.

Lemma tasks_fetchEvents_eq (s : State) (w : W) (t : list Effect) :
  fetchEvents (mkCtx s w t) =
  match getUser w with
  | (None, w1) => (Normal tt, mkCtx s w1 (t ++ [GetUser]))
  | (Some u, w1) =>
      match execute (events_query u) w1 with
      | (r, w2) =>
          (Normal tt,
           mkCtx (mkState (tasks s) (default [] (data r)) (attendees s) (loading s)
                          (showForm s) (formData s))
                 w2 (t ++ [GetUser; Request (events_query u)]))
      end
  end.
Proof.
  unfold fetchEvents, setEvents, events_query. async_unfold. simpl.
  settle.
Qed.

Lemma tasks_fetchAttendees_eq (s : State) (w : W) (t : list Effect) :
  fetchAttendees (mkCtx s w t) =
  match getUser w with
  | (None, w1) => (Normal tt, mkCtx s w1 (t ++ [GetUser]))
  | (Some u, w1) =>
      match execute (attendees_query u) w1 with
      | (r, w2) =>
          (Normal tt,
           mkCtx (mkState (tasks s) (events s) (default [] (data r)) (loading s)
                          (showForm s) (formData s))
                 w2 (t ++ [GetUser; Request (attendees_query u)]))
      end
  end.
Proof.
  unfold fetchAttendees, setAttendees, attendees_query. async_unfold. simpl.
  settle.
Qed.

Lemma tasks_submit_eq (s : State) (w : W) (t : list Effect) :
  handleSubmit (mkCtx s w t) =
  match getUser w with
  | (None, w1) => (Normal tt, mkCtx s w1 (t ++ [GetUser; ToastError "No user found"]))
  | (Some u, w1) =>
      match toISOString (prop (formData s) "deadline") with
      | Thrown e => (Normal tt, mkCtx s w1 (t ++ [GetUser; ToastError (message e)]))
      | Normal d =>
          match execute (insert_query (formData s) d u) w1 with
          | (r, w2) =>
              match error r with
              | Some e =>
                  (Normal tt,
                   mkCtx s w2 (t ++ [GetUser; Request (insert_query (formData s) d u);
                                     ToastError (message e)]))
              | None =>
                  fetchTasks
                    (mkCtx (mkState (tasks s) (events s) (attendees s) (loading s)
                                    false empty_form)
                           w2
                           (t ++ [GetUser; Request (insert_query (formData s) d u);
                                  ToastSuccess "Task created successfully"]))
              end
          end
      end
  end.
Proof.
  unfold handleSubmit, setShowForm, setFormData, insert_query, new_row.
  async_unfold. simpl.
  settle.
  rewrite !tasks_fetch_eq. settle.
Qed.

Lemma tasks_toggle_eq (id currentStatus : JsVal) (s : State) (w : W) (t : list Effect) :
  toggleStatus id currentStatus (mkCtx s w t) =
  let q := update_query id (newStatus currentStatus) in
  match execute q w with
  | (r, w1) =>
      match error r with
      | Some e => (Normal tt, mkCtx s w1 (t ++ [Request q; ToastError (message e)]))
      | None => fetchTasks (mkCtx s w1 (t ++ [Request q]))
      end
  end.
Proof.
  unfold toggleStatus, update_query. async_unfold. simpl.
  change (<["status":=newStatus currentStatus]> ∅)
    with ({["status" := newStatus currentStatus]} : JsObj).
  settle.
  rewrite !tasks_fetch_eq. settle.
Qed.

Lemma tasks_delete_eq (id : JsVal) (s : State) (w : W) (t : list Effect) :
  handleDelete id (mkCtx s w t) =
  match confirm confirm_message w with
  | (false, w1) => (Normal tt, mkCtx s w1 (t ++ [Confirm confirm_message]))
  | (true, w1) =>
      match execute (delete_query id) w1 with
      | (r, w2) =>
          match error r with
          | Some e =>
              (Normal tt,
               mkCtx s w2 (t ++ [Confirm confirm_message; Request (delete_query id);
                                 ToastError (message e)]))
          | None =>
              fetchTasks
                (mkCtx s w2 (t ++ [Confirm confirm_message; Request (delete_query id);
                                   ToastSuccess "Task deleted successfully"]))
          end
      end
  end.
Proof.
  unfold handleDelete, delete_query, confirm_message. async_unfold. simpl.
  settle.
  rewrite !tasks_fetch_eq. settle.
Qed.

(** The calls of the effect are the fetches, cut at their awaits: awaited
    at once they are the fetches. *)
Lemma tasks_fetch_call_eq (c : Ctx State W) :
  (p ← fetchTasks_call; settle p) c = fetchTasks c.
Proof.
  destruct c as [s w t]. rewrite tasks_fetch_eq.
  unfold fetchTasks_call, fetchTasks_resolved, fetchTasks_answered, setTasks,
    setLoading, fetch_query.
  async_unfold. simpl.
  settle.
Qed.

Lemma tasks_fetchEvents_call_eq (c : Ctx State W) :
  (p ← fetchEvents_call; settle p) c = fetchEvents c.
Proof.
  destruct c as [s w t]. rewrite tasks_fetchEvents_eq.
  unfold fetchEvents_call, fetchEvents_resolved, fetchEvents_answered, setEvents,
    events_query.
  async_unfold. simpl.
  settle.
Qed.

Lemma tasks_fetchAttendees_call_eq (c : Ctx State W) :
  (p ← fetchAttendees_call; settle p) c = fetchAttendees c.
Proof.
  destruct c as [s w t]. rewrite tasks_fetchAttendees_eq.
  unfold fetchAttendees_call, fetchAttendees_resolved, fetchAttendees_answered,
    setAttendees, attendees_query.
  async_unfold. simpl.
  settle.
Qed.

Lemma tasks_call_eq (s : State) (w : W) (t : list Effect) :
  fetchTasks_call (mkCtx s w t) =
  match getUser w with
  | (u, w1) => (Normal (Awaiting (fetchTasks_resolved u)), mkCtx s w1 (t ++ [GetUser]))
  end.
Proof. unfold fetchTasks_call. async_unfold. simpl. by destruct (getUser w). Qed.

Lemma tasks_resolved_eq (u : option User) (s : State) (w : W) (t : list Effect) :
  fetchTasks_resolved u (mkCtx s w t) =
  match u with
  | None =>
      (Normal Settled,
       mkCtx (mkState (tasks s) (events s) (attendees s) false (showForm s) (formData s))
             w (t ++ [ToastError "No user found"; SetLoading false]))
  | Some _ =>
      match execute fetch_query w with
      | (r, w1) =>
          (Normal (Awaiting (fetchTasks_answered r)),
           mkCtx s w1 (t ++ [Request fetch_query]))
      end
  end.
Proof.
  unfold fetchTasks_resolved, setLoading, fetch_query. async_unfold. simpl.
  destruct u as [u|]; simpl; [|by rewrite <- app_assoc].
  by destruct (execute _ w).
Qed.

Lemma tasks_answered_eq (r : Response) (s : State) (w : W) (t : list Effect) :
  fetchTasks_answered r (mkCtx s w t) =
  match error r with
  | Some e =>
      (Normal Settled,
       mkCtx (mkState (tasks s) (events s) (attendees s) false (showForm s) (formData s))
             w (t ++ [ToastError (message e); SetLoading false]))
  | None =>
      (Normal Settled,
       mkCtx (mkState (default [] (data r)) (events s) (attendees s) false
                      (showForm s) (formData s))
             w (t ++ [SetLoading false]))
  end.
Proof.
  unfold fetchTasks_answered, setTasks, setLoading. async_unfold. simpl.
  destruct (error r) as [e|]; simpl; [by rewrite <- app_assoc | done].
Qed.

Lemma tasks_events_call_eq (s : State) (w : W) (t : list Effect) :
  fetchEvents_call (mkCtx s w t) =
  match getUser w with
  | (u, w1) => (Normal (Awaiting (fetchEvents_resolved u)), mkCtx s w1 (t ++ [GetUser]))
  end.
Proof. unfold fetchEvents_call. async_unfold. simpl. by destruct (getUser w). Qed.

Lemma tasks_events_resolved_eq (u : option User) (s : State) (w : W) (t : list Effect) :
  fetchEvents_resolved u (mkCtx s w t) =
  match u with
  | None => (Normal Settled, mkCtx s w t)
  | Some u =>
      match execute (events_query u) w with
      | (r, w1) =>
          (Normal (Awaiting (fetchEvents_answered r)),
           mkCtx s w1 (t ++ [Request (events_query u)]))
      end
  end.
Proof.
  unfold fetchEvents_resolved, events_query. async_unfold. simpl.
  destruct u as [u|]; simpl; [|done]. by destruct (execute _ w).
Qed.

Lemma tasks_events_answered_eq (r : Response) (s : State) (w : W) (t : list Effect) :
  fetchEvents_answered r (mkCtx s w t) =
  (Normal Settled,
   mkCtx (mkState (tasks s) (default [] (data r)) (attendees s) (loading s)
                  (showForm s) (formData s)) w t).
Proof. reflexivity. Qed.

Lemma tasks_attendees_call_eq (s : State) (w : W) (t : list Effect) :
  fetchAttendees_call (mkCtx s w t) =
  match getUser w with
  | (u, w1) =>
      (Normal (Awaiting (fetchAttendees_resolved u)), mkCtx s w1 (t ++ [GetUser]))
  end.
Proof. unfold fetchAttendees_call. async_unfold. simpl. by destruct (getUser w). Qed.

Lemma tasks_attendees_resolved_eq (u : option User) (s : State) (w : W)
    (t : list Effect) :
  fetchAttendees_resolved u (mkCtx s w t) =
  match u with
  | None => (Normal Settled, mkCtx s w t)
  | Some u =>
      match execute (attendees_query u) w with
      | (r, w1) =>
          (Normal (Awaiting (fetchAttendees_answered r)),
           mkCtx s w1 (t ++ [Request (attendees_query u)]))
      end
  end.
Proof.
  unfold fetchAttendees_resolved, attendees_query. async_unfold. simpl.
  destruct u as [u|]; simpl; [|done]. by destruct (execute _ w).
Qed.

Lemma tasks_attendees_answered_eq (r : Response) (s : State) (w : W)
    (t : list Effect) :
  fetchAttendees_answered r (mkCtx s w t) =
  (Normal Settled,
   mkCtx (mkState (tasks s) (events s) (default [] (data r)) (loading s)
                  (showForm s) (formData s)) w t).
Proof. reflexivity. Qed.

(** The three calls of the effect: each has asked for the user before any
    of them goes on. *)
Lemma tasks_mounting_eq (arrivals : list nat) (s : State) (w : W) (t : list Effect) :
  mounting arrivals (mkCtx s w t) =
  match getUser w with
  | (u1, w1) =>
      match getUser w1 with
      | (u2, w2) =>
          match getUser w2 with
          | (u3, w3) =>
              deliver_all (arrivals ++ in_turn)
                [Awaiting (fetchTasks_resolved u1); Awaiting (fetchEvents_resolved u2);
                 Awaiting (fetchAttendees_resolved u3)]
                (mkCtx s w3 (t ++ [GetUser; GetUser; GetUser]))
          end
      end
  end.
Proof.
  unfold mounting, mbind, Async_bind, bind.
  rewrite tasks_call_eq. destruct (getUser w) as [u1 w1].
  rewrite tasks_events_call_eq. destruct (getUser w1) as [u2 w2].
  rewrite tasks_attendees_call_eq. destruct (getUser w2) as [u3 w3].
  by rewrite <- !app_assoc.
Qed.

End Facts.
End TasksFacts.

(** ** Calls answered in any order *)

Section PromiseFacts.
Context {St W : Type}.

Lemma keeps_mono {A} (I : A → Ctx St W → Prop) (n : nat) (p : Promise St W) :
  keeps I n p → keeps I (S n) p.
Proof.
  revert p. induction n as [|n IH]; intros [|resume]; simpl; try done.
  intros Hr a c Hc. destruct (Hr a c Hc) as (p & c' & Heq & Hc' & Hp).
  exists p, c'. split; [done|]. split; [done|]. by apply IH.
Qed.

Lemma leads_mono (I : bool → Ctx St W → Prop) (n : nat) (p : Promise St W) :
  leads I n p → leads I (S n) p.
Proof.
  revert p. induction n as [|n IH]; intros [|resume]; simpl; try done.
  intros Hr c Hc. destruct (Hr c Hc) as (p & c' & Heq & [Hs|[Hc' Hp]]).
  - exists p, c'. split; [done|]. by left.
  - exists p, c'. split; [done|]. right. split; [done|]. by apply IH.
Qed.

Lemma keeps_settled {A} (I : A → Ctx St W → Prop) (n : nat) : keeps I n Settled.
Proof. by destruct n. Qed.

Lemma stage_mono (I : bool → Ctx St W → Prop) (n : nat) (p : Promise St W)
    (c : Ctx St W) :
  stage I n p c → stage I (S n) p c.
Proof. intros [Hs|[Hc Hp]]; [by left | right; split; [done | by apply leads_mono]]. Qed.

Lemma deliver_all_app (l1 l2 : list nat) (ps : list (Promise St W)) (c : Ctx St W) :
  deliver_all (l1 ++ l2) ps c =
  match deliver_all l1 ps c with
  | (Normal ps', c') => deliver_all l2 ps' c'
  | (Thrown e, c') => (Thrown e, c')
  end.
Proof.
  revert ps c. induction l1 as [|i l1 IH]; intros ps c; [done|].
  simpl. unfold mbind, Async_bind, bind.
  destruct (deliver i ps c) as [[ps'|e] c']; [apply IH | done].
Qed.

Section Three.
Context (I : bool → Ctx St W → Prop).

Lemma deliver_first (n : nat) (p1 p2 p3 : Promise St W) (c : Ctx St W) :
  stage I (S n) p1 c →
  ∃ p1' c', deliver 0 [p1; p2; p3] c = (Normal [p1'; p2; p3], c') ∧ stage I n p1' c'.
Proof.
  intros [[-> Hc]|[Hc Hp]].
  - exists Settled, c. split; [reflexivity | by left].
  - destruct p1 as [|resume]; [done|]. simpl in Hp.
    destruct (Hp c Hc) as (p' & c' & Heq & Hnext).
    exists p', c'. unfold deliver. simpl. rewrite Heq. split; [reflexivity|].
    destruct Hnext as [[-> Ht]|[Hf Hl]]; [by left | by right].
Qed.

Lemma resume_keeps (n m : nat) (p1 p : Promise St W) (c : Ctx St W) :
  stage I m p1 c → keeps I (S n) p →
  match p with
  | Settled => True
  | Awaiting resume =>
      ∃ p' c', resume c = (Normal p', c') ∧ stage I m p1 c' ∧ keeps I n p'
  end.
Proof.
  intros Hst Hk. destruct p as [|resume]; [done|]. simpl in Hk.
  destruct Hst as [[-> Hc]|[Hc Hp]].
  - destruct (Hk true c Hc) as (p' & c' & Heq & Hc' & Hk'). exists p', c'.
    split; [done|]. split; [by left | done].
  - destruct (Hk false c Hc) as (p' & c' & Heq & Hc' & Hk'). exists p', c'.
    split; [done|]. split; [by right | done].
Qed.

Lemma deliver_second (n m : nat) (p1 p2 p3 : Promise St W) (c : Ctx St W) :
  stage I m p1 c → keeps I (S n) p2 →
  ∃ p2' c', deliver 1 [p1; p2; p3] c = (Normal [p1; p2'; p3], c') ∧
            stage I m p1 c' ∧ keeps I n p2'.
Proof.
  intros Hst Hk. pose proof (resume_keeps n m p1 p2 c Hst Hk) as Hr.
  destruct p2 as [|resume].
  - exists Settled, c. split; [done|]. split; [done | apply keeps_settled].
  - destruct Hr as (p' & c' & Heq & Hst' & Hk'). exists p', c'.
    unfold deliver. simpl. by rewrite Heq.
Qed.

Lemma deliver_third (n m : nat) (p1 p2 p3 : Promise St W) (c : Ctx St W) :
  stage I m p1 c → keeps I (S n) p3 →
  ∃ p3' c', deliver 2 [p1; p2; p3] c = (Normal [p1; p2; p3'], c') ∧
            stage I m p1 c' ∧ keeps I n p3'.
Proof.
  intros Hst Hk. pose proof (resume_keeps n m p1 p3 c Hst Hk) as Hr.
  destruct p3 as [|resume].
  - exists Settled, c. split; [done|]. split; [done | apply keeps_settled].
  - destruct Hr as (p' & c' & Heq & Hst' & Hk'). exists p', c'.
    unfold deliver. simpl. by rewrite Heq.
Qed.

Lemma stage_O (p : Promise St W) (c : Ctx St W) :
  stage I 0 p c → p = Settled ∧ I true c.
Proof. intros [Hs|[_ Hl]]; [done | by destruct p]. Qed.

Lemma keeps_O {A} (J : A → Ctx St W → Prop) (p : Promise St W) :
  keeps J 0 p → p = Settled.
Proof. by destruct p. Qed.

(** Whatever the order of the answers, the three calls stay as they are
    described. *)
Lemma deliver_all_stage (arrivals : list nat) :
  ∀ (m n : nat) (p1 p2 p3 : Promise St W) (c : Ctx St W),
    stage I m p1 c → keeps I n p2 → keeps I n p3 →
    ∃ p1' p2' p3' c',
      deliver_all arrivals [p1; p2; p3] c = (Normal [p1'; p2'; p3'], c') ∧
      stage I m p1' c' ∧ keeps I n p2' ∧ keeps I n p3'.
Proof.
  induction arrivals as [|i rest IH]; intros m n p1 p2 p3 c Hst H2 H3.
  { exists p1, p2, p3, c. done. }
  simpl. unfold mbind, Async_bind, bind.
  destruct i as [|[|[|i]]].
  - destruct m as [|m].
    + destruct (stage_O _ _ Hst) as [-> Hc]. apply IH; done.
    + destruct (deliver_first m p1 p2 p3 c Hst) as (p1' & c' & -> & Hst').
      apply IH; [by apply stage_mono | done | done].
  - destruct n as [|n].
    + rewrite (keeps_O _ _ H2). apply IH; [done| |done]. done.
    + destruct (deliver_second n m p1 p2 p3 c Hst H2) as (p2' & c' & -> & Hst' & H2').
      apply IH; [done | by apply keeps_mono | done].
  - destruct n as [|n].
    + rewrite (keeps_O _ _ H3). apply IH; [done|done|]. done.
    + destruct (deliver_third n m p1 p2 p3 c Hst H3) as (p3' & c' & -> & Hst' & H3').
      apply IH; [done | done | by apply keeps_mono].
  - apply IH; done.
Qed.

Lemma deliver_in_turn (p1 p2 p3 : Promise St W) (c : Ctx St W) :
  stage I 2 p1 c → keeps I 2 p2 → keeps I 2 p3 →
  ∃ c', deliver_all [0; 1; 2; 0; 1; 2] [p1; p2; p3] c
          = (Normal [Settled; Settled; Settled], c') ∧ I true c'.
Proof.
  intros Hst H2 H3. simpl. unfold mbind, Async_bind, bind, mret, Async_ret, ret.
  destruct (deliver_first 1 p1 p2 p3 c Hst) as (p1' & c1 & -> & Hst1).
  destruct (deliver_second 1 1 p1' p2 p3 c1 Hst1 H2) as (p2' & c2 & -> & Hst2 & H2').
  destruct (deliver_third 1 1 p1' p2' p3 c2 Hst2 H3) as (p3' & c3 & -> & Hst3 & H3').
  destruct (deliver_first 0 p1' p2' p3' c3 Hst3) as (p1'' & c4 & -> & Hst4).
  destruct (deliver_second 0 0 p1'' p2' p3' c4 Hst4 H2') as (p2'' & c5 & -> & Hst5 & H2'').
  destruct (deliver_third 0 0 p1'' p2'' p3' c5 Hst5 H3') as (p3'' & c6 & -> & Hst6 & H3'').
  destruct (stage_O _ _ Hst6) as [-> Hc]. rewrite (keeps_O _ _ H2''), (keeps_O _ _ H3'').
  by exists c6.
Qed.

(** The three calls, answered in any order and then in turn, all settle. *)
Lemma deliver_settles (arrivals : list nat) (p1 p2 p3 : Promise St W) (c : Ctx St W) :
  stage I 2 p1 c → keeps I 2 p2 → keeps I 2 p3 →
  ∃ c', deliver_all (arrivals ++ [0; 1; 2; 0; 1; 2]) [p1; p2; p3] c
          = (Normal [Settled; Settled; Settled], c') ∧ I true c'.
Proof.
  intros Hst H2 H3. rewrite deliver_all_app.
  destruct (deliver_all_stage arrivals 2 2 p1 p2 p3 c Hst H2 H3)
    as (p1' & p2' & p3' & c' & -> & Hst' & H2' & H3').
  by apply deliver_in_turn.
Qed.

End Three.
End PromiseFacts.

Arguments TasksPage.fetchTasks_resolved : simpl never.
Arguments TasksPage.fetchTasks_answered : simpl never.
Arguments TasksPage.fetchEvents_resolved : simpl never.
Arguments TasksPage.fetchEvents_answered : simpl never.
Arguments TasksPage.fetchAttendees_resolved : simpl never.
Arguments TasksPage.fetchAttendees_answered : simpl never.

(** The mount of the task page when the answers arrive in the order of the
    calls, by cases on the answers of the environment. *)
Ltac mount_cases :=
  unfold run, TasksPage.mount, TasksPage.mountEffect, TasksPage.in_turn;
  unfold mbind, Async_bind, bind, mret, Async_ret, ret;
  rewrite TasksFacts.tasks_mounting_eq; simpl; unfold deliver;
  repeat answer;
  repeat (simpl;
          rewrite ?TasksFacts.tasks_resolved_eq, ?TasksFacts.tasks_answered_eq,
            ?TasksFacts.tasks_events_resolved_eq, ?TasksFacts.tasks_events_answered_eq,
            ?TasksFacts.tasks_attendees_resolved_eq,
            ?TasksFacts.tasks_attendees_answered_eq;
          simpl; unfold mbind, Async_bind, bind, mret, Async_ret, ret; simpl;
          try answer);
  rewrite <- ?app_assoc; simpl.


(** Case analysis of one handler run from a page state: the handler, then the
    fetch it may end with, each by cases on the answers of the environment. *)
Ltac handler_cases :=
  unfold run;
  rewrite ?EventsFacts.events_submit_eq, ?EventsFacts.events_delete_eq,
    ?EventsFacts.events_edit_eq, ?AttendeesFacts.attendees_submit_eq,
    ?AttendeesFacts.attendees_delete_eq, ?TasksFacts.tasks_submit_eq,
    ?TasksFacts.tasks_delete_eq, ?TasksFacts.tasks_toggle_eq;
  cbv zeta; simpl; repeat answer;
  rewrite ?EventsFacts.events_fetch_eq, ?AttendeesFacts.attendees_fetch_eq,
    ?TasksFacts.tasks_fetch_eq;
  simpl; repeat answer;
  rewrite ?TasksFacts.tasks_fetchEvents_eq; simpl; repeat answer;
  rewrite ?TasksFacts.tasks_fetchAttendees_eq; simpl; repeat answer.

(** ** Fetching the list *)

Section FetchAll.
Context {W : Type} `{Environment W}.

(** C3. On each of the three record pages, a fetch that fails (with a
    remote error, or for want of a user) leaves the items as they were and
    shows the error message; a fetch that succeeds replaces the items by the
    fetched records; in every case the loading flag is cleared. *)
Theorem fetchAll_settles :
  fetch_settles EventsPage.events EventsPage.loading
    EventsPage.fetchEvents EventsPage.fetch_query ∧
  fetch_settles AttendeesPage.attendees AttendeesPage.loading
    AttendeesPage.fetchAttendees AttendeesPage.fetch_query ∧
  fetch_settles TasksPage.tasks TasksPage.loading
    TasksPage.fetchTasks TasksPage.fetch_query.
Proof.
  split; [|split]; intros s w; unfold run;
    [ rewrite EventsFacts.events_fetch_eq
    | rewrite AttendeesFacts.attendees_fetch_eq
    | rewrite TasksFacts.tasks_fetch_eq ];
    (destruct (getUser w) as [[u|] w1]; simpl; [|done]);
    destruct (execute _ w1) as [[d [e|]] w2]; done.
Qed.

End FetchAll.

(** ** Creating and deleting *)

Section Mutations.
Context {W : Type} `{Environment W}.





(** C7. On each page, deleting opens the confirmation dialog before
    anything else. When the user declines, the handler returns with the page
    state unchanged and with the dialog as its only effect: nothing is sent
    to the backend. When the user confirms, the row is deleted by its
    identifier and, if the backend reports no error, the list is fetched
    again; if it reports one, the message is shown and the page state is
    unchanged. *)
Theorem delete_asks_first :
  delete_confirms EventsPage.handleDelete EventsPage.fetchEvents
    "Are you sure you want to delete this event?" "Event deleted successfully"
    (fun id => mkQuery "events" DELETE [("id", id)] None) ∧
  delete_confirms AttendeesPage.handleDelete AttendeesPage.fetchAttendees
    "Are you sure you want to delete this attendee?" "Attendee deleted successfully"
    (fun id => mkQuery "attendees" DELETE [("id", id)] None) ∧
  delete_confirms TasksPage.handleDelete TasksPage.fetchTasks
    "Are you sure you want to delete this task?" "Task deleted successfully"
    (fun id => mkQuery "tasks" DELETE [("id", id)] None).
Proof.
  split; [|split]; intros id s w; unfold run;
    [ rewrite EventsFacts.events_delete_eq, ?EventsFacts.events_fetch_eq;
      unfold EventsPage.confirm_message, EventsPage.delete_query
    | rewrite AttendeesFacts.attendees_delete_eq, ?AttendeesFacts.attendees_fetch_eq;
      unfold AttendeesPage.confirm_message, AttendeesPage.delete_query
    | rewrite TasksFacts.tasks_delete_eq, ?TasksFacts.tasks_fetch_eq;
      unfold TasksPage.confirm_message, TasksPage.delete_query ];
    (destruct (confirm _ w) as [[|] w1]; simpl; [|done]);
    (destruct (execute _ w1) as [[dt [e|]] w2]; simpl; [done|]).
  - rewrite EventsFacts.events_fetch_eq. split; [|done].
    destruct (getUser w2) as [[u|] w3]; simpl; [|done].
    destruct (execute _ w3) as [[dt' [e|]] w4]; done.
  - rewrite AttendeesFacts.attendees_fetch_eq. split; [|done].
    destruct (getUser w2) as [[u|] w3]; simpl; [|done].
    destruct (execute _ w3) as [[dt' [e|]] w4]; done.
  - rewrite TasksFacts.tasks_fetch_eq. split; [|done].
    destruct (getUser w2) as [[u|] w3]; simpl; [|done].
    destruct (execute _ w3) as [[dt' [e|]] w4]; done.
Qed.

End Mutations.

(** ** Editing *)

Section Editing.
Context {W : Type} `{Environment W}.

Lemma events_submit_inserts (s : EventsPage.State) (w : W) :
  let t := trace (run EventsPage.handleSubmit s w).2 in
  updates t = [] ∧
  inserts t =
    match getUser w with
    | (Some u, _) =>
        match toISOString (prop (EventsPage.formData s) "date") with
        | Normal iso => [EventsPage.insert_query (EventsPage.formData s) iso u]
        | Thrown _ => []
        end
    | (None, _) => []
    end.
Proof.
  unfold run. rewrite EventsFacts.events_submit_eq.
  destruct (getUser w) as [[u|] w1]; simpl; [|done].
  destruct (toISOString _) as [d|e]; simpl; [|done].
  destruct (execute _ w1) as [[dt [e|]] w2]; simpl; [done|].
  rewrite EventsFacts.events_fetch_eq.
  destruct (getUser w2) as [[u'|] w3]; simpl; [|done].
  destruct (execute _ w3) as [[dt' [e|]] w4]; done.
Qed.

Lemma attendees_submit_inserts (s : AttendeesPage.State) (w : W) :
  let t := trace (run AttendeesPage.handleSubmit s w).2 in
  updates t = [] ∧
  inserts t =
    match getUser w with
    | (Some u, _) => [AttendeesPage.insert_query (AttendeesPage.formData s) u]
    | (None, _) => []
    end.
Proof.
  unfold run. rewrite AttendeesFacts.attendees_submit_eq.
  destruct (getUser w) as [[u|] w1]; simpl; [|done].
  destruct (execute _ w1) as [[dt [e|]] w2]; simpl; [done|].
  rewrite AttendeesFacts.attendees_fetch_eq.
  destruct (getUser w2) as [[u'|] w3]; simpl; [|done].
  destruct (execute _ w3) as [[dt' [e|]] w4]; done.
Qed.

(** C1. On the Event and Attendee pages the edit button, for a record whose
    date the date routine can format, fills the form with the name,
    description, location and date of the event (the date in the format of
    the date input), respectively the name, the email and the task label of
    the attendee, and opens the form; it sends nothing. The label shown is
    the one the attendee carries; an attendee without a label (the property
    absent, null or empty) gets the empty string. Submitting the form so
    filled goes through the one submit handler of the page: whatever the
    backend answers it sends no update, and when a user is resolved (and the
    date normalises) it sends exactly one insert, of a row built from the
    form fields that carries no identifier and is not filtered by one. *)
Theorem edit_prefills_then_submit_inserts_ok
    (event attendee : JsObj) (se : EventsPage.State) (sa : AttendeesPage.State)
    (w : W) (d : string) :
  format_datetime_local (prop event "date") = Normal d →
  let event_form : JsObj :=
    <["date" := JStr d]> (<["location" := prop event "location"]>
      (<["description" := prop event "description"]> (<["name" := prop event "name"]> ∅))) in
  let label : JsVal :=
    match attendee !! "task" with
    | Some (JStr "") | Some JNull | Some JUndefined | None => JStr ""
    | Some task => task
    end in
  let attendee_form : JsObj :=
    <["task" := label]>
      (<["email" := prop attendee "email"]> (<["name" := prop attendee "name"]> ∅)) in
  let se' := EventsPage.mkState (EventsPage.events se) (EventsPage.loading se)
               true event_form in
  let sa' := AttendeesPage.mkState (AttendeesPage.attendees sa) (AttendeesPage.loading sa)
               true attendee_form in
  run (EventsPage.editClick event) se w = (Normal tt, mkCtx se' w []) ∧
  run (AttendeesPage.editClick attendee) sa w = (Normal tt, mkCtx sa' w []) ∧
  (∀ text : string,
     text ≠ "" → attendee !! "task" = Some (JStr text) →
     AttendeesPage.formData (page (run (AttendeesPage.editClick attendee) sa w).2)
       !! "task" = Some (JStr text)) ∧
  (∀ w' : W,
     let t := trace (run EventsPage.handleSubmit se' w').2 in
     updates t = [] ∧
     inserts t =
       match getUser w' with
       | (Some u, _) =>
           match toISOString (JStr d) with
           | Normal iso =>
               [mkQuery "events"
                  (INSERT [<["user_id" := JStr (uid u)]> (<["date" := JStr iso]> event_form)])
                  [] None]
           | Thrown _ => []
           end
       | (None, _) => []
       end) ∧
  (∀ w' : W,
     let t := trace (run AttendeesPage.handleSubmit sa' w').2 in
     updates t = [] ∧
     inserts t =
       match getUser w' with
       | (Some u, _) =>
           [mkQuery "attendees"
              (INSERT [<["user_id" := JStr (uid u)]> attendee_form]) [] None]
       | (None, _) => []
       end) ∧
  (∀ (u : User) (iso : string),
     (<["user_id" := JStr (uid u)]> (<["date" := JStr iso]> event_form) : JsObj) !! "id" = None ∧
     (<["user_id" := JStr (uid u)]> attendee_form : JsObj) !! "id" = None).
Proof.
  intros Hd. cbv zeta.
  assert (Hlabel : js_or (prop attendee "task") (JStr "") =
                   match attendee !! "task" with
                   | Some (JStr "") | Some JNull | Some JUndefined | None => JStr ""
                   | Some task => task
                   end).
  { unfold js_or, prop. destruct (attendee !! "task") as [[| |[|a text]|o]|]; reflexivity. }
  assert (Hedit : run (AttendeesPage.editClick attendee) sa w =
                  (Normal tt,
                   mkCtx (AttendeesPage.mkState (AttendeesPage.attendees sa)
                            (AttendeesPage.loading sa) true
                            (<["task" := js_or (prop attendee "task") (JStr "")]>
                               (<["email" := prop attendee "email"]>
                                  (<["name" := prop attendee "name"]> ∅)))) w []))
    by reflexivity.
  rewrite Hlabel in Hedit.
  split; [|split; [|split; [|split; [|split]]]].
  - unfold run. rewrite EventsFacts.events_edit_eq, Hd. reflexivity.
  - exact Hedit.
  - intros text Hne Htask. rewrite Hedit. simpl. rewrite Htask.
    destruct text as [|a text]; [done|]. apply lookup_insert_eq.
  - intros w'. pose proof (events_submit_inserts
      (EventsPage.mkState (EventsPage.events se) (EventsPage.loading se) true
         (<["date" := JStr d]> (<["location" := prop event "location"]>
           (<["description" := prop event "description"]>
             (<["name" := prop event "name"]> ∅))))) w') as [Hu Hi].
    split; [exact Hu|]. rewrite Hi. simpl.
    unfold prop at 1. rewrite lookup_insert_eq. simpl. reflexivity.
  - intros w'. apply attendees_submit_inserts.
  - intros u iso. split; by simplify_map_eq.
Qed.

End Editing.

(** The launch event and the attendee Bob, each edited and opened in the
    form at a UTC runtime: the form shows the date of the launch in the
    format of the date input, and the task label of Bob. *)
Lemma edit_prefills_then_submit_inserts_witness :
  UTC.format_datetime_local (prop Sample.launch "date") = Normal "2025-06-01T10:00" ∧
  @run _ _ _ (@EventsPage.editClick _ UTC.env Sample.launch) EventsPage.init Sample.planned =
    (Normal tt,
     mkCtx (EventsPage.mkState [] true true Sample.launch_form) Sample.planned []) ∧
  run (AttendeesPage.editClick Sample.bob) AttendeesPage.init Sample.planned =
    (Normal tt,
     mkCtx (AttendeesPage.mkState [] true true
              (obj [("name", JStr "Bob"); ("email", JStr "bob@example.com");
                    ("task", JStr "Catering")]))
           Sample.planned []).
Proof.
  pose proof (@edit_prefills_then_submit_inserts_ok Backend.World UTC.env
                Sample.launch Sample.bob EventsPage.init AttendeesPage.init
                Sample.planned "2025-06-01T10:00" eq_refl) as (He & Ha & _).
  split; [reflexivity|]. split; [exact He | exact Ha].
Defined.

(** ** Operations without a user *)

Section WithoutUser.
Context {W : Type} `{Environment W}.

(** C9, as amended. On each page the fetch of the list and the create fail
    with the error "No user found" when no user can be resolved: the message
    is shown and nothing is sent to the backend. The two fetches of TasksPage
    that fill the drop-downs are written differently: without a user they
    return normally, sending nothing, showing nothing and leaving the page
    state as it is. *)
Theorem missing_user_is_reported_by_fetch_and_create :
  authentication_required EventsPage.fetchEvents ∧
  authentication_required EventsPage.handleSubmit ∧
  authentication_required AttendeesPage.fetchAttendees ∧
  authentication_required AttendeesPage.handleSubmit ∧
  authentication_required TasksPage.fetchTasks ∧
  authentication_required TasksPage.handleSubmit ∧
  (∀ (s : TasksPage.State) (w : W),
     match getUser w with
     | (None, w1) =>
         run TasksPage.fetchEvents s w = (Normal tt, mkCtx s w1 [GetUser]) ∧
         run TasksPage.fetchAttendees s w = (Normal tt, mkCtx s w1 [GetUser])
     | (Some u, _) =>
         queries (trace (run TasksPage.fetchEvents s w).2) = [TasksPage.events_query u] ∧
         queries (trace (run TasksPage.fetchAttendees s w).2)
           = [TasksPage.attendees_query u]
     end).
Proof.
  repeat apply conj.
  1-6: intros s w Hu; unfold run.
  - rewrite EventsFacts.events_fetch_eq. destruct (getUser w) as [[u|] w1]; done.
  - rewrite EventsFacts.events_submit_eq. destruct (getUser w) as [[u|] w1]; done.
  - rewrite AttendeesFacts.attendees_fetch_eq. destruct (getUser w) as [[u|] w1]; done.
  - rewrite AttendeesFacts.attendees_submit_eq. destruct (getUser w) as [[u|] w1]; done.
  - rewrite TasksFacts.tasks_fetch_eq. destruct (getUser w) as [[u|] w1]; done.
  - rewrite TasksFacts.tasks_submit_eq. destruct (getUser w) as [[u|] w1]; done.
  - intros s w. unfold run.
    rewrite TasksFacts.tasks_fetchEvents_eq, TasksFacts.tasks_fetchAttendees_eq.
    destruct (getUser w) as [[u|] w1]; simpl; [|done].
    destruct (execute (TasksPage.events_query u) w1) as [r1 w2].
    destruct (execute (TasksPage.attendees_query u) w1) as [r2 w3]. done.
Qed.

End WithoutUser.

(** Nobody is signed in and the list of events is fetched: the error is
    shown and no query is sent. *)
Lemma missing_user_is_reported_witness :
  (@getUser _ UTC.env Sample.anonymous).1 = None ∧
  error_toasts (trace (run (@EventsPage.fetchEvents _ UTC.env)
                           EventsPage.init Sample.anonymous).2) = ["No user found"] ∧
  queries (trace (run (@EventsPage.fetchEvents _ UTC.env)
                      EventsPage.init Sample.anonymous).2) = [].
Proof.
  split; [reflexivity|].
  exact (proj1 (@missing_user_is_reported_by_fetch_and_create Backend.World UTC.env)
               EventsPage.init Sample.anonymous eq_refl).
Defined.

(** C9 as stated fails: with nobody signed in, the fetch of the event
    options on TasksPage shows no error at all and completes normally. *)
Lemma dropdown_fetch_is_silent_without_user :
  (@getUser _ UTC.env Sample.anonymous).1 = None ∧
  run (@TasksPage.fetchEvents _ UTC.env) TasksPage.init Sample.anonymous
    = (Normal tt, mkCtx TasksPage.init Sample.anonymous [GetUser]) ∧
  ¬ @authentication_required _ _ UTC.env (@TasksPage.fetchEvents _ UTC.env).
Proof.
  split; [reflexivity|]. split; [reflexivity|].
  intros Hreq.
  destruct (Hreq TasksPage.init Sample.anonymous eq_refl) as [Htoast _].
  vm_compute in Htoast. discriminate Htoast.
Qed.

(** ** The loading flag *)

Lemma flips_all_false (l : list bool) : Forall (fun b => b = false) l → flips l = 0.
Proof.
  induction 1 as [|b l Hb Hl IH]; [done|].
  destruct l as [|b' l']; [done|].
  inversion Hl; subst. simpl in *. exact IH.
Qed.

Lemma flips_true_then_false (l : list bool) :
  l ≠ [] → Forall (fun b => b = false) l → flips (true :: l) = 1.
Proof.
  intros Hne Hall. destruct l as [|b l]; [done|].
  pose proof (flips_all_false _ Hall) as Hz.
  inversion Hall; subst. simpl in *. by rewrite Hz.
Qed.

Lemma loading_writes_app (t1 t2 : list Effect) :
  loading_writes (t1 ++ t2) = loading_writes t1 ++ loading_writes t2.
Proof. apply omap_app. Qed.

Lemma cleared_app (b : bool) (t1 t2 : list Effect) :
  cleared b (t1 ++ t2) ↔ cleared b t1 ∧ cleared b t2.
Proof. unfold cleared. rewrite loading_writes_app. apply Forall_app. Qed.

Lemma cleared_often (t : list Effect) :
  loading_writes t ≠ [] → cleared true t → flips (true :: loading_writes t) = 1.
Proof. intros Hne Hall. by apply flips_true_then_false. Qed.

Ltac cleared_goal Hl Hw :=
  split;
  [ first [exact Hl | reflexivity]
  | rewrite ?cleared_app; repeat split;
    first [exact Hw | unfold cleared; simpl; repeat constructor] ].

Section Loading.
Context {W : Type} `{Environment W}.

Lemma events_step_loaded (c : Ctx EventsPage.State W) (a : EventsPage.Action) :
  EventsPage.loading (page c) = false ∧ cleared true (trace c) →
  EventsPage.loading (page (EventsPage.step c a)) = false ∧
  cleared true (trace (EventsPage.step c a)).
Proof.
  destruct c as [s w t]. simpl. intros [Hl Hw]. unfold EventsPage.step.
  destruct a as [|id|event| | |field value]; simpl; try (by split).
  all: handler_cases; cleared_goal Hl Hw.
Qed.

Lemma attendees_step_loaded (c : Ctx AttendeesPage.State W) (a : AttendeesPage.Action) :
  AttendeesPage.loading (page c) = false ∧ cleared true (trace c) →
  AttendeesPage.loading (page (AttendeesPage.step c a)) = false ∧
  cleared true (trace (AttendeesPage.step c a)).
Proof.
  destruct c as [s w t]. simpl. intros [Hl Hw]. unfold AttendeesPage.step.
  destruct a as [|id|attendee| | |field value]; simpl; try (by split).
  all: handler_cases; cleared_goal Hl Hw.
Qed.

Lemma tasks_step_loaded (c : Ctx TasksPage.State W) (a : TasksPage.Action) :
  TasksPage.loading (page c) = false ∧ cleared true (trace c) →
  TasksPage.loading (page (TasksPage.step c a)) = false ∧
  cleared true (trace (TasksPage.step c a)).
Proof.
  destruct c as [s w t]. simpl. intros [Hl Hw]. unfold TasksPage.step.
  destruct a as [|id|task| | |field value]; simpl; try (by split).
  all: unfold TasksPage.statusClick; handler_cases; cleared_goal Hl Hw.
Qed.

Lemma events_step_writes (c : Ctx EventsPage.State W) (a : EventsPage.Action) :
  ∃ t, trace (EventsPage.step c a) = trace c ++ t.
Proof.
  destruct c as [s w t]. unfold EventsPage.step.
  destruct a as [|id|event| | |field value]; simpl;
    try (by exists []; rewrite app_nil_r).
  all: handler_cases; rewrite <- ?app_assoc;
    first [by eexists | by exists []; rewrite app_nil_r].
Qed.

Lemma attendees_step_writes (c : Ctx AttendeesPage.State W) (a : AttendeesPage.Action) :
  ∃ t, trace (AttendeesPage.step c a) = trace c ++ t.
Proof.
  destruct c as [s w t]. unfold AttendeesPage.step.
  destruct a as [|id|attendee| | |field value]; simpl;
    try (by exists []; rewrite app_nil_r).
  all: handler_cases; rewrite <- ?app_assoc;
    first [by eexists | by exists []; rewrite app_nil_r].
Qed.

Lemma tasks_step_writes (c : Ctx TasksPage.State W) (a : TasksPage.Action) :
  ∃ t, trace (TasksPage.step c a) = trace c ++ t.
Proof.
  destruct c as [s w t]. unfold TasksPage.step.
  destruct a as [|id|task| | |field value]; simpl;
    try (by exists []; rewrite app_nil_r).
  all: unfold TasksPage.statusClick; handler_cases; rewrite <- ?app_assoc;
    first [by eexists | by exists []; rewrite app_nil_r].
Qed.

Lemma events_history_extends (actions : list EventsPage.Action) :
  ∀ c : Ctx EventsPage.State W,
    Forall (fun c' => trace c `prefix_of` trace c') (EventsPage.history c actions).
Proof.
  induction actions as [|a rest IH]; intros c; simpl; constructor.
  - apply events_step_writes.
  - eapply Forall_impl; [apply IH|]. intros c' Hc'. simpl in Hc'.
    etransitivity; [apply events_step_writes | exact Hc'].
Qed.

Lemma attendees_history_extends (actions : list AttendeesPage.Action) :
  ∀ c : Ctx AttendeesPage.State W,
    Forall (fun c' => trace c `prefix_of` trace c') (AttendeesPage.history c actions).
Proof.
  induction actions as [|a rest IH]; intros c; simpl; constructor.
  - apply attendees_step_writes.
  - eapply Forall_impl; [apply IH|]. intros c' Hc'. simpl in Hc'.
    etransitivity; [apply attendees_step_writes | exact Hc'].
Qed.

Lemma tasks_history_extends (actions : list TasksPage.Action) :
  ∀ c : Ctx TasksPage.State W,
    Forall (fun c' => trace c `prefix_of` trace c') (TasksPage.history c actions).
Proof.
  induction actions as [|a rest IH]; intros c; simpl; constructor.
  - apply tasks_step_writes.
  - eapply Forall_impl; [apply IH|]. intros c' Hc'. simpl in Hc'.
    etransitivity; [apply tasks_step_writes | exact Hc'].
Qed.

(** What holds of a page once its first fetch has settled: the flag is
    [false], the setter was called, and never with [true]. *)
Lemma events_history_loaded (actions : list EventsPage.Action) :
  ∀ c : Ctx EventsPage.State W,
    EventsPage.loading (page c) = false ∧ cleared true (trace c) ∧
    loading_writes (trace c) ≠ [] →
    Forall (fun c' => EventsPage.loading (page c') = false ∧ cleared true (trace c') ∧
                      loading_writes (trace c') ≠ [])
           (EventsPage.history c actions).
Proof.
  induction actions as [|a rest IH]; intros c (Hl & Hw & Hne); simpl; constructor.
  - destruct (events_step_loaded c a (conj Hl Hw)) as [Hl' Hw'].
    destruct (events_step_writes c a) as [t Ht].
    split; [done|]. split; [done|]. rewrite Ht, loading_writes_app.
    by intros [? _]%app_eq_nil.
  - apply IH.
    destruct (events_step_loaded c a (conj Hl Hw)) as [Hl' Hw'].
    destruct (events_step_writes c a) as [t Ht].
    split; [done|]. split; [done|]. rewrite Ht, loading_writes_app.
    by intros [? _]%app_eq_nil.
Qed.

Lemma attendees_history_loaded (actions : list AttendeesPage.Action) :
  ∀ c : Ctx AttendeesPage.State W,
    AttendeesPage.loading (page c) = false ∧ cleared true (trace c) ∧
    loading_writes (trace c) ≠ [] →
    Forall (fun c' => AttendeesPage.loading (page c') = false ∧
                      cleared true (trace c') ∧ loading_writes (trace c') ≠ [])
           (AttendeesPage.history c actions).
Proof.
  induction actions as [|a rest IH]; intros c (Hl & Hw & Hne); simpl; constructor.
  - destruct (attendees_step_loaded c a (conj Hl Hw)) as [Hl' Hw'].
    destruct (attendees_step_writes c a) as [t Ht].
    split; [done|]. split; [done|]. rewrite Ht, loading_writes_app.
    by intros [? _]%app_eq_nil.
  - apply IH.
    destruct (attendees_step_loaded c a (conj Hl Hw)) as [Hl' Hw'].
    destruct (attendees_step_writes c a) as [t Ht].
    split; [done|]. split; [done|]. rewrite Ht, loading_writes_app.
    by intros [? _]%app_eq_nil.
Qed.

Lemma tasks_history_loaded (actions : list TasksPage.Action) :
  ∀ c : Ctx TasksPage.State W,
    TasksPage.loading (page c) = false ∧ cleared true (trace c) ∧
    loading_writes (trace c) ≠ [] →
    Forall (fun c' => TasksPage.loading (page c') = false ∧ cleared true (trace c') ∧
                      loading_writes (trace c') ≠ [])
           (TasksPage.history c actions).
Proof.
  induction actions as [|a rest IH]; intros c (Hl & Hw & Hne); simpl; constructor.
  - destruct (tasks_step_loaded c a (conj Hl Hw)) as [Hl' Hw'].
    destruct (tasks_step_writes c a) as [t Ht].
    split; [done|]. split; [done|]. rewrite Ht, loading_writes_app.
    by intros [? _]%app_eq_nil.
  - apply IH.
    destruct (tasks_step_loaded c a (conj Hl Hw)) as [Hl' Hw'].
    destruct (tasks_step_writes c a) as [t Ht].
    split; [done|]. split; [done|]. rewrite Ht, loading_writes_app.
    by intros [? _]%app_eq_nil.
Qed.

Lemma events_mount_loaded (w : W) :
  let c0 := (run EventsPage.mount EventsPage.init w).2 in
  EventsPage.loading (page c0) = false ∧ loading_writes (trace c0) = [false] ∧
  last (trace c0) = Some (SetLoading false).
Proof.
  cbv zeta. unfold run, EventsPage.mount. rewrite EventsFacts.events_fetch_eq.
  settle; done.
Qed.

Lemma attendees_mount_loaded (w : W) :
  let c0 := (run AttendeesPage.mount AttendeesPage.init w).2 in
  AttendeesPage.loading (page c0) = false ∧ loading_writes (trace c0) = [false] ∧
  last (trace c0) = Some (SetLoading false).
Proof.
  cbv zeta. unfold run, AttendeesPage.mount. rewrite AttendeesFacts.attendees_fetch_eq.
  settle; done.
Qed.

(** The call of [fetchTasks] writes the flag once, with [false], when it
    settles; the two other calls do not touch it. *)
Lemma tasks_call_clears (u : option User) :
  leads tasks_loading_stage 2 (Awaiting (TasksPage.fetchTasks_resolved u)).
Proof.
  intros [s w t] Ht. simpl in Ht. rewrite TasksFacts.tasks_resolved_eq.
  destruct u as [u|].
  - destruct (execute TasksPage.fetch_query w) as [r w1].
    eexists _, _. split; [reflexivity|]. right. simpl.
    split; [by rewrite loading_writes_app, Ht|].
    intros [s' w' t'] Ht'. simpl in Ht'. rewrite TasksFacts.tasks_answered_eq.
    destruct (error r) as [e|]; eexists _, _; (split; [reflexivity|]); left;
      (split; [reflexivity|]); simpl; by rewrite loading_writes_app, Ht'.
  - eexists _, _. split; [reflexivity|]. left. split; [reflexivity|]. simpl.
    by rewrite loading_writes_app, Ht.
Qed.

Lemma tasks_events_call_quiet (u : option User) :
  keeps tasks_loading_stage 2 (Awaiting (TasksPage.fetchEvents_resolved u)).
Proof.
  intros b [s w t] Hb. simpl in Hb. rewrite TasksFacts.tasks_events_resolved_eq.
  destruct u as [u|]; [|by eexists _, _].
  destruct (execute (TasksPage.events_query u) w) as [r w1].
  eexists _, _. split; [reflexivity|]. split.
  - destruct b; simpl; rewrite loading_writes_app, app_nil_r; exact Hb.
  - intros b' [s' w' t'] Hb'. simpl in Hb'.
    rewrite TasksFacts.tasks_events_answered_eq.
    eexists _, _. split; [reflexivity|]. split; [|done]. by destruct b'.
Qed.

Lemma tasks_attendees_call_quiet (u : option User) :
  keeps tasks_loading_stage 2 (Awaiting (TasksPage.fetchAttendees_resolved u)).
Proof.
  intros b [s w t] Hb. simpl in Hb. rewrite TasksFacts.tasks_attendees_resolved_eq.
  destruct u as [u|]; [|by eexists _, _].
  destruct (execute (TasksPage.attendees_query u) w) as [r w1].
  eexists _, _. split; [reflexivity|]. split.
  - destruct b; simpl; rewrite loading_writes_app, app_nil_r; exact Hb.
  - intros b' [s' w' t'] Hb'. simpl in Hb'.
    rewrite TasksFacts.tasks_attendees_answered_eq.
    eexists _, _. split; [reflexivity|]. split; [|done]. by destruct b'.
Qed.

Lemma tasks_mount_loaded (arrivals : list nat) (w : W) :
  let r := run (TasksPage.mounting arrivals) TasksPage.init w in
  r.1 = Normal [Settled; Settled; Settled] ∧
  (run (TasksPage.mountEffect arrivals) TasksPage.init w).2 = r.2 ∧
  TasksPage.loading (page r.2) = false ∧ loading_writes (trace r.2) = [false].
Proof.
  cbv zeta. unfold run, TasksPage.mountEffect, mbind, Async_bind, bind.
  rewrite TasksFacts.tasks_mounting_eq.
  destruct (getUser w) as [u1 w1], (getUser w1) as [u2 w2], (getUser w2) as [u3 w3].
  edestruct (deliver_settles tasks_loading_stage arrivals
               (Awaiting (TasksPage.fetchTasks_resolved u1))
               (Awaiting (TasksPage.fetchEvents_resolved u2))
               (Awaiting (TasksPage.fetchAttendees_resolved u3))
               (mkCtx TasksPage.init w3 ([] ++ [GetUser; GetUser; GetUser])))
    as (c' & Hrun & Hw & Hl).
  - right. split; [reflexivity | apply tasks_call_clears].
  - apply tasks_events_call_quiet.
  - apply tasks_attendees_call_quiet.
  - unfold TasksPage.in_turn. rewrite Hrun. done.
Qed.

(** C10. On each record page the loading flag is [true] in the initial
    state and the fetch started on mount calls its setter once, with
    [false]: on the event and the attendee page as the last thing the mount
    does, on the task page when the call of [fetchTasks] settles, in
    whatever order the answers to the three calls of the effect arrive.
    From then on, along any sequence of actions (submit, delete, toggle of a
    status, edit, opening or cancelling the form, typing) and whatever the
    backend answers, the effects of the run extend those of the mount, the
    flag is [false] after every action and the setter is never called with
    [true], neither by the action nor by a fetch it starts: the sequence of
    values the flag is given, the initial one included, changes value
    exactly once. *)
Theorem loading_is_cleared_once (w : W) :
  (∀ actions : list EventsPage.Action,
     let c0 := (run EventsPage.mount EventsPage.init w).2 in
     let run_states := c0 :: EventsPage.history c0 actions in
     EventsPage.loading EventsPage.init = true ∧
     loading_writes (trace c0) = [false] ∧
     last (trace c0) = Some (SetLoading false) ∧
     Forall (fun c => trace c0 `prefix_of` trace c ∧
                      EventsPage.loading (page c) = false ∧
                      cleared true (trace c) ∧
                      flips (EventsPage.loading EventsPage.init
                               :: loading_writes (trace c)) = 1) run_states ∧
     flips (EventsPage.loading EventsPage.init
              :: ((fun c => EventsPage.loading (page c)) <$> run_states)) = 1) ∧
  (∀ actions : list AttendeesPage.Action,
     let c0 := (run AttendeesPage.mount AttendeesPage.init w).2 in
     let run_states := c0 :: AttendeesPage.history c0 actions in
     AttendeesPage.loading AttendeesPage.init = true ∧
     loading_writes (trace c0) = [false] ∧
     last (trace c0) = Some (SetLoading false) ∧
     Forall (fun c => trace c0 `prefix_of` trace c ∧
                      AttendeesPage.loading (page c) = false ∧
                      cleared true (trace c) ∧
                      flips (AttendeesPage.loading AttendeesPage.init
                               :: loading_writes (trace c)) = 1) run_states ∧
     flips (AttendeesPage.loading AttendeesPage.init
              :: ((fun c => AttendeesPage.loading (page c)) <$> run_states)) = 1) ∧
  (∀ (arrivals : list nat) (actions : list TasksPage.Action),
     let c0 := (run (TasksPage.mountEffect arrivals) TasksPage.init w).2 in
     let run_states := c0 :: TasksPage.history c0 actions in
     TasksPage.loading TasksPage.init = true ∧
     (run (TasksPage.mounting arrivals) TasksPage.init w).1
       = Normal [Settled; Settled; Settled] ∧
     loading_writes (trace c0) = [false] ∧
     Forall (fun c => trace c0 `prefix_of` trace c ∧
                      TasksPage.loading (page c) = false ∧
                      cleared true (trace c) ∧
                      flips (TasksPage.loading TasksPage.init
                               :: loading_writes (trace c)) = 1) run_states ∧
     flips (TasksPage.loading TasksPage.init
              :: ((fun c => TasksPage.loading (page c)) <$> run_states)) = 1).
Proof.
  split; [|split].
  - intros actions c0 run_states.
    destruct (events_mount_loaded w) as (Hl & Hw & Hlast). fold c0 in Hl, Hw, Hlast.
    assert (Hall : Forall (fun c => EventsPage.loading (page c) = false ∧
                                    cleared true (trace c) ∧
                                    loading_writes (trace c) ≠ []) run_states).
    { assert (Hc0 : EventsPage.loading (page c0) = false ∧ cleared true (trace c0) ∧
                    loading_writes (trace c0) ≠ []).
      { unfold cleared. rewrite Hw. repeat split; [done | by repeat constructor | done]. }
      constructor; [exact Hc0 | by apply events_history_loaded]. }
    split; [reflexivity|]. split; [exact Hw|]. split; [exact Hlast|]. split.
    + apply Forall_and. split.
      { constructor; [done | apply events_history_extends]. }
      eapply Forall_impl; [exact Hall|]. intros c (Hc & Hcl & Hne).
      split; [done|]. split; [done|]. by apply cleared_often.
    + apply flips_true_then_false; [done|].
      apply Forall_fmap. eapply Forall_impl; [exact Hall|]. by intros c [Hc _].
  - intros actions c0 run_states.
    destruct (attendees_mount_loaded w) as (Hl & Hw & Hlast). fold c0 in Hl, Hw, Hlast.
    assert (Hall : Forall (fun c => AttendeesPage.loading (page c) = false ∧
                                    cleared true (trace c) ∧
                                    loading_writes (trace c) ≠ []) run_states).
    { assert (Hc0 : AttendeesPage.loading (page c0) = false ∧ cleared true (trace c0) ∧
                    loading_writes (trace c0) ≠ []).
      { unfold cleared. rewrite Hw. repeat split; [done | by repeat constructor | done]. }
      constructor; [exact Hc0 | by apply attendees_history_loaded]. }
    split; [reflexivity|]. split; [exact Hw|]. split; [exact Hlast|]. split.
    + apply Forall_and. split.
      { constructor; [done | apply attendees_history_extends]. }
      eapply Forall_impl; [exact Hall|]. intros c (Hc & Hcl & Hne).
      split; [done|]. split; [done|]. by apply cleared_often.
    + apply flips_true_then_false; [done|].
      apply Forall_fmap. eapply Forall_impl; [exact Hall|]. by intros c [Hc _].
  - intros arrivals actions c0 run_states.
    destruct (tasks_mount_loaded arrivals w) as (Hset & Heq & Hl & Hw).
    rewrite <- Heq in Hl, Hw. fold c0 in Hl, Hw.
    assert (Hall : Forall (fun c => TasksPage.loading (page c) = false ∧
                                    cleared true (trace c) ∧
                                    loading_writes (trace c) ≠ []) run_states).
    { assert (Hc0 : TasksPage.loading (page c0) = false ∧ cleared true (trace c0) ∧
                    loading_writes (trace c0) ≠ []).
      { unfold cleared. rewrite Hw. repeat split; [done | by repeat constructor | done]. }
      constructor; [exact Hc0 | by apply tasks_history_loaded]. }
    split; [reflexivity|]. split; [exact Hset|]. split; [exact Hw|]. split.
    + apply Forall_and. split.
      { constructor; [done | apply tasks_history_extends]. }
      eapply Forall_impl; [exact Hall|]. intros c (Hc & Hcl & Hne).
      split; [done|]. split; [done|]. by apply cleared_often.
    + apply flips_true_then_false; [done|].
      apply Forall_fmap. eapply Forall_impl; [exact Hall|]. by intros c [Hc _].
Qed.

End Loading.

(** ** The route guard *)

Section Guard.
Context {W : Type} `{Environment W}.

Lemma matchPath_cons (a : ascii) (p path : string) :
  App.matchPath (String a p) path = true →
  ∃ b q, path = String b q ∧ App.lower b = App.lower a ∧ App.matchPath p q = true.
Proof.
  destruct path as [|b q]; simpl; [discriminate|].
  intros [Hc Hq]%andb_true_iff. apply Ascii.eqb_eq in Hc. eauto.
Qed.

Lemma matchPath_differ (a b : ascii) (p p' path : string) :
  App.lower a ≠ App.lower b →
  App.matchPath (String "/" (String a p)) path = true →
  App.matchPath (String "/" (String b p')) path = false.
Proof.
  intros Hne (c0 & q0 & -> & _ & (c1 & q1 & -> & Hc1 & _)%matchPath_cons)%matchPath_cons.
  simpl. apply andb_false_iff. right. apply andb_false_iff. left.
  apply Ascii.eqb_neq. congruence.
Qed.

Lemma matchPath_not_index (a : ascii) (p path : string) :
  App.lower a ≠ "/"%char →
  App.matchPath (String "/" (String a p)) path = true →
  App.matchPath "/" path = false.
Proof.
  intros Hne (c0 & q0 & -> & _ & (c1 & q1 & -> & Hc1 & _)%matchPath_cons)%matchPath_cons.
  simpl. apply andb_false_iff. right. apply andb_false_iff. left.
  apply Ascii.eqb_neq. intros ->. apply Hne. by rewrite <- Hc1.
Qed.

Lemma child_route_cases (path : string) :
  App.child_route path = None ∨
  App.child_route path = Some (App.Navigate "/events" true) ∨
  ∃ p, p ≠ App.Login ∧ App.child_route path = Some (App.Page p).
Proof.
  unfold App.child_route. repeat case_match; eauto 6.
  all: right; right; eexists; split; [|reflexivity]; discriminate.
Qed.

Lemma child_route_login (path : string) :
  App.matchPath "/login" path = true → App.child_route path = None.
Proof.
  intros Hl. unfold App.child_route.
  rewrite (matchPath_not_index "l" "ogin" path ltac:(vm_compute; discriminate) Hl).
  rewrite (matchPath_differ "l" "e" "ogin" "vents" path ltac:(vm_compute; discriminate) Hl).
  rewrite (matchPath_differ "l" "a" "ogin" "ttendees" path
             ltac:(vm_compute; discriminate) Hl).
  rewrite (matchPath_differ "l" "t" "ogin" "asks" path ltac:(vm_compute; discriminate) Hl).
  reflexivity.
Qed.

Lemma child_route_page (path : string) (p : App.PageComponent) :
  App.child_route path = Some (App.Page p) ↔
  (p = App.Events ∧ App.matchPath "/events" path = true) ∨
  (p = App.Attendees ∧ App.matchPath "/attendees" path = true) ∨
  (p = App.Tasks ∧ App.matchPath "/tasks" path = true).
Proof.
  unfold App.child_route. split.
  - repeat case_match; intros Heq; try discriminate Heq;
      injection Heq as <-; auto.
  - intros [[-> He]|[[-> Ha]|[-> Ht]]].
    + rewrite (matchPath_not_index "e" "vents" path ltac:(vm_compute; discriminate) He).
      by rewrite He.
    + rewrite (matchPath_not_index "a" "ttendees" path
                 ltac:(vm_compute; discriminate) Ha).
      rewrite (matchPath_differ "a" "e" "ttendees" "vents" path
                 ltac:(vm_compute; discriminate) Ha).
      by rewrite Ha.
    + rewrite (matchPath_not_index "t" "asks" path ltac:(vm_compute; discriminate) Ht).
      rewrite (matchPath_differ "t" "e" "asks" "vents" path
                 ltac:(vm_compute; discriminate) Ht).
      rewrite (matchPath_differ "t" "a" "asks" "ttendees" path
                 ltac:(vm_compute; discriminate) Ht).
      by rewrite Ht.
Qed.

Lemma protected_spec (path : string) :
  App.matchPath "/" path || App.matchPath "/events" path
    || App.matchPath "/attendees" path || App.matchPath "/tasks" path
  = match App.child_route path with Some _ => true | None => false end.
Proof. unfold App.child_route. by repeat case_match. Qed.

Lemma visit_signed_out (fuel : nat) (path : string) (w : W) :
  App.visit (S (S fuel)) None path w =
    match App.child_route path with
    | Some _ => Some ("/login", [App.Login], [], w)
    | None =>
        Some (path, if App.matchPath "/login" path then [App.Login] else [], [], w)
    end.
Proof.
  cbn [App.visit]. unfold App.render, App.Routes.
  destruct (App.matchPath "/login" path) eqn:Hl.
  - rewrite (child_route_login _ Hl). reflexivity.
  - destruct (App.child_route path); reflexivity.
Qed.

(** C8. The guard is a function of the session alone: with a session it
    renders its children, without one it renders a redirect to ["/login"] and
    mounts nothing. Hence a record page is mounted at a location exactly when
    there is a session and the location matches the route of that page, as
    the router matches it (whatever the case of its letters, with or without
    trailing slashes); without a session no location mounts a record page or
    runs any effect, and every protected location (the tasks route among
    them) settles on the login view with nothing sent to the backend,
    however long the navigation is followed. *)
Theorem route_guard_protects
    (session : option App.Session) (children : App.Element) (path : string) (w : W) :
  App.ProtectedRoute session children =
    match session with
    | Some _ => App.Fragment children
    | None => App.Navigate "/login" true
    end ∧
  App.mounted (App.ProtectedRoute session children) =
    match session with
    | Some _ => App.mounted children
    | None => []
    end ∧
  (∀ p : App.PageComponent,
     p ∈ App.mounted (App.Routes session path)
     ↔ (p = App.Login ∧ App.matchPath "/login" path = true)
       ∨ (is_Some session ∧
          ((p = App.Events ∧ App.matchPath "/events" path = true) ∨
           (p = App.Attendees ∧ App.matchPath "/attendees" path = true) ∨
           (p = App.Tasks ∧ App.matchPath "/tasks" path = true)))) ∧
  App.render None path w =
    (if App.matchPath "/login" path then [App.Login] else [], [], w) ∧
  App.redirect (App.Routes None path) =
    (if App.matchPath "/" path || App.matchPath "/events" path
        || App.matchPath "/attendees" path || App.matchPath "/tasks" path
     then Some "/login" else None) ∧
  (∀ (fuel : nat) (result : string * list App.PageComponent * list Effect * W),
     App.visit fuel None path w = Some result →
     result =
       (if App.matchPath "/" path || App.matchPath "/events" path
           || App.matchPath "/attendees" path || App.matchPath "/tasks" path
        then ("/login", [App.Login], [], w)
        else (path, if App.matchPath "/login" path then [App.Login] else [], [], w))) ∧
  App.visit 2 None path w ≠ None ∧
  App.visit 2 None "/tasks" w = Some ("/login", [App.Login], [], w) ∧
  App.visit 2 None "/Tasks/" w = Some ("/login", [App.Login], [], w) ∧
  App.visit 2 None "/EVENTS" w = Some ("/login", [App.Login], [], w) ∧
  App.visit 2 None "/" w = Some ("/login", [App.Login], [], w) ∧
  App.visit 2 None "/LOGIN" w = Some ("/LOGIN", [App.Login], [], w).
Proof.
  rewrite protected_spec.
  split; [by destruct session|]. split; [by destruct session|].
  split; [|split; [|split; [|split; [|split]]]].
  - intros p. rewrite <- child_route_page. unfold App.Routes.
    destruct (App.matchPath "/login" path) eqn:Hl.
    + rewrite (child_route_login _ Hl). simpl. rewrite list_elem_of_singleton. split.
      * intros ->. by left.
      * intros [[-> _]|[_ Hc]]; [reflexivity | discriminate Hc].
    + destruct (child_route_cases path) as [Hc|[Hc|[q [Hq Hc]]]]; rewrite Hc.
      * simpl. split; [by intros ?%elem_of_nil|].
        intros [[_ ?]|[_ ?]]; done.
      * destruct session; simpl; (split; [by intros ?%elem_of_nil|]).
        all: intros [[_ ?]|[_ Hc']]; [done | discriminate Hc'].
      * destruct session as [sess|]; simpl.
        -- rewrite list_elem_of_singleton. split.
           ++ intros ->. right. split; [by eexists | reflexivity].
           ++ intros [[_ ?]|[_ Heq]]; [done | congruence].
        -- split; [by intros ?%elem_of_nil|].
           intros [[_ ?]|[[? Hs] _]]; [done | discriminate Hs].
  - unfold App.render, App.Routes.
    destruct (App.matchPath "/login" path) eqn:Hl; [reflexivity|].
    destruct (App.child_route path); reflexivity.
  - unfold App.Routes.
    destruct (App.matchPath "/login" path) eqn:Hl.
    + by rewrite (child_route_login _ Hl).
    + by destruct (App.child_route path).
  - intros [|[|fuel]] result.
    + discriminate.
    + cbn [App.visit]. unfold App.render, App.Routes.
      destruct (App.matchPath "/login" path) eqn:Hl.
      * rewrite (child_route_login _ Hl). simpl. by intros [= <-].
      * destruct (App.child_route path) eqn:Hc; simpl; [discriminate|].
        by intros [= <-].
    + rewrite visit_signed_out.
      by destruct (App.child_route path) eqn:Hc; intros [= <-].
  - rewrite (visit_signed_out 0). by destruct (App.child_route path).
  - repeat split; reflexivity.
Qed.

End Guard.

(** Signed in, the tasks route mounts the task page, also when it is spelled
    in capitals and with a trailing slash; signed out, it does not. *)
Lemma route_guard_protects_witness :
  App.Tasks ∈ App.mounted (App.Routes (Some (App.mkSession Sample.alice)) "/TASKS/") ∧
  ¬ App.Tasks ∈ App.mounted (App.Routes None "/TASKS/").
Proof.
  pose proof (@route_guard_protects Backend.World UTC.env
                (Some (App.mkSession Sample.alice)) App.Null "/TASKS/" Sample.planned)
    as (_ & _ & Hin & _).
  pose proof (@route_guard_protects Backend.World UTC.env
                None App.Null "/TASKS/" Sample.planned)
    as (_ & _ & Hout & _).
  split.
  - apply Hin. right. split; [by eexists|]. right. right. split; reflexivity.
  - intros [[Hl _]|[[? Hs] _]]%Hout; [discriminate Hl | discriminate Hs].
Defined.

(** ** The pages against the reference backend *)

Module BackendFacts.
Import Backend.

Lemma key_leb_total (a b : JsVal) : key_leb a b = true ∨ key_leb b a = true.
Proof.
  destruct a, b; simpl; auto. apply String.leb_total.
Qed.

#[global] Instance row_le_total (column : string) (ascending : bool) :
  Total (row_le column ascending).
Proof.
  intros r1 r2. unfold row_le. destruct ascending; apply key_leb_total.
Qed.

Lemma project_star (w : World) (row : JsObj) : project w [Star] row = row.
Proof. unfold project. simpl. apply (right_id_L ∅ (∪)). Qed.

Lemma project_id (w : World) (rows : list JsObj) : project w [Star] <$> rows = rows.
Proof.
  induction rows as [|row rows IH]; [done|].
  rewrite fmap_cons, IH, project_star. done.
Qed.

Lemma selected_all (w : World) (u : User) (row : JsObj) :
  current_user w = Some u → selected w [] row = owned_by u row.
Proof.
  intros Hu. unfold selected, visible. rewrite Hu. simpl. apply andb_true_r.
Qed.

Lemma filter_selected_all (w : World) (u : User) (rows : list JsObj) :
  current_user w = Some u →
  List.filter (selected w []) rows = List.filter (owned_by u) rows.
Proof.
  intros Hu. apply List.filter_ext. intros row. by apply selected_all.
Qed.

Lemma run_select (w : World) (table : string) (rows : list JsObj)
    (columns : list Column) (filters : list (string * JsVal))
    (order : option (string * bool)) :
  tables w !! table = Some rows →
  run_query (mkQuery table (SELECT columns) filters order) w =
    (mkResponse
       (Some (project w columns <$> sort_rows order (List.filter (selected w filters) rows)))
       None, w).
Proof. intros Ht. unfold run_query. simpl. by rewrite Ht. Qed.

End BackendFacts.

Section FetchQueries.
Context {W : Type} `{Environment W}.

Lemma events_fetch_queries (s : EventsPage.State) (w : W) :
  queries (trace (run EventsPage.fetchEvents s w).2) =
  match getUser w with
  | (Some _, _) => [EventsPage.fetch_query]
  | (None, _) => []
  end.
Proof.
  unfold run. rewrite EventsFacts.events_fetch_eq.
  destruct (getUser w) as [[u|] w1]; simpl; [|done].
  destruct (execute _ w1) as [[d [e|]] w2]; done.
Qed.

Lemma attendees_fetch_queries (s : AttendeesPage.State) (w : W) :
  queries (trace (run AttendeesPage.fetchAttendees s w).2) =
  match getUser w with
  | (Some _, _) => [AttendeesPage.fetch_query]
  | (None, _) => []
  end.
Proof.
  unfold run. rewrite AttendeesFacts.attendees_fetch_eq.
  destruct (getUser w) as [[u|] w1]; simpl; [|done].
  destruct (execute _ w1) as [[d [e|]] w2]; done.
Qed.

Lemma tasks_fetch_queries (s : TasksPage.State) (w : W) :
  queries (trace (run TasksPage.fetchTasks s w).2) =
  match getUser w with
  | (Some _, _) => [TasksPage.fetch_query]
  | (None, _) => []
  end.
Proof.
  unfold run. rewrite TasksFacts.tasks_fetch_eq.
  destruct (getUser w) as [[u|] w1]; simpl; [|done].
  destruct (execute _ w1) as [[d [e|]] w2]; done.
Qed.

End FetchQueries.

Section FetchOnBackend.
Context (toISO fmt : JsVal → Completion string).
Context (renv : Environment Backend.World := Backend.env toISO fmt).
#[local] Existing Instance renv.
Import Backend.

Lemma events_fetch_backend (s : EventsPage.State) (w : World) (u : User)
    (rows : list JsObj) (t : list Effect) :
  current_user w = Some u →
  tables w !! "events" = Some rows →
  EventsPage.fetchEvents (mkCtx s w t) =
    (Normal tt,
     mkCtx (EventsPage.mkState
              (merge_sort (row_le "date" true) (List.filter (owned_by u) rows))
              false (EventsPage.showForm s) (EventsPage.formData s))
           w (t ++ [GetUser; Request EventsPage.fetch_query; SetLoading false])).
Proof.
  intros Hu Ht. rewrite EventsFacts.events_fetch_eq. simpl. rewrite Hu.
  unfold EventsPage.fetch_query at 1 2. rewrite (BackendFacts.run_select _ _ _ _ _ _ Ht).
  simpl. rewrite BackendFacts.project_id, (BackendFacts.filter_selected_all _ _ _ Hu).
  reflexivity.
Qed.

Lemma attendees_fetch_backend (s : AttendeesPage.State) (w : World) (u : User)
    (rows : list JsObj) (t : list Effect) :
  current_user w = Some u →
  tables w !! "attendees" = Some rows →
  AttendeesPage.fetchAttendees (mkCtx s w t) =
    (Normal tt,
     mkCtx (AttendeesPage.mkState
              (merge_sort (row_le "name" true) (List.filter (owned_by u) rows))
              false (AttendeesPage.showForm s) (AttendeesPage.formData s))
           w (t ++ [GetUser; Request AttendeesPage.fetch_query; SetLoading false])).
Proof.
  intros Hu Ht. rewrite AttendeesFacts.attendees_fetch_eq. simpl. rewrite Hu.
  unfold AttendeesPage.fetch_query at 1 2.
  rewrite (BackendFacts.run_select _ _ _ _ _ _ Ht).
  simpl. rewrite BackendFacts.project_id, (BackendFacts.filter_selected_all _ _ _ Hu).
  reflexivity.
Qed.

Lemma tasks_fetch_backend (s : TasksPage.State) (w : World) (u : User)
    (rows : list JsObj) (t : list Effect) :
  current_user w = Some u →
  tables w !! "tasks" = Some rows →
  TasksPage.fetchTasks (mkCtx s w t) =
    (Normal tt,
     mkCtx (TasksPage.mkState
              (joined w <$> merge_sort (row_le "deadline" true)
                                       (List.filter (owned_by u) rows))
              (TasksPage.events s) (TasksPage.attendees s)
              false (TasksPage.showForm s) (TasksPage.formData s))
           w (t ++ [GetUser; Request TasksPage.fetch_query; SetLoading false])).
Proof.
  intros Hu Ht. rewrite TasksFacts.tasks_fetch_eq. simpl. rewrite Hu.
  unfold TasksPage.fetch_query at 1 2. rewrite (BackendFacts.run_select _ _ _ _ _ _ Ht).
  simpl. rewrite (BackendFacts.filter_selected_all _ _ _ Hu).
  do 3 f_equal. apply list_fmap_ext. intros _ row _.
  unfold project, joined. simpl. by rewrite (right_id_L ∅ (∪)).
Qed.

End FetchOnBackend.

(** C4. The fetch of each page, once a user is resolved, sends one query:
    all columns of its collection ordered ascending by date (events), by name
    (attendees) or by deadline (tasks), the tasks with the name of the
    referenced event and of the referenced attendee joined in. The query
    carries no filter on the owner: the scoping to the owning user is the
    backend's. Against the reference backend the items of the page become
    exactly the rows of the signed-in user, in that order, and each task
    comes with the two joined resources. *)
Theorem fetchAll_selects_own_records_in_order :
  (∀ (W : Type) (env : Environment W) (w : W)
     (se : EventsPage.State) (sa : AttendeesPage.State) (st : TasksPage.State),
     queries (trace (run EventsPage.fetchEvents se w).2) =
       match getUser w with
       | (Some _, _) => [mkQuery "events" (SELECT [Star]) [] (Some ("date", true))]
       | (None, _) => []
       end ∧
     queries (trace (run AttendeesPage.fetchAttendees sa w).2) =
       match getUser w with
       | (Some _, _) => [mkQuery "attendees" (SELECT [Star]) [] (Some ("name", true))]
       | (None, _) => []
       end ∧
     queries (trace (run TasksPage.fetchTasks st w).2) =
       match getUser w with
       | (Some _, _) =>
           [mkQuery "tasks"
              (SELECT [Star; Embed "event" "events" ["name"];
                       Embed "attendee" "attendees" ["name"]])
              [] (Some ("deadline", true))]
       | (None, _) => []
       end) ∧
  (∀ (toISO fmt : JsVal → Completion string) (w : Backend.World) (u : User)
     (evs ats tks : list JsObj)
     (se : EventsPage.State) (sa : AttendeesPage.State) (st : TasksPage.State),
     Backend.current_user w = Some u →
     Backend.tables w !! "events" = Some evs →
     Backend.tables w !! "attendees" = Some ats →
     Backend.tables w !! "tasks" = Some tks →
     let env := Backend.env toISO fmt in
     let found_events :=
       EventsPage.events (page (run (@EventsPage.fetchEvents _ env) se w).2) in
     let found_attendees :=
       AttendeesPage.attendees (page (run (@AttendeesPage.fetchAttendees _ env) sa w).2) in
     let found_tasks :=
       TasksPage.tasks (page (run (@TasksPage.fetchTasks _ env) st w).2) in
     (found_events ≡ₚ List.filter (Backend.owned_by u) evs ∧
      Sorted (Backend.row_le "date" true) found_events) ∧
     (found_attendees ≡ₚ List.filter (Backend.owned_by u) ats ∧
      Sorted (Backend.row_le "name" true) found_attendees) ∧
     (∃ sorted : list JsObj,
        sorted ≡ₚ List.filter (Backend.owned_by u) tks ∧
        Sorted (Backend.row_le "deadline" true) sorted ∧
        found_tasks =
          (fun row =>
             <["attendee" := Backend.embed w row "attendee" "attendees" ["name"]]>
               (<["event" := Backend.embed w row "event" "events" ["name"]]> row))
          <$> sorted)).
Proof.
  split.
  - intros W env w se sa st.
    rewrite events_fetch_queries, attendees_fetch_queries, tasks_fetch_queries.
    done.
  - intros toISO fmt w u evs ats tks se sa st Hu He Ha Ht.
    unfold run. cbv zeta.
    rewrite (events_fetch_backend toISO fmt se w u evs [] Hu He).
    rewrite (attendees_fetch_backend toISO fmt sa w u ats [] Hu Ha).
    rewrite (tasks_fetch_backend toISO fmt st w u tks [] Hu Ht).
    simpl. repeat split.
    + apply merge_sort_Permutation.
    + apply Sorted_merge_sort, _.
    + apply merge_sort_Permutation.
    + apply Sorted_merge_sort, _.
    + exists (merge_sort (Backend.row_le "deadline" true)
                         (List.filter (Backend.owned_by u) tks)).
      split; [apply merge_sort_Permutation|].
      split; [apply Sorted_merge_sort, _|]. reflexivity.
Qed.

(** The planned database: the one event of alice is listed, and her task
    comes with the name of the launch event and no attendee. *)
Lemma fetchAll_selects_own_records_witness :
  (Backend.current_user Sample.planned = Some Sample.alice ∧
   Backend.tables Sample.planned !! "events" = Some [Sample.launch] ∧
   Backend.tables Sample.planned !! "attendees" = Some [] ∧
   Backend.tables Sample.planned !! "tasks" = Some [Sample.prep_deck]) ∧
  EventsPage.events
    (page (run (@EventsPage.fetchEvents _ UTC.env) EventsPage.init Sample.planned).2)
    ≡ₚ List.filter (Backend.owned_by Sample.alice) [Sample.launch] ∧
  TasksPage.tasks
    (page (run (@TasksPage.fetchTasks _ UTC.env) TasksPage.init Sample.planned).2)
    = [<["attendee" := JNull]>
         (<["event" := JObj {["name" := JStr "Launch"]}]> Sample.prep_deck)].
Proof.
  split; [repeat split|]. split.
  - exact (proj1 (proj1 (proj2 fetchAll_selects_own_records_in_order
             UTC.toISOString UTC.format_datetime_local Sample.planned Sample.alice
             [Sample.launch] [] [Sample.prep_deck]
             EventsPage.init AttendeesPage.init TasksPage.init
             eq_refl eq_refl eq_refl eq_refl))).
  - vm_compute. reflexivity.
Defined.

(** ** Creating against the reference backend *)

Section CreateOnBackend.
Context (toISO fmt : JsVal → Completion string).
Context (renv : Environment Backend.World := Backend.env toISO fmt).
#[local] Existing Instance renv.
Import Backend.

Lemma run_insert (w : World) (u : User) (table : string) (rows : list JsObj)
    (row : JsObj) :
  current_user w = Some u →
  tables w !! table = Some rows →
  run_query (mkQuery table (INSERT [row]) [] None) w =
    (mkResponse None None,
     set_table w table (rows ++ [<["id" := fresh_id (next_id w)]> row]) (next_id w + 1)).
Proof.
  intros Hu Ht. unfold run_query. simpl. rewrite Ht, Hu.
  unfold with_ids. simpl. by rewrite Nat.add_0_r.
Qed.

Lemma owned_by_insert_id (u : User) (row : JsObj) (id : JsVal) :
  owned_by u (<["id" := id]> row) = owned_by u row.
Proof. unfold owned_by, prop. by rewrite lookup_insert_ne. Qed.

Lemma owned_by_tagged (u : User) (row : JsObj) :
  owned_by u (<["user_id" := JStr (uid u)]> row) = true.
Proof.
  unfold owned_by, prop. rewrite lookup_insert_eq. simpl. apply String.eqb_refl.
Qed.

Lemma filter_owned_snoc (u : User) (rows : list JsObj) (row : JsObj) (id : JsVal) :
  List.filter (owned_by u) (rows ++ [<["id" := id]> (<["user_id" := JStr (uid u)]> row)])
  ≡ₚ <["id" := id]> (<["user_id" := JStr (uid u)]> row) :: List.filter (owned_by u) rows.
Proof.
  rewrite List.filter_app. simpl.
  rewrite owned_by_insert_id, owned_by_tagged.
  symmetry. apply Permutation_cons_append.
Qed.

Lemma events_submit_backend (s : EventsPage.State) (w : World) (u : User)
    (rows : list JsObj) (d : string) :
  current_user w = Some u →
  tables w !! "events" = Some rows →
  toISO (prop (EventsPage.formData s) "date") = Normal d →
  let row := <["id" := fresh_id (next_id w)]>
               (EventsPage.new_row (EventsPage.formData s) d u) in
  let w' := set_table w "events" (rows ++ [row]) (next_id w + 1) in
  run EventsPage.handleSubmit s w =
    (Normal tt,
     mkCtx (EventsPage.mkState
              (merge_sort (row_le "date" true) (List.filter (owned_by u) (rows ++ [row])))
              false false EventsPage.empty_form)
           w'
           [GetUser; Request (EventsPage.insert_query (EventsPage.formData s) d u);
            ToastSuccess "Event created successfully";
            GetUser; Request EventsPage.fetch_query; SetLoading false]).
Proof.
  intros Hu Ht Hd row w'. unfold run.
  rewrite EventsFacts.events_submit_eq. simpl. rewrite Hu, Hd.
  unfold EventsPage.insert_query at 1.
  rewrite (run_insert w u "events" rows _ Hu Ht). simpl.
  rewrite (events_fetch_backend toISO fmt _ _ u (rows ++ [row])); [done|done|].
  simpl. apply lookup_insert_eq.
Qed.

Lemma attendees_submit_backend (s : AttendeesPage.State) (w : World) (u : User)
    (rows : list JsObj) :
  current_user w = Some u →
  tables w !! "attendees" = Some rows →
  let row := <["id" := fresh_id (next_id w)]>
               (AttendeesPage.new_row (AttendeesPage.formData s) u) in
  let w' := set_table w "attendees" (rows ++ [row]) (next_id w + 1) in
  run AttendeesPage.handleSubmit s w =
    (Normal tt,
     mkCtx (AttendeesPage.mkState
              (merge_sort (row_le "name" true) (List.filter (owned_by u) (rows ++ [row])))
              false false AttendeesPage.empty_form)
           w'
           [GetUser; Request (AttendeesPage.insert_query (AttendeesPage.formData s) u);
            ToastSuccess "Attendee added successfully";
            GetUser; Request AttendeesPage.fetch_query; SetLoading false]).
Proof.
  intros Hu Ht row w'. unfold run.
  rewrite AttendeesFacts.attendees_submit_eq. simpl. rewrite Hu.
  unfold AttendeesPage.insert_query at 1.
  rewrite (run_insert w u "attendees" rows _ Hu Ht). simpl.
  rewrite (attendees_fetch_backend toISO fmt _ _ u (rows ++ [row])); [done|done|].
  simpl. apply lookup_insert_eq.
Qed.

Lemma tasks_submit_backend (s : TasksPage.State) (w : World) (u : User)
    (rows : list JsObj) (d : string) :
  current_user w = Some u →
  tables w !! "tasks" = Some rows →
  toISO (prop (TasksPage.formData s) "deadline") = Normal d →
  let row := <["id" := fresh_id (next_id w)]>
               (TasksPage.new_row (TasksPage.formData s) d u) in
  let w' := set_table w "tasks" (rows ++ [row]) (next_id w + 1) in
  run TasksPage.handleSubmit s w =
    (Normal tt,
     mkCtx (TasksPage.mkState
              (joined w' <$> merge_sort (row_le "deadline" true)
                                        (List.filter (owned_by u) (rows ++ [row])))
              (TasksPage.events s) (TasksPage.attendees s)
              false false TasksPage.empty_form)
           w'
           [GetUser; Request (TasksPage.insert_query (TasksPage.formData s) d u);
            ToastSuccess "Task created successfully";
            GetUser; Request TasksPage.fetch_query; SetLoading false]).
Proof.
  intros Hu Ht Hd row w'. unfold run.
  rewrite TasksFacts.tasks_submit_eq. simpl. rewrite Hu, Hd.
  unfold TasksPage.insert_query at 1.
  rewrite (run_insert w u "tasks" rows _ Hu Ht). simpl.
  rewrite (tasks_fetch_backend toISO fmt _ _ u (rows ++ [row])); [done|done|].
  simpl. apply lookup_insert_eq.
Qed.

End CreateOnBackend.

Section CreateQueries.
Context {W : Type} `{Environment W}.

Lemma tasks_submit_inserts (s : TasksPage.State) (w : W) :
  let t := trace (run TasksPage.handleSubmit s w).2 in
  updates t = [] ∧
  inserts t =
    match getUser w with
    | (Some u, _) =>
        match toISOString (prop (TasksPage.formData s) "deadline") with
        | Normal iso => [TasksPage.insert_query (TasksPage.formData s) iso u]
        | Thrown _ => []
        end
    | (None, _) => []
    end.
Proof.
  unfold run. rewrite TasksFacts.tasks_submit_eq.
  destruct (getUser w) as [[u|] w1]; simpl; [|done].
  destruct (toISOString _) as [d|e]; simpl; [|done].
  destruct (execute _ w1) as [[dt [e|]] w2]; simpl; [done|].
  rewrite TasksFacts.tasks_fetch_eq.
  destruct (getUser w2) as [[u'|] w3]; simpl; [|done].
  destruct (execute _ w3) as [[dt' [e|]] w4]; done.
Qed.

End CreateQueries.

(** C5. For a submitted form whose date can be normalised and with a user
    resolved, create sends exactly one insert of exactly one row: the form
    fields, the date replaced by its ISO timestamp, the identifier of the
    user under [user_id] and, for a task, the status ["pending"]. Against the
    reference backend (the user signed in, the collection present) that row
    is appended to the collection with a fresh identifier, and the list the
    page shows afterwards is the rows the user had before together with
    exactly that one new row; fetching once more yields the same list. *)
Theorem create_inserts_one_record_then_listed :
  (∀ (W : Type) (env : Environment W) (w : W)
     (se : EventsPage.State) (sa : AttendeesPage.State) (st : TasksPage.State),
     inserts (trace (run EventsPage.handleSubmit se w).2) =
       match getUser w with
       | (Some u, _) =>
           match toISOString (prop (EventsPage.formData se) "date") with
           | Normal d =>
               [mkQuery "events"
                  (INSERT [<["user_id" := JStr (uid u)]>
                             (<["date" := JStr d]> (EventsPage.formData se))])
                  [] None]
           | Thrown _ => []
           end
       | (None, _) => []
       end ∧
     inserts (trace (run AttendeesPage.handleSubmit sa w).2) =
       match getUser w with
       | (Some u, _) =>
           [mkQuery "attendees"
              (INSERT [<["user_id" := JStr (uid u)]> (AttendeesPage.formData sa)])
              [] None]
       | (None, _) => []
       end ∧
     inserts (trace (run TasksPage.handleSubmit st w).2) =
       match getUser w with
       | (Some u, _) =>
           match toISOString (prop (TasksPage.formData st) "deadline") with
           | Normal d =>
               [mkQuery "tasks"
                  (INSERT [<["user_id" := JStr (uid u)]>
                             (<["deadline" := JStr d]>
                                (<["status" := JStr "pending"]> (TasksPage.formData st)))])
                  [] None]
           | Thrown _ => []
           end
       | (None, _) => []
       end) ∧
  (∀ (f : JsObj) (d : string) (u : User) (k : string),
     (k ≠ "user_id" → k ≠ "date" → EventsPage.new_row f d u !! k = f !! k) ∧
     (k ≠ "user_id" → AttendeesPage.new_row f u !! k = f !! k) ∧
     (k ≠ "user_id" → k ≠ "deadline" → k ≠ "status" →
      TasksPage.new_row f d u !! k = f !! k) ∧
     TasksPage.new_row f d u !! "status" = Some (JStr "pending")) ∧
  (∀ (toISO fmt : JsVal → Completion string) (w : Backend.World) (u : User)
     (evs ats tks : list JsObj)
     (se : EventsPage.State) (sa : AttendeesPage.State) (st : TasksPage.State)
     (date deadline : string),
     Backend.current_user w = Some u →
     Backend.tables w !! "events" = Some evs →
     Backend.tables w !! "attendees" = Some ats →
     Backend.tables w !! "tasks" = Some tks →
     toISO (prop (EventsPage.formData se) "date") = Normal date →
     toISO (prop (TasksPage.formData st) "deadline") = Normal deadline →
     let env := Backend.env toISO fmt in
     let id := Backend.fresh_id (Backend.next_id w) in
     let event := <["id" := id]> (EventsPage.new_row (EventsPage.formData se) date u) in
     let attendee := <["id" := id]> (AttendeesPage.new_row (AttendeesPage.formData sa) u) in
     let task := <["id" := id]> (TasksPage.new_row (TasksPage.formData st) deadline u) in
     let ce := (run (@EventsPage.handleSubmit _ env) se w).2 in
     let ca := (run (@AttendeesPage.handleSubmit _ env) sa w).2 in
     let ct := (run (@TasksPage.handleSubmit _ env) st w).2 in
     (Backend.tables (world ce) !! "events" = Some (evs ++ [event]) ∧
      EventsPage.events (page ce) ≡ₚ event :: List.filter (Backend.owned_by u) evs ∧
      EventsPage.events (page (run (@EventsPage.fetchEvents _ env) (page ce) (world ce)).2)
        = EventsPage.events (page ce)) ∧
     (Backend.tables (world ca) !! "attendees" = Some (ats ++ [attendee]) ∧
      AttendeesPage.attendees (page ca)
        ≡ₚ attendee :: List.filter (Backend.owned_by u) ats ∧
      AttendeesPage.attendees
        (page (run (@AttendeesPage.fetchAttendees _ env) (page ca) (world ca)).2)
        = AttendeesPage.attendees (page ca)) ∧
     (Backend.tables (world ct) !! "tasks" = Some (tks ++ [task]) ∧
      TasksPage.tasks (page ct)
        ≡ₚ Backend.joined (world ct) <$> task :: List.filter (Backend.owned_by u) tks ∧
      TasksPage.tasks (page (run (@TasksPage.fetchTasks _ env) (page ct) (world ct)).2)
        = TasksPage.tasks (page ct))).
Proof.
  split; [|split].
  - intros W env w se sa st.
    destruct (events_submit_inserts se w) as [_ ->].
    destruct (attendees_submit_inserts sa w) as [_ ->].
    destruct (tasks_submit_inserts st w) as [_ ->].
    done.
  - intros f d u k. unfold EventsPage.new_row, AttendeesPage.new_row, TasksPage.new_row.
    repeat split; intros; by simplify_map_eq.
  - intros toISO fmt w u evs ats tks se sa st date deadline Hu He Ha Ht Hd Hdl.
    cbv zeta.
    rewrite (events_submit_backend toISO fmt se w u evs date Hu He Hd).
    rewrite (attendees_submit_backend toISO fmt sa w u ats Hu Ha).
    rewrite (tasks_submit_backend toISO fmt st w u tks deadline Hu Ht Hdl).
    simpl. unfold run.
    split; [|split]; (split; [apply lookup_insert_eq|]).
    + split.
      * rewrite merge_sort_Permutation. apply filter_owned_snoc.
      * erewrite (events_fetch_backend toISO fmt); [reflexivity|exact Hu|].
        simpl. apply lookup_insert_eq.
    + split.
      * rewrite merge_sort_Permutation. apply filter_owned_snoc.
      * erewrite (attendees_fetch_backend toISO fmt); [reflexivity|exact Hu|].
        simpl. apply lookup_insert_eq.
    + split.
      * rewrite merge_sort_Permutation. unfold TasksPage.new_row.
        rewrite filter_owned_snoc. reflexivity.
      * erewrite (tasks_fetch_backend toISO fmt); [reflexivity|exact Hu|].
        simpl. apply lookup_insert_eq.
Qed.

(** Alice creates the launch event in an empty database: the collection then
    holds exactly that event, under the first fresh identifier. *)
Lemma create_inserts_one_record_witness :
  (Backend.current_user Sample.signed_in = Some Sample.alice ∧
   Backend.tables Sample.signed_in !! "events" = Some [] ∧
   Backend.tables Sample.signed_in !! "attendees" = Some [] ∧
   Backend.tables Sample.signed_in !! "tasks" = Some [] ∧
   UTC.toISOString (prop Sample.launch_form "date") = Normal "2025-06-01T10:00:00.000Z" ∧
   UTC.toISOString (prop Sample.prep_deck_form "deadline")
     = Normal "2025-05-30T09:00:00.000Z") ∧
  Backend.tables
    (world (run (@EventsPage.handleSubmit _ UTC.env)
                (EventsPage.mkState [] false true Sample.launch_form)
                Sample.signed_in).2) !! "events"
  = Some [Sample.launch].
Proof.
  split; [repeat split|].
  exact (proj1 (proj1 (proj2 (proj2 create_inserts_one_record_then_listed)
           UTC.toISOString UTC.format_datetime_local Sample.signed_in Sample.alice
           [] [] []
           (EventsPage.mkState [] false true Sample.launch_form)
           AttendeesPage.init
           (TasksPage.mkState [] [] [] false true Sample.prep_deck_form)
           "2025-06-01T10:00:00.000Z" "2025-05-30T09:00:00.000Z"
           eq_refl eq_refl eq_refl eq_refl eq_refl eq_refl))).
Defined.

(** ** Toggling the status of a task *)

Lemma newStatus_involutive (s : JsVal) :
  s = JStr "pending" ∨ s = JStr "completed" →
  TasksPage.newStatus (TasksPage.newStatus s) = s.
Proof. intros [->| ->]; reflexivity. Qed.

(** Outside the two statuses the flip does not come back. *)
Lemma newStatus_not_involutive_elsewhere :
  TasksPage.newStatus (TasksPage.newStatus (JStr "archived")) = JStr "completed".
Proof. reflexivity. Qed.

Section ToggleOnBackend.
Context (toISO fmt : JsVal → Completion string).
Context (renv : Environment Backend.World := Backend.env toISO fmt).
#[local] Existing Instance renv.
Import Backend.

Lemma prop_patch_status (status : JsVal) (row : JsObj) (k : string) :
  k ≠ "status" → prop ({["status" := status]} ∪ row) k = prop row k.
Proof.
  intros Hk. unfold prop. rewrite lookup_union, lookup_singleton_ne by done.
  by rewrite (left_id_L None (∪)).
Qed.

Lemma prop_patch_status_eq (status : JsVal) (row : JsObj) :
  prop ({["status" := status]} ∪ row) "status" = status.
Proof.
  unfold prop. rewrite lookup_union, lookup_singleton_eq.
  by destruct (row !! "status").
Qed.

Lemma selected_patch_status (w : World) (id status : JsVal) (row : JsObj) :
  selected w [("id", id)] ({["status" := status]} ∪ row) = selected w [("id", id)] row.
Proof.
  unfold selected, visible, owned_by, satisfies. simpl.
  by rewrite !prop_patch_status.
Qed.

Lemma selected_same_user (w w' : World) (filters : list (string * JsVal)) (row : JsObj) :
  current_user w' = current_user w → selected w' filters row = selected w filters row.
Proof. intros Hu. unfold selected, visible. by rewrite Hu. Qed.

Lemma patch_status_back (s s' : JsVal) (row : JsObj) :
  row !! "status" = Some s →
  ({["status" := s]} ∪ ({["status" := s']} ∪ row) : JsObj) = row.
Proof.
  intros Hs. apply map_eq. intros k. rewrite !lookup_union.
  destruct (decide (k = "status")) as [->|Hk].
  - rewrite !lookup_singleton_eq, Hs. reflexivity.
  - rewrite !lookup_singleton_ne by done. by rewrite !(left_id_L None (∪)).
Qed.

Lemma prop_joined (w : World) (row : JsObj) (k : string) :
  k ≠ "event" → k ≠ "attendee" → prop (joined w row) k = prop row k.
Proof.
  intros He Ha. unfold prop, joined. by rewrite !lookup_insert_ne.
Qed.

Lemma run_update (w : World) (rows : list JsObj) (id status : JsVal) :
  tables w !! "tasks" = Some rows →
  run_query (TasksPage.update_query id status) w =
    (mkResponse None None, set_table w "tasks" (patched w id status rows) (next_id w)).
Proof. intros Ht. unfold run_query. simpl. by rewrite Ht. Qed.

Lemma tasks_toggle_backend (s : TasksPage.State) (w : World) (u : User)
    (rows : list JsObj) (id status : JsVal) :
  current_user w = Some u →
  tables w !! "tasks" = Some rows →
  let rows' := patched w id (TasksPage.newStatus status) rows in
  let w' := set_table w "tasks" rows' (next_id w) in
  run (TasksPage.toggleStatus id status) s w =
    (Normal tt,
     mkCtx (TasksPage.mkState
              (joined w' <$> merge_sort (row_le "deadline" true)
                                        (List.filter (owned_by u) rows'))
              (TasksPage.events s) (TasksPage.attendees s)
              false (TasksPage.showForm s) (TasksPage.formData s))
           w'
           [Request (TasksPage.update_query id (TasksPage.newStatus status));
            GetUser; Request TasksPage.fetch_query; SetLoading false]).
Proof.
  intros Hu Ht rows' w'. unfold run.
  rewrite TasksFacts.tasks_toggle_eq. cbv zeta. simpl.
  rewrite (run_update w rows _ _ Ht). simpl.
  rewrite (tasks_fetch_backend toISO fmt _ _ u rows'); [done|done|].
  simpl. apply lookup_insert_eq.
Qed.

Lemma stored_status_spec (u : User) (i : string) (s : JsVal) (rows : list JsObj) :
  s = JStr "pending" ∨ s = JStr "completed" →
  stored_status u i s rows = true →
  ∀ row, row ∈ rows → owned_by u row = true → prop row "id" = JStr i →
         row !! "status" = Some s.
Proof.
  intros Hs Hall row Hin Hown Hid. unfold stored_status in Hall.
  rewrite List.forallb_forall in Hall.
  specialize (Hall row (proj1 (list_elem_of_In _ _) Hin)).
  rewrite Hown, Hid in Hall. simpl in Hall. rewrite String.eqb_refl in Hall.
  simpl in Hall. unfold prop, matches in Hall.
  destruct (row !! "status") as [[| |x|]|]; simpl in Hall;
    destruct Hs as [->| ->]; try done.
  all: by apply String.eqb_eq in Hall as ->.
Qed.

Lemma patched_twice (w w' : World) (u : User) (i : string) (s : JsVal)
    (rows : list JsObj) :
  current_user w = Some u →
  current_user w' = Some u →
  (∀ row, row ∈ rows → owned_by u row = true → prop row "id" = JStr i →
          row !! "status" = Some s) →
  patched w' (JStr i) s (patched w (JStr i) (TasksPage.newStatus s) rows) = rows.
Proof.
  intros Hu Hu' Hrows. unfold patched. rewrite <- list_fmap_compose.
  rewrite <- (list_fmap_id rows) at 2. apply list_fmap_ext. intros n row Hn. simpl.
  assert (Hw : ∀ r, selected w' [("id", JStr i)] r = selected w [("id", JStr i)] r).
  { intros r. apply selected_same_user. congruence. }
  destruct (selected w [("id", JStr i)] row) eqn:Hsel.
  - rewrite Hw, selected_patch_status, Hsel.
    apply patch_status_back, Hrows.
    + by eapply list_elem_of_lookup_2.
    + unfold selected, visible in Hsel. rewrite Hu in Hsel.
      by apply andb_prop in Hsel as [? _].
    + unfold selected, satisfies in Hsel. simpl in Hsel.
      apply andb_prop in Hsel as [_ Hid]. rewrite andb_true_r in Hid.
      unfold matches in Hid. destruct (prop row "id") as [| |x|]; try done.
      by apply String.eqb_eq in Hid as ->.
  - by rewrite Hw, Hsel.
Qed.

End ToggleOnBackend.

(** C2. Take a task whose status is pending or completed and that the page
    shows as the signed-in user's collection stores it ([stored_status]). Clicking its status
    button sends the flipped status and fetches the list again; every entry
    of the new list with that identifier shows the flipped status, and
    clicking the button of such an entry stores the original status again:
    the collection, and with it the whole backend state, is what it was
    before the two clicks. The flip itself is an involution on the two
    statuses. *)
Theorem toggleStatus_twice_restores_status
    (toISO fmt : JsVal → Completion string) (w : Backend.World) (u : User)
    (rows : list JsObj) (i : string) (s : JsVal) (task : JsObj)
    (st : TasksPage.State) :
  Backend.current_user w = Some u →
  Backend.tables w !! "tasks" = Some rows →
  s = JStr "pending" ∨ s = JStr "completed" →
  prop task "id" = JStr i →
  prop task "status" = s →
  Backend.stored_status u i s rows = true →
  let env := Backend.env toISO fmt in
  let c1 := (run (@TasksPage.statusClick _ env task) st w).2 in
  TasksPage.newStatus (TasksPage.newStatus s) = s ∧
  updates (trace c1) = [TasksPage.update_query (JStr i) (TasksPage.newStatus s)] ∧
  ∀ task' : JsObj,
    task' ∈ TasksPage.tasks (page c1) →
    prop task' "id" = JStr i →
    let c2 := (run (@TasksPage.statusClick _ env task') (page c1) (world c1)).2 in
    prop task' "status" = TasksPage.newStatus s ∧
    updates (trace c2) = [TasksPage.update_query (JStr i) s] ∧
    Backend.tables (world c2) !! "tasks" = Some rows ∧
    world c2 = w.
Proof.
  intros Hu Ht Hs Hid Hst Hstored. cbv zeta.
  pose proof (stored_status_spec u i s rows Hs Hstored) as Hrows.
  pose proof (newStatus_involutive s Hs) as Hinv.
  unfold TasksPage.statusClick. rewrite Hid, Hst.
  rewrite (tasks_toggle_backend toISO fmt st w u rows _ _ Hu Ht). simpl.
  split; [exact Hinv|]. split; [reflexivity|].
  intros task' Hin Hid'.
  (* the entry comes from a stored row of the user *)
  apply list_elem_of_fmap in Hin as [row' [-> Hin]].
  rewrite merge_sort_Permutation in Hin.
  apply list_elem_of_In, List.filter_In in Hin as [Hin Hown].
  apply list_elem_of_In in Hin.
  unfold Backend.patched in Hin.
  apply list_elem_of_fmap in Hin as [row [-> Hin]].
  rewrite prop_joined in Hid' by done.
  assert (Hstatus :
    prop (if Backend.selected w [("id", JStr i)] row
          then {["status" := TasksPage.newStatus s]} ∪ row else row) "status"
    = TasksPage.newStatus s).
  { destruct (Backend.selected w [("id", JStr i)] row) eqn:Hsel.
    - apply prop_patch_status_eq.
    - exfalso. unfold Backend.selected, Backend.visible in Hsel.
      rewrite Hu in Hsel. rewrite Hown in Hsel. simpl in Hsel.
      unfold Backend.satisfies in Hsel. simpl in Hsel.
      rewrite Hid' in Hsel. simpl in Hsel.
      by rewrite String.eqb_refl in Hsel. }
  rewrite !prop_joined by done. rewrite Hid', Hstatus.
  split; [reflexivity|].
  set (w1 := Backend.set_table w "tasks" _ _).
  assert (Ht1 : Backend.tables w1 !! "tasks"
                = Some (Backend.patched w (JStr i) (TasksPage.newStatus s) rows)).
  { apply lookup_insert_eq. }
  rewrite (tasks_toggle_backend toISO fmt _ w1 u _ _ _ Hu Ht1). simpl.
  rewrite Hinv.
  rewrite (patched_twice w w1 u i s rows Hu Hu Hrows).
  split; [reflexivity|]. split; [apply lookup_insert_eq|].
  unfold Backend.set_table, w1. simpl.
  rewrite insert_insert_eq, (insert_id _ _ _ Ht).
  by destruct w.
Qed.

(** Alice toggles her one task, pending at first, twice. *)
Lemma toggleStatus_twice_witness :
  (Backend.current_user Sample.planned = Some Sample.alice ∧
   Backend.tables Sample.planned !! "tasks" = Some [Sample.prep_deck] ∧
   prop Sample.prep_deck "id" = JStr "id-1" ∧
   prop Sample.prep_deck "status" = JStr "pending" ∧
   Backend.stored_status Sample.alice "id-1" (JStr "pending") [Sample.prep_deck] = true) ∧
  TasksPage.newStatus (TasksPage.newStatus (JStr "pending")) = JStr "pending" ∧
  updates (trace (run (@TasksPage.statusClick _ UTC.env Sample.prep_deck)
                      TasksPage.init Sample.planned).2)
  = [TasksPage.update_query (JStr "id-1") (JStr "completed")].
Proof.
  split; [repeat split|].
  pose proof (toggleStatus_twice_restores_status
                UTC.toISOString UTC.format_datetime_local Sample.planned Sample.alice
                [Sample.prep_deck] "id-1" (JStr "pending") Sample.prep_deck TasksPage.init
                eq_refl eq_refl (or_introl eq_refl) eq_refl eq_refl eq_refl) as [H1 [H2 _]].
  split; [exact H1 | exact H2].
Defined.

(** ** Concrete runs *)

(** Closed equations are settled by evaluation. *)
Ltac evaluate :=
  cbv zeta; repeat apply conj;
  lazymatch goal with |- _ = ?rhs => vm_cast_no_check (@eq_refl _ rhs) end.

(** The scenario of the specification: alice creates the event "Launch" and
    the list shows that one entry. *)
Example scenario_create_event :
  let r := run (@EventsPage.handleSubmit _ UTC.env)
               (EventsPage.mkState [] false true Sample.launch_form) Sample.signed_in in
  r.1 = Normal tt ∧
  EventsPage.events (page r.2) = [Sample.launch] ∧
  EventsPage.showForm (page r.2) = false ∧
  EventsPage.formData (page r.2) = EventsPage.empty_form ∧
  trace r.2 =
    [GetUser;
     Request (mkQuery "events"
                (INSERT [<["user_id" := JStr "alice"]>
                           (<["date" := JStr "2025-06-01T10:00:00.000Z"]>
                              Sample.launch_form)])
                [] None);
     ToastSuccess "Event created successfully";
     GetUser;
     Request (mkQuery "events" (SELECT [Star]) [] (Some ("date", true)));
     SetLoading false].
Proof. evaluate. Qed.

(** She then creates the task "Prep deck" for that event, unassigned: it is
    listed as pending; one click on its status button shows it completed, a
    second one pending again. *)
Example scenario_create_task_then_toggle_twice :
  let w1 := world (run (@EventsPage.handleSubmit _ UTC.env)
                       (EventsPage.mkState [] false true Sample.launch_form)
                       Sample.signed_in).2 in
  let c2 := (run (@TasksPage.handleSubmit _ UTC.env)
                 (TasksPage.mkState [] [] [] false true Sample.prep_deck_form) w1).2 in
  let listed status :=
    [<["attendee" := JNull]>
       (<["event" := JObj {["name" := JStr "Launch"]}]>
          (<["status" := JStr status]> Sample.prep_deck))] in
  let click c :=
    match TasksPage.tasks (page c) with
    | task :: _ => (run (@TasksPage.statusClick _ UTC.env task) (page c) (world c)).2
    | [] => c
    end in
  TasksPage.tasks (page c2) = listed "pending" ∧
  TasksPage.tasks (page (click c2)) = listed "completed" ∧
  TasksPage.tasks (page (click (click c2))) = listed "pending" ∧
  world (click (click c2)) = world c2.
Proof. evaluate. Qed.

(** A backend that answers with an error: the list on the page stays, the
    message is shown, the loading flag is cleared. *)
Example fetch_fails_on_a_broken_backend :
  run (@EventsPage.fetchEvents _ UTC.env)
      (EventsPage.mkState [Sample.launch] true false EventsPage.empty_form) Sample.broken
  = (Normal tt,
     mkCtx (EventsPage.mkState [Sample.launch] false false EventsPage.empty_form)
           Sample.broken
           [GetUser; Request EventsPage.fetch_query;
            ToastError "relation does not exist"; SetLoading false]).
Proof. evaluate. Qed.

(** A create that the backend refuses: the form stays open with what was
    typed. *)
Example create_fails_on_a_broken_backend :
  run (@EventsPage.handleSubmit _ UTC.env)
      (EventsPage.mkState [] false true Sample.launch_form) Sample.broken
  = (Normal tt,
     mkCtx (EventsPage.mkState [] false true Sample.launch_form) Sample.broken
           [GetUser;
            Request (EventsPage.insert_query Sample.launch_form
                       "2025-06-01T10:00:00.000Z" Sample.alice);
            ToastError "relation does not exist"]).
Proof. evaluate. Qed.

(** A declined confirmation: only the dialog has happened. *)
Example delete_declined :
  let s := EventsPage.mkState [Sample.launch] false false EventsPage.empty_form in
  let r := run (@EventsPage.handleDelete _ UTC.env (JStr "id-0")) s Sample.signed_in in
  r.1 = Normal tt ∧ page r.2 = s ∧
  trace r.2 = [Confirm "Are you sure you want to delete this event?"] ∧
  Backend.tables (world r.2) = Backend.tables Sample.signed_in.
Proof. evaluate. Qed.

(** Without a session the tasks route ends on the login view and nothing is
    sent; with one, the task page is mounted: its three fetches each ask for
    the user, then each sends its query. *)
Example visit_tasks_route :
  @App.visit _ UTC.env 2 None "/tasks" Sample.planned
    = Some ("/login", [App.Login], [], Sample.planned) ∧
  @App.visit _ UTC.env 2 (Some (App.mkSession Sample.alice)) "/tasks" Sample.planned
    = Some ("/tasks", [App.Tasks],
            [GetUser; GetUser; GetUser;
             Request TasksPage.fetch_query;
             Request (TasksPage.events_query Sample.alice);
             Request (TasksPage.attendees_query Sample.alice);
             SetLoading false],
            Sample.planned).
Proof. evaluate. Qed.

(** * Further properties of the handlers *)

Lemma newStatus_range (s : JsVal) :
  TasksPage.newStatus s = JStr "pending" ∨ TasksPage.newStatus s = JStr "completed".
Proof. unfold TasksPage.newStatus. destruct (strict_eq_str s "pending"); auto. Qed.

Section EveryAction.
Context {W : Type} `{Environment W}.

(** X1. No error escapes the handlers, with one exception. Every action of
    the three pages and every mount completes normally whatever the backend
    answers; only the edit button of an event throws, exactly when the date
    of the event cannot be formatted, and then neither the page state nor
    the backend is touched. *)
Theorem only_the_edit_of_an_event_can_throw :
  (∀ (a : EventsPage.Action) (s : EventsPage.State) (w : W),
     match a with
     | EventsPage.Edit event =>
         match format_datetime_local (prop event "date") with
         | Normal _ => (run (EventsPage.handle a) s w).1 = Normal tt
         | Thrown e => run (EventsPage.handle a) s w = (Thrown e, mkCtx s w [])
         end
     | _ => (run (EventsPage.handle a) s w).1 = Normal tt
     end) ∧
  (∀ (a : AttendeesPage.Action) (s : AttendeesPage.State) (w : W),
     (run (AttendeesPage.handle a) s w).1 = Normal tt) ∧
  (∀ (a : TasksPage.Action) (s : TasksPage.State) (w : W),
     (run (TasksPage.handle a) s w).1 = Normal tt) ∧
  (∀ (se : EventsPage.State) (sa : AttendeesPage.State) (st : TasksPage.State) (w : W),
     (run EventsPage.mount se w).1 = Normal tt ∧
     (run AttendeesPage.mount sa w).1 = Normal tt ∧
     (run TasksPage.mount st w).1 = Normal tt).
Proof.
  split; [|split; [|split]].
  - intros [|id|event| | |field value] s w; simpl; try reflexivity.
    all: handler_cases; reflexivity.
  - intros [|id|attendee| | |field value] s w; simpl; try reflexivity.
    all: handler_cases; reflexivity.
  - intros [|id|task| | |field value] s w; simpl; try reflexivity.
    all: unfold TasksPage.statusClick; handler_cases; reflexivity.
  - intros se sa st w. unfold EventsPage.mount, AttendeesPage.mount.
    split; [handler_cases; reflexivity|]. split; [handler_cases; reflexivity|].
    mount_cases; reflexivity.
Qed.

(** X2. The list of a page is never patched in place. After any action the
    items are those the page had before, unless the action sent the list
    query of the page and showed no error: the list only ever changes by a
    successful fetch. *)
Theorem list_changes_only_by_a_successful_fetch :
  (∀ (a : EventsPage.Action) (s : EventsPage.State) (w : W),
     let c := (run (EventsPage.handle a) s w).2 in
     EventsPage.events (page c) = EventsPage.events s ∨
     (EventsPage.fetch_query ∈ queries (trace c) ∧ error_toasts (trace c) = [])) ∧
  (∀ (a : AttendeesPage.Action) (s : AttendeesPage.State) (w : W),
     let c := (run (AttendeesPage.handle a) s w).2 in
     AttendeesPage.attendees (page c) = AttendeesPage.attendees s ∨
     (AttendeesPage.fetch_query ∈ queries (trace c) ∧ error_toasts (trace c) = [])) ∧
  (∀ (a : TasksPage.Action) (s : TasksPage.State) (w : W),
     let c := (run (TasksPage.handle a) s w).2 in
     TasksPage.tasks (page c) = TasksPage.tasks s ∨
     (TasksPage.fetch_query ∈ queries (trace c) ∧ error_toasts (trace c) = [])).
Proof.
  split; [|split].
  - intros [|id|event| | |field value] s w; cbv zeta; simpl; try (by left).
    all: handler_cases; first [by left | right; split; [set_solver | reflexivity]].
  - intros [|id|attendee| | |field value] s w; cbv zeta; simpl; try (by left).
    all: handler_cases; first [by left | right; split; [set_solver | reflexivity]].
  - intros [|id|task| | |field value] s w; cbv zeta; simpl; try (by left).
    all: unfold TasksPage.statusClick; handler_cases;
      first [by left | right; split; [set_solver | reflexivity]].
Qed.

(** X3. On the task page the options of the two drop-downs are loaded on
    mount only: no action (create, delete, status toggle, edit of the form)
    changes them. *)
Theorem options_are_loaded_on_mount_only
    (a : TasksPage.Action) (s : TasksPage.State) (w : W) :
  let c := (run (TasksPage.handle a) s w).2 in
  TasksPage.events (page c) = TasksPage.events s ∧
  TasksPage.attendees (page c) = TasksPage.attendees s.
Proof.
  destruct a as [|id|task| | |field value]; cbv zeta; simpl; try done.
  all: unfold TasksPage.statusClick; handler_cases; done.
Qed.

End EveryAction.

Section Collections.
Context {W : Type} `{Environment W}.

(** X4. Each page keeps to its collection. Whatever the action and the
    answers, the event page only queries ["events"], the attendee page only
    ["attendees"] and every action of the task page only ["tasks"]; the mount
    of the task page also queries ["events"] and ["attendees"], but only to
    read them. *)
Theorem pages_keep_to_their_collection :
  (∀ (a : EventsPage.Action) (s : EventsPage.State) (w : W),
     Forall (fun q => q_table q = "events")
            (queries (trace (run (EventsPage.handle a) s w).2)) ∧
     Forall (fun q => q_table q = "events")
            (queries (trace (run EventsPage.mount s w).2))) ∧
  (∀ (a : AttendeesPage.Action) (s : AttendeesPage.State) (w : W),
     Forall (fun q => q_table q = "attendees")
            (queries (trace (run (AttendeesPage.handle a) s w).2)) ∧
     Forall (fun q => q_table q = "attendees")
            (queries (trace (run AttendeesPage.mount s w).2))) ∧
  (∀ (a : TasksPage.Action) (s : TasksPage.State) (w : W),
     Forall (fun q => q_table q = "tasks")
            (queries (trace (run (TasksPage.handle a) s w).2)) ∧
     Forall (fun q => q_table q = "tasks" ∨
                      (is_read q = true ∧ q_table q ∈ ["events"; "attendees"]))
            (queries (trace (run TasksPage.mount s w).2))).
Proof.
  split; [|split].
  - intros a s w. split.
    + destruct a as [|id|event| | |field value]; simpl; try constructor.
      all: handler_cases; repeat constructor.
    + unfold EventsPage.mount. handler_cases; repeat constructor.
  - intros a s w. split.
    + destruct a as [|id|attendee| | |field value]; simpl; try constructor.
      all: handler_cases; repeat constructor.
    + unfold AttendeesPage.mount. handler_cases; repeat constructor.
  - intros a s w. split.
    + destruct a as [|id|task| | |field value]; simpl; try constructor.
      all: unfold TasksPage.statusClick; handler_cases; repeat constructor.
    + mount_cases.
      all: repeat (apply Forall_cons; split;
                   [first [by left | right; split; [reflexivity | set_solver]]|]).
      all: apply Forall_nil_2.
Qed.

(** X5. Only the status of a task is ever updated. No action of the event
    or attendee page sends an update; an update sent by the task page
    patches the single property [status], to ["pending"] or ["completed"]
    whatever status the clicked entry carried, and is filtered by the
    identifier alone: the name, the deadline and the references of a task
    are never rewritten. *)
Theorem only_the_status_is_ever_updated :
  (∀ (a : EventsPage.Action) (s : EventsPage.State) (w : W),
     updates (trace (run (EventsPage.handle a) s w).2) = []) ∧
  (∀ (a : AttendeesPage.Action) (s : AttendeesPage.State) (w : W),
     updates (trace (run (AttendeesPage.handle a) s w).2) = []) ∧
  (∀ (a : TasksPage.Action) (s : TasksPage.State) (w : W),
     Forall (fun q => ∃ id status : JsVal,
                        q = mkQuery "tasks" (UPDATE {["status" := status]})
                                    [("id", id)] None ∧
                        (status = JStr "pending" ∨ status = JStr "completed"))
            (updates (trace (run (TasksPage.handle a) s w).2))).
Proof.
  split; [|split].
  - intros [|id|event| | |field value] s w; simpl; try reflexivity.
    all: handler_cases; reflexivity.
  - intros [|id|attendee| | |field value] s w; simpl; try reflexivity.
    all: handler_cases; reflexivity.
  - intros [|id|task| | |field value] s w; simpl; try constructor.
    1-2: handler_cases; constructor.
    unfold TasksPage.statusClick. handler_cases.
    all: unfold updates; simpl; repeat constructor.
    all: eexists _, _; split; [reflexivity | apply newStatus_range].
Qed.

End Collections.

Section FormActions.
Context {W : Type} `{Environment W}.

(** X6. The buttons of the form only show and hide it. "New" is a toggle:
    pressed twice it leaves the page exactly as it was. "Cancel" hides the
    form without clearing it: what was typed, or filled in by the edit of an
    attendee, is there again when the form is reopened with "New". None of
    this sends anything. *)
Theorem cancel_keeps_what_was_typed
    (se : EventsPage.State) (sa : AttendeesPage.State) (st : TasksPage.State)
    (w : W) (field value : string) (attendee : JsObj) :
  (run (EventsPage.newClick;; EventsPage.newClick) se w = (Normal tt, mkCtx se w []) ∧
   run (EventsPage.change field value;; EventsPage.cancelClick;; EventsPage.newClick) se w
   = (Normal tt,
      mkCtx (EventsPage.mkState (EventsPage.events se) (EventsPage.loading se) true
               (<[field := JStr value]> (EventsPage.formData se))) w [])) ∧
  (run (AttendeesPage.newClick;; AttendeesPage.newClick) sa w
   = (Normal tt, mkCtx sa w []) ∧
   run (AttendeesPage.change field value;; AttendeesPage.cancelClick;;
        AttendeesPage.newClick) sa w
   = (Normal tt,
      mkCtx (AttendeesPage.mkState (AttendeesPage.attendees sa) (AttendeesPage.loading sa)
               true (<[field := JStr value]> (AttendeesPage.formData sa))) w []) ∧
   run (AttendeesPage.editClick attendee;; AttendeesPage.cancelClick;;
        AttendeesPage.newClick) sa w
   = (Normal tt,
      mkCtx (AttendeesPage.mkState (AttendeesPage.attendees sa) (AttendeesPage.loading sa)
               true
               (<["task" := js_or (prop attendee "task") (JStr "")]>
                  (<["email" := prop attendee "email"]>
                     (<["name" := prop attendee "name"]> ∅)))) w [])) ∧
  (run (TasksPage.newClick;; TasksPage.newClick) st w = (Normal tt, mkCtx st w []) ∧
   run (TasksPage.change field value;; TasksPage.cancelClick;; TasksPage.newClick) st w
   = (Normal tt,
      mkCtx (TasksPage.mkState (TasksPage.tasks st) (TasksPage.events st)
               (TasksPage.attendees st) (TasksPage.loading st) true
               (<[field := JStr value]> (TasksPage.formData st))) w [])).
Proof.
  destruct se as [? ? [] ?], sa as [? ? [] ?], st as [? ? ? ? [] ?].
  all: repeat split; reflexivity.
Qed.

End FormActions.

(** ** The shape of the form and of the inserted rows *)

Lemma inserts_app (t1 t2 : list Effect) : inserts (t1 ++ t2) = inserts t1 ++ inserts t2.
Proof. unfold inserts, queries. by rewrite omap_app, List.filter_app. Qed.

Section FormShape.
Context {W : Type} `{Environment W}.

Lemma events_empty_form_dom : dom EventsPage.empty_form = list_to_set Inputs.events.
Proof.
  unfold EventsPage.empty_form, obj. simpl.
  rewrite !dom_insert_L, dom_empty_L. set_solver.
Qed.

Lemma attendees_empty_form_dom :
  dom AttendeesPage.empty_form = list_to_set Inputs.attendees.
Proof.
  unfold AttendeesPage.empty_form, obj. simpl.
  rewrite !dom_insert_L, dom_empty_L. set_solver.
Qed.

Lemma tasks_empty_form_dom : dom TasksPage.empty_form = list_to_set Inputs.tasks.
Proof.
  unfold TasksPage.empty_form, obj. simpl.
  rewrite !dom_insert_L, dom_empty_L. set_solver.
Qed.

Ltac shape_goal Hdom Hins :=
  split;
  [ first [exact Hdom | apply events_empty_form_dom | apply attendees_empty_form_dom
          | apply tasks_empty_form_dom]
  | rewrite ?inserts_app, ?Forall_app; repeat split;
    first [exact Hins | unfold inserts; simpl; repeat constructor] ].

Lemma events_step_shape (c : Ctx EventsPage.State W) (a : EventsPage.Action) :
  Inputs.events_offer a = true → events_shape c → events_shape (EventsPage.step c a).
Proof.
  destruct c as [s w t]. unfold events_shape, EventsPage.step. simpl.
  intros Hoff [Hdom Hins].
  destruct a as [|id|event| | |field value]; simpl in *.
  - handler_cases; shape_goal Hdom Hins.
    all: eexists; split; [reflexivity|]; unfold EventsPage.new_row;
      rewrite !dom_insert_L, Hdom; set_solver.
  - handler_cases; shape_goal Hdom Hins.
  - handler_cases; [|by split].
    split; [|exact Hins]. unfold obj. simpl.
    rewrite !dom_insert_L, dom_empty_L. set_solver.
  - by split.
  - by split.
  - split; [|exact Hins]. apply bool_decide_eq_true in Hoff.
    unfold spread. simpl. rewrite dom_insert_L, Hdom.
    apply subseteq_union_1_L, singleton_subseteq_l.
    exact (proj2 (elem_of_list_to_set (C:=gset string) field Inputs.events) Hoff).
Qed.

Lemma attendees_step_shape (c : Ctx AttendeesPage.State W) (a : AttendeesPage.Action) :
  Inputs.attendees_offer a = true → attendees_shape c →
  attendees_shape (AttendeesPage.step c a).
Proof.
  destruct c as [s w t]. unfold attendees_shape, AttendeesPage.step. simpl.
  intros Hoff [Hdom Hins].
  destruct a as [|id|attendee| | |field value]; simpl in *.
  - handler_cases; shape_goal Hdom Hins.
    all: eexists; split; [reflexivity|]; unfold AttendeesPage.new_row;
      rewrite !dom_insert_L, Hdom; set_solver.
  - handler_cases; shape_goal Hdom Hins.
  - split; [|exact Hins]. unfold obj. simpl.
    rewrite !dom_insert_L, dom_empty_L. set_solver.
  - by split.
  - by split.
  - split; [|exact Hins]. apply bool_decide_eq_true in Hoff.
    unfold spread. simpl. rewrite dom_insert_L, Hdom.
    apply subseteq_union_1_L, singleton_subseteq_l.
    exact (proj2 (elem_of_list_to_set (C:=gset string) field Inputs.attendees) Hoff).
Qed.

Lemma tasks_step_shape (c : Ctx TasksPage.State W) (a : TasksPage.Action) :
  Inputs.tasks_offer a = true → tasks_shape c → tasks_shape (TasksPage.step c a).
Proof.
  destruct c as [s w t]. unfold tasks_shape, TasksPage.step. simpl.
  intros Hoff [Hdom Hins].
  destruct a as [|id|task| | |field value]; simpl in *.
  - handler_cases; shape_goal Hdom Hins.
    all: eexists; split; [reflexivity|]; unfold TasksPage.new_row;
      rewrite !dom_insert_L, Hdom; set_solver.
  - handler_cases; shape_goal Hdom Hins.
  - unfold TasksPage.statusClick. handler_cases; shape_goal Hdom Hins.
  - by split.
  - by split.
  - split; [|exact Hins]. apply bool_decide_eq_true in Hoff.
    unfold spread. simpl. rewrite dom_insert_L, Hdom.
    apply subseteq_union_1_L, singleton_subseteq_l.
    exact (proj2 (elem_of_list_to_set (C:=gset string) field Inputs.tasks) Hoff).
Qed.

Lemma events_history_shape (actions : list EventsPage.Action) :
  ∀ c : Ctx EventsPage.State W,
    Forall (fun a => Inputs.events_offer a = true) actions → events_shape c →
    Forall events_shape (EventsPage.history c actions).
Proof.
  induction actions as [|a rest IH]; intros c Hoff Hc; simpl; constructor;
    inversion Hoff; subst.
  - by apply events_step_shape.
  - apply IH; [done|]. by apply events_step_shape.
Qed.

Lemma attendees_history_shape (actions : list AttendeesPage.Action) :
  ∀ c : Ctx AttendeesPage.State W,
    Forall (fun a => Inputs.attendees_offer a = true) actions → attendees_shape c →
    Forall attendees_shape (AttendeesPage.history c actions).
Proof.
  induction actions as [|a rest IH]; intros c Hoff Hc; simpl; constructor;
    inversion Hoff; subst.
  - by apply attendees_step_shape.
  - apply IH; [done|]. by apply attendees_step_shape.
Qed.

Lemma tasks_history_shape (actions : list TasksPage.Action) :
  ∀ c : Ctx TasksPage.State W,
    Forall (fun a => Inputs.tasks_offer a = true) actions → tasks_shape c →
    Forall tasks_shape (TasksPage.history c actions).
Proof.
  induction actions as [|a rest IH]; intros c Hoff Hc; simpl; constructor;
    inversion Hoff; subst.
  - by apply tasks_step_shape.
  - apply IH; [done|]. by apply tasks_step_shape.
Qed.

End FormShape.

Section FormShapeRuns.
Context {W : Type} `{Environment W}.

Lemma events_mount_shape (w : W) :
  events_shape (run EventsPage.mount EventsPage.init w).2.
Proof.
  unfold events_shape, EventsPage.mount. handler_cases.
  all: split; [apply events_empty_form_dom | constructor].
Qed.

Lemma attendees_mount_shape (w : W) :
  attendees_shape (run AttendeesPage.mount AttendeesPage.init w).2.
Proof.
  unfold attendees_shape, AttendeesPage.mount. handler_cases.
  all: split; [apply attendees_empty_form_dom | constructor].
Qed.

Lemma tasks_mount_shape (w : W) :
  tasks_shape (run TasksPage.mount TasksPage.init w).2.
Proof.
  unfold tasks_shape. mount_cases.
  all: split; [apply tasks_empty_form_dom | constructor].
Qed.

(** X7. The form never grows a field, and every insert is of a new row.
    Along any run of the actions a page offers (a change being that of one
    of its inputs), from mount on and whatever the backend answers, the form
    data has exactly the properties of its inputs, and every insert sent was
    of one row with exactly those properties plus [user_id] (for a task also
    [status]). In particular no inserted row ever carries an [id]. *)
Theorem every_insert_is_of_a_new_row
    (w : W) (on_events : list EventsPage.Action)
    (on_attendees : list AttendeesPage.Action) (on_tasks : list TasksPage.Action) :
  Forall (fun a => Inputs.events_offer a = true) on_events →
  Forall (fun a => Inputs.attendees_offer a = true) on_attendees →
  Forall (fun a => Inputs.tasks_offer a = true) on_tasks →
  let ce := (run EventsPage.mount EventsPage.init w).2 in
  let ca := (run AttendeesPage.mount AttendeesPage.init w).2 in
  let ct := (run TasksPage.mount TasksPage.init w).2 in
  Forall events_shape (ce :: EventsPage.history ce on_events) ∧
  Forall attendees_shape (ca :: AttendeesPage.history ca on_attendees) ∧
  Forall tasks_shape (ct :: TasksPage.history ct on_tasks) ∧
  (∀ (columns : gset string) (q : Query) (row : JsObj),
     columns = list_to_set Inputs.events ∪ {["user_id"]} ∨
     columns = list_to_set Inputs.attendees ∪ {["user_id"]} ∨
     columns = list_to_set Inputs.tasks ∪ {["status"]} ∪ {["user_id"]} →
     Inputs.inserts_columns columns q → q_verb q = INSERT [row] →
     row !! "id" = None).
Proof.
  intros He Ha Ht ce ca ct. repeat split.
  - constructor; [apply events_mount_shape|].
    apply events_history_shape; [exact He | apply events_mount_shape].
  - constructor; [apply attendees_mount_shape|].
    apply attendees_history_shape; [exact Ha | apply attendees_mount_shape].
  - constructor; [apply tasks_mount_shape|].
    apply tasks_history_shape; [exact Ht | apply tasks_mount_shape].
  - intros columns q row Hcols [row' [Hq Hdom]] Hrow.
    rewrite Hq in Hrow. injection Hrow as ->.
    apply not_elem_of_dom. rewrite Hdom.
    destruct Hcols as [->|[->| ->]]; clear;
      apply (bool_decide_unpack _); vm_compute; exact I.
Qed.

End FormShapeRuns.

(** Alice types a name into the form of the event page and submits. *)
Lemma every_insert_is_of_a_new_row_witness :
  (Forall (fun a => Inputs.events_offer a = true)
          [EventsPage.Change "name" "Launch"; EventsPage.Submit] ∧
   Forall (fun a => Inputs.attendees_offer a = true) [] ∧
   Forall (fun a => Inputs.tasks_offer a = true) []) ∧
  Forall events_shape
    ((run (@EventsPage.mount _ UTC.env) EventsPage.init Sample.signed_in).2
     :: @EventsPage.history _ UTC.env
          (run (@EventsPage.mount _ UTC.env) EventsPage.init Sample.signed_in).2
          [EventsPage.Change "name" "Launch"; EventsPage.Submit]).
Proof.
  split; [repeat constructor|].
  refine (proj1 (@every_insert_is_of_a_new_row Backend.World UTC.env Sample.signed_in
                   [EventsPage.Change "name" "Launch"; EventsPage.Submit] [] []
                   _ _ _)); repeat constructor.
Defined.

(** ** The drop-downs of the task page *)

Section DropDowns.
Context {W : Type} `{Environment W}.

(** X8. The two fetches that fill the drop-downs of the task page never
    report anything. With a user resolved, the options become the data of the
    answer, or the empty list when the answer carries none (as an answer with
    an error does): options loaded earlier are dropped, no message is shown,
    and the tasks, the loading flag and the form are left alone. Without a
    user the page state is untouched. *)
Theorem dropdown_fetches_are_silent (s : TasksPage.State) (w : W) :
  let re := run TasksPage.fetchEvents s w in
  let ra := run TasksPage.fetchAttendees s w in
  (re.1 = Normal tt ∧ ra.1 = Normal tt ∧
   error_toasts (trace re.2) = [] ∧ error_toasts (trace ra.2) = []) ∧
  match getUser w with
  | (Some u, w1) =>
      page re.2 =
        TasksPage.mkState (TasksPage.tasks s)
          (default [] (data (execute (TasksPage.events_query u) w1).1))
          (TasksPage.attendees s) (TasksPage.loading s)
          (TasksPage.showForm s) (TasksPage.formData s) ∧
      page ra.2 =
        TasksPage.mkState (TasksPage.tasks s) (TasksPage.events s)
          (default [] (data (execute (TasksPage.attendees_query u) w1).1))
          (TasksPage.loading s) (TasksPage.showForm s) (TasksPage.formData s)
  | (None, _) => page re.2 = s ∧ page ra.2 = s
  end.
Proof.
  cbv zeta. unfold run.
  rewrite TasksFacts.tasks_fetchEvents_eq, TasksFacts.tasks_fetchAttendees_eq.
  destruct (getUser w) as [[u|] w1]; simpl; [|done].
  destruct (execute (TasksPage.events_query u) w1) as [r1 w2].
  destruct (execute (TasksPage.attendees_query u) w1) as [r2 w3]. done.
Qed.

End DropDowns.

(** The options loaded earlier are gone after a fetch that the backend
    answers with an error, and nothing is shown. *)
Example dropdown_options_dropped_on_error :
  run (@TasksPage.fetchEvents _ UTC.env)
      (TasksPage.mkState [] [Sample.launch] [] false false TasksPage.empty_form)
      Sample.broken
  = (Normal tt,
     mkCtx (TasksPage.mkState [] [] [] false false TasksPage.empty_form) Sample.broken
           [GetUser; Request (TasksPage.events_query Sample.alice)]).
Proof. evaluate. Qed.

(** ** Navigation *)

Section Navigation.
Context {W : Type} `{Environment W}.

Lemma routes_events (sess : App.Session) :
  App.Routes (Some sess) "/events" = App.Fragment (App.Layout (App.Page App.Events)).
Proof. reflexivity. Qed.

Lemma child_route_index (path : string) :
  App.child_route path = Some (App.Navigate "/events" true) ↔
  App.matchPath "/" path = true.
Proof. unfold App.child_route. split; by repeat case_match. Qed.

Lemma index_not_login (path : string) :
  App.matchPath "/" path = true → App.matchPath "/login" path = false.
Proof.
  intros Hroot. destruct (App.matchPath "/login" path) eqn:Hl; [|reflexivity].
  by rewrite (matchPath_not_index "l" "ogin" path ltac:(vm_compute; discriminate) Hl)
    in Hroot.
Qed.

(** X9. Navigation always settles, after at most one redirect. Signed in,
    the index route and the login route (as the router matches them,
    whatever the case of the letters and with or without trailing slashes)
    end on ["/events"] and every other location stays where it is, so the
    login view is never what a signed-in user ends on; signed out, every
    protected route ends on ["/login"] and every other location stays. The
    effects run are those of rendering the final location: a redirect runs
    none. More fuel than two steps changes nothing. *)
Theorem navigation_settles
    (n : nat) (session : option App.Session) (path : string) (w : W) :
  let destination :=
    match session with
    | Some _ =>
        if App.matchPath "/" path || App.matchPath "/login" path then "/events"
        else path
    | None =>
        if App.matchPath "/" path || App.matchPath "/events" path
           || App.matchPath "/attendees" path || App.matchPath "/tasks" path
        then "/login" else path
    end in
  App.visit (S (S n)) session path w =
    (let '(pages, effects, w') := App.render session destination w in
     Some (destination, pages, effects, w')) ∧
  match session with
  | Some _ => App.Login ∉ App.mounted (App.Routes session destination)
  | None => ∀ p, p ∈ App.mounted (App.Routes session destination) → p = App.Login
  end ∧
  (∀ sess : App.Session,
     App.visit (S (S n)) (Some sess) "/Login/" w
       = App.visit (S (S n)) (Some sess) "/events" w ∧
     App.visit (S (S n)) (Some sess) "//" w
       = App.visit (S (S n)) (Some sess) "/events" w ∧
     App.visit (S (S n)) (Some sess) "/nowhere" w = Some ("/nowhere", [], [], w)) ∧
  App.visit (S (S n)) None "/Attendees/" w = Some ("/login", [App.Login], [], w) ∧
  App.visit (S (S n)) None "/LOGIN" w = Some ("/LOGIN", [App.Login], [], w).
Proof.
  assert (Hgeneral : ∀ (session : option App.Session) (path : string),
    let destination :=
      match session with
      | Some _ =>
          if App.matchPath "/" path || App.matchPath "/login" path then "/events"
          else path
      | None =>
          if App.matchPath "/" path || App.matchPath "/events" path
             || App.matchPath "/attendees" path || App.matchPath "/tasks" path
          then "/login" else path
      end in
    App.visit (S (S n)) session path w =
      (let '(pages, effects, w') := App.render session destination w in
       Some (destination, pages, effects, w'))).
  { clear session path. intros session path. cbv zeta. destruct session as [sess|].
    - destruct (App.matchPath "/" path) eqn:Hroot.
      { cbn [App.visit orb]. unfold App.render at 1 2. unfold App.Routes at 1 2 3.
        rewrite (index_not_login _ Hroot), (proj2 (child_route_index path) Hroot).
        cbn [App.ProtectedRoute App.mounted App.redirect App.mount_all].
        unfold App.render. rewrite !routes_events.
        cbn [App.mounted App.redirect App.mount_all].
        destruct (App.mount_page App.Events w) as [t w'].
        rewrite bool_decide_eq_false_2; [reflexivity|].
        by intros ?%list_elem_of_singleton. }
      destruct (App.matchPath "/login" path) eqn:Hlogin.
      { cbn [App.visit orb]. unfold App.render at 1 2. unfold App.Routes at 1 2 3.
        rewrite Hlogin.
        cbn [App.mounted App.redirect App.mount_all App.mount_page].
        rewrite bool_decide_eq_true_2 by apply list_elem_of_singleton, eq_refl.
        unfold App.render. rewrite !routes_events.
        cbn [App.mounted App.redirect App.mount_all].
        destruct (App.mount_page App.Events w) as [t w'].
        rewrite bool_decide_eq_false_2; [reflexivity|].
        by intros ?%list_elem_of_singleton. }
      cbn [App.visit orb]. unfold App.render, App.Routes. rewrite Hlogin.
      destruct (child_route_cases path) as [Hc|[Hc|[p [Hp Hc]]]]; rewrite Hc; simpl.
      * reflexivity.
      * apply child_route_index in Hc. congruence.
      * destruct (App.mount_page p w) as [t w'].
        rewrite bool_decide_eq_false_2; [by rewrite app_nil_r|].
        intros Hin%list_elem_of_singleton. congruence.
    - rewrite visit_signed_out, protected_spec. unfold App.render, App.Routes.
      destruct (App.child_route path) eqn:Hc; [reflexivity|].
      destruct (App.matchPath "/login" path); [reflexivity|]. by rewrite Hc. }
  cbv zeta. split; [apply Hgeneral|]. split; [|split; [|split]].
  - destruct session as [sess|].
    + destruct (App.matchPath "/" path) eqn:Hroot;
        [by intros ?%list_elem_of_singleton|].
      destruct (App.matchPath "/login" path) eqn:Hlogin;
        [by intros ?%list_elem_of_singleton|].
      cbn [orb]. unfold App.Routes. rewrite Hlogin.
      destruct (child_route_cases path) as [Hc|[Hc|[p [Hp Hc]]]]; rewrite Hc; simpl.
      * apply not_elem_of_nil.
      * apply not_elem_of_nil.
      * intros Hin%list_elem_of_singleton. congruence.
    + intros p. rewrite protected_spec. unfold App.Routes.
      destruct (App.child_route path) eqn:Hc.
      * simpl. by intros ->%list_elem_of_singleton.
      * destruct (App.matchPath "/login" path).
        -- by intros ->%list_elem_of_singleton.
        -- rewrite Hc. by intros ?%elem_of_nil.
  - intros sess.
    rewrite (Hgeneral (Some sess) "/Login/"), (Hgeneral (Some sess) "//"),
      (Hgeneral (Some sess) "/events"), (Hgeneral (Some sess) "/nowhere").
    repeat split; reflexivity.
  - by rewrite (visit_signed_out n).
  - by rewrite (visit_signed_out n).
Qed.

End Navigation.

(** ** The login page *)

Section SigningIn.
Context {W : Type} `{SignIn W}.

(** X10. Signing in with email and password. The handler passes the email
    and the password of the form to the client. If the client reports an
    error, its message is shown and the router is not touched; otherwise the
    router is sent to ["/events"] and nothing is shown. Either way the
    handler completes normally, the typed credentials stay in the form and
    the loading flag, and with it the disabling of the buttons, is cleared. *)
Theorem email_sign_in_outcome (s : LoginPage.State) (w : W) :
  let r := run LoginPage.handleEmailSignIn s w in
  let answer := signInWithPassword (LoginPage.email s) (LoginPage.password s) w in
  r.1 = Normal tt ∧
  page r.2 = LoginPage.mkState (LoginPage.email s) (LoginPage.password s) false ∧
  LoginPage.buttonsDisabled (page r.2) = false ∧
  match answer.1 with
  | Some e => world r.2 = answer.2 ∧ trace r.2 = [ToastError (message e)]
  | None => world r.2 = navigate "/events" answer.2 ∧ trace r.2 = []
  end.
Proof.
  cbv zeta. unfold run, LoginPage.handleEmailSignIn, LoginPage.go, LoginPage.outside,
    LoginPage.setLoading.
  async_unfold. simpl.
  destruct (signInWithPassword _ _ w) as [[e|] w1]; done.
Qed.

(** X11. Signing in with Google. The handler asks the client for the
    provider ["google"] and never touches the router itself: on success it
    only announces the redirect, on an error it shows the message. Either way
    it completes normally, keeps the form and clears the loading flag. The
    effect of the page sends the router to ["/events"] exactly when there is
    a session. *)
Theorem google_sign_in_outcome
    (s : LoginPage.State) (w : W) (session : option App.Session) :
  let r := run LoginPage.handleGoogleSignIn s w in
  let answer := signInWithOAuth "google" w in
  (r.1 = Normal tt ∧
   page r.2 = LoginPage.mkState (LoginPage.email s) (LoginPage.password s) false ∧
   world r.2 = answer.2 ∧
   trace r.2 =
     match answer.1 with
     | Some e => [ToastError (message e)]
     | None => [ToastSuccess "Redirecting to Google sign-in..."]
     end) ∧
  run (LoginPage.sessionEffect session) s w =
    (Normal tt,
     mkCtx s match session with
             | Some _ => navigate "/events" w
             | None => w
             end []).
Proof.
  cbv zeta. split.
  - unfold run, LoginPage.handleGoogleSignIn, LoginPage.outside, LoginPage.setLoading.
    async_unfold. simpl.
    destruct (signInWithOAuth _ w) as [[e|] w1]; done.
  - by destruct session.
Qed.

End SigningIn.

(** A wrong password: the message is shown and the location stays; the right
    one: the router goes to the events. *)
Example sign_in_at_the_door :
  let door := Script.mkDoor "s3cret" "/login" in
  run (@LoginPage.handleEmailSignIn _ Script.door)
      (LoginPage.mkState "alice@example.com" "guess" false) door
  = (Normal tt,
     mkCtx (LoginPage.mkState "alice@example.com" "guess" false) door
           [ToastError "Invalid login credentials"]) ∧
  run (@LoginPage.handleEmailSignIn _ Script.door)
      (LoginPage.mkState "alice@example.com" "s3cret" false) door
  = (Normal tt,
     mkCtx (LoginPage.mkState "alice@example.com" "s3cret" false)
           (Script.mkDoor "s3cret" "/events") []).
Proof. evaluate. Qed.

(** ** The status button *)

(** X12. What a click on the status button does to its icon. The icon is
    the check mark exactly for the status ["completed"], while the click
    writes ["completed"] exactly for the status ["pending"] and ["pending"]
    for everything else. So the click changes the icon exactly when the
    status is one of the two; an entry with any other status shows the cross
    before and after. *)
Theorem status_click_and_icon (status : JsVal) :
  (TasksView.icon (TasksPage.newStatus status) ≠ TasksView.icon status
   ↔ status = JStr "pending" ∨ status = JStr "completed") ∧
  (TasksView.icon (TasksPage.newStatus status) = TasksView.CheckCircle
   ↔ status = JStr "pending") ∧
  (TasksView.icon status = TasksView.CheckCircle ↔ status = JStr "completed").
Proof.
  unfold TasksView.icon, TasksPage.newStatus, strict_eq_str.
  destruct status as [| |x|o]; simpl.
  1,2,4: repeat split; try done; intros [?|?]; done.
  destruct (String.eqb_spec x "pending") as [Hp|Hp];
    destruct (String.eqb_spec x "completed") as [Hc|Hc]; simpl.
  - congruence.
  - subst x. repeat split; try done; auto.
  - subst x. repeat split; try done; auto.
  - repeat split; try done; try congruence.
    intros [?|?]; congruence.
Qed.

(** ** A mutation whose re-fetch finds no user *)

Section StaleList.
Context {W : Type} `{Environment W}.

(** X13. The user is resolved anew by the fetch that follows a mutation. If
    a create goes through but that fetch then finds no user, the success is
    announced, the form is hidden and cleared, "No user found" is shown and
    the list keeps its old items: the new record is stored but not listed.
    Likewise a status toggle that goes through and is followed by such a
    fetch shows only "No user found" and leaves the old status on the
    page. *)
Theorem refetch_without_user_leaves_the_list_stale
    (se : EventsPage.State) (st : TasksPage.State) (we wt we1 we2 we3 wt1 wt2 : W)
    (u : User) (date : string) (re rt : Response) (id status : JsVal) :
  getUser we = (Some u, we1) →
  toISOString (prop (EventsPage.formData se) "date") = Normal date →
  execute (EventsPage.insert_query (EventsPage.formData se) date u) we1 = (re, we2) →
  error re = None →
  getUser we2 = (None, we3) →
  execute (TasksPage.update_query id (TasksPage.newStatus status)) wt = (rt, wt1) →
  error rt = None →
  getUser wt1 = (None, wt2) →
  run EventsPage.handleSubmit se we =
    (Normal tt,
     mkCtx (EventsPage.mkState (EventsPage.events se) false false EventsPage.empty_form)
           we3
           [GetUser;
            Request (EventsPage.insert_query (EventsPage.formData se) date u);
            ToastSuccess "Event created successfully";
            GetUser; ToastError "No user found"; SetLoading false]) ∧
  run (TasksPage.toggleStatus id status) st wt =
    (Normal tt,
     mkCtx (TasksPage.mkState (TasksPage.tasks st) (TasksPage.events st)
              (TasksPage.attendees st) false (TasksPage.showForm st)
              (TasksPage.formData st))
           wt2
           [Request (TasksPage.update_query id (TasksPage.newStatus status));
            GetUser; ToastError "No user found"; SetLoading false]).
Proof.
  intros Hu Hd Hins Hre Hu' Hupd Hrt Hu''. unfold run. split.
  - rewrite EventsFacts.events_submit_eq, Hu, Hd, Hins, Hre. simpl.
    rewrite EventsFacts.events_fetch_eq, Hu'. reflexivity.
  - rewrite TasksFacts.tasks_toggle_eq. cbv zeta. rewrite Hupd, Hrt. simpl.
    rewrite TasksFacts.tasks_fetch_eq, Hu''. reflexivity.
Qed.

End StaleList.

(** The sign-in of alice lapses right after her create, respectively her
    toggle, went through. *)
Lemma refetch_without_user_witness :
  let we := Script.mkWorld [Some Sample.alice; None] [Script.ok] [] in
  let wt := Script.mkWorld [None] [Script.ok] [] in
  let se := EventsPage.mkState [] false true Sample.launch_form in
  error_toasts (trace (run (@EventsPage.handleSubmit _ Script.env) se we).2)
    = ["No user found"] ∧
  EventsPage.events (page (run (@EventsPage.handleSubmit _ Script.env) se we).2) = [] ∧
  error_toasts
    (trace (run (@TasksPage.toggleStatus _ Script.env (JStr "id-1") (JStr "pending"))
                (TasksPage.mkState [Sample.prep_deck] [] [] false false
                   TasksPage.empty_form) wt).2)
    = ["No user found"].
Proof.
  cbv zeta.
  pose proof (@refetch_without_user_leaves_the_list_stale Script.World Script.env
    (EventsPage.mkState [] false true Sample.launch_form)
    (TasksPage.mkState [Sample.prep_deck] [] [] false false TasksPage.empty_form)
    (Script.mkWorld [Some Sample.alice; None] [Script.ok] [])
    (Script.mkWorld [None] [Script.ok] [])
    (Script.mkWorld [None] [Script.ok] [])
    (Script.mkWorld [None] [] [])
    (Script.mkWorld [] [] [])
    (Script.mkWorld [None] [] [])
    (Script.mkWorld [] [] [])
    Sample.alice "2025-06-01T10:00:00.000Z" Script.ok Script.ok
    (JStr "id-1") (JStr "pending")
    eq_refl eq_refl eq_refl eq_refl eq_refl eq_refl eq_refl eq_refl) as [He Ht].
  rewrite He, Ht. repeat split.
Defined.

(** ** Mounting the task page with nobody signed in *)

Section MountWithoutUser.
Context {W : Type} `{Environment W}.

(** X14. Mounting the task page while no user can be resolved shows one
    error, not three. Each of the three fetches asks for the user before
    any of them goes on; then, in whatever order they are resumed, the fetch
    of the tasks reports "No user found" and clears the loading flag, the
    two fetches of the drop-downs return silently, all three settle and no
    query is sent. *)
Theorem tasks_mount_without_user_shows_one_error
    (arrivals : list nat) (s : TasksPage.State) (w w1 w2 w3 : W) :
  getUser w = (None, w1) → getUser w1 = (None, w2) → getUser w2 = (None, w3) →
  let shown :=
    mkCtx (TasksPage.mkState (TasksPage.tasks s) (TasksPage.events s)
             (TasksPage.attendees s) false (TasksPage.showForm s)
             (TasksPage.formData s))
          w3 [GetUser; GetUser; GetUser; ToastError "No user found"; SetLoading false] in
  run (TasksPage.mounting arrivals) s w = (Normal [Settled; Settled; Settled], shown) ∧
  run (TasksPage.mountEffect arrivals) s w = (Normal tt, shown) ∧
  run TasksPage.mount s w = (Normal tt, shown).
Proof.
  intros H1 H2 H3 shown.
  assert (Hany : ∀ arrivals,
            run (TasksPage.mounting arrivals) s w
              = (Normal [Settled; Settled; Settled], shown)).
  { clear arrivals. intros arrivals. unfold run.
    rewrite TasksFacts.tasks_mounting_eq, H1, H2, H3.
    edestruct (deliver_settles
                 (fun (b : bool) (c : Ctx TasksPage.State W) =>
                    c = if b then shown
                        else mkCtx s w3 ([] ++ [GetUser; GetUser; GetUser]))
                 arrivals
                 (Awaiting (TasksPage.fetchTasks_resolved None))
                 (Awaiting (TasksPage.fetchEvents_resolved None))
                 (Awaiting (TasksPage.fetchAttendees_resolved None))
                 (mkCtx s w3 ([] ++ [GetUser; GetUser; GetUser])))
      as (c' & Hrun & Hc').
    - right. split; [reflexivity|]. intros c ->.
      rewrite TasksFacts.tasks_resolved_eq.
      eexists _, _. split; [reflexivity|]. by left.
    - intros b c Hc. rewrite Hc. destruct b; by eexists _, _.
    - intros b c Hc. rewrite Hc. destruct b; by eexists _, _.
    - unfold TasksPage.in_turn. rewrite Hrun, Hc'. reflexivity. }
  split; [apply Hany|].
  unfold TasksPage.mount, TasksPage.mountEffect, run, mbind, Async_bind, bind.
  pose proof (Hany arrivals) as Ha. pose proof (Hany []) as Hn.
  unfold run in Ha, Hn. by rewrite Ha, Hn.
Qed.

End MountWithoutUser.

(** Nobody is signed in at the reference backend; the answers are taken to
    arrive for the drop-downs first. *)
Lemma tasks_mount_without_user_witness :
  @getUser _ UTC.env Sample.anonymous = (None, Sample.anonymous) ∧
  trace (run (@TasksPage.mountEffect _ UTC.env [2; 1; 0]) TasksPage.init
             Sample.anonymous).2
    = [GetUser; GetUser; GetUser; ToastError "No user found"; SetLoading false] ∧
  queries (trace (run (@TasksPage.mount _ UTC.env) TasksPage.init Sample.anonymous).2)
    = [].
Proof.
  split; [reflexivity|].
  pose proof (@tasks_mount_without_user_shows_one_error Backend.World UTC.env
                [2; 1; 0] TasksPage.init Sample.anonymous Sample.anonymous
                Sample.anonymous Sample.anonymous eq_refl eq_refl eq_refl)
    as (_ & Heffect & Hmount).
  rewrite Heffect, Hmount. split; reflexivity.
Defined.

(** ** A task without an attendee *)

Section Unassigned.
Context {W : Type} `{Environment W}.

Lemma tasks_step_unassigned (c : Ctx TasksPage.State W) (a : TasksPage.Action) :
  leaves_unassigned a = true → unassigned c → unassigned (TasksPage.step c a).
Proof.
  destruct c as [s w t]. unfold unassigned, TasksPage.step. simpl.
  intros Hoff [Hform Hins].
  destruct a as [|id|task| | |field value]; simpl in *.
  - handler_cases.
    all: split; [first [exact Hform | reflexivity]|].
    all: rewrite ?inserts_app, ?Forall_app; repeat split;
      first [exact Hins | unfold inserts; simpl; repeat constructor].
    all: eexists; split; [reflexivity|]; unfold TasksPage.new_row;
      by rewrite !lookup_insert_ne.
  - handler_cases.
    all: split; [exact Hform|].
    all: rewrite ?inserts_app, ?Forall_app; repeat split;
      first [exact Hins | unfold inserts; simpl; repeat constructor].
  - unfold TasksPage.statusClick. handler_cases.
    all: split; [exact Hform|].
    all: rewrite ?inserts_app, ?Forall_app; repeat split;
      first [exact Hins | unfold inserts; simpl; repeat constructor].
  - by split.
  - by split.
  - split; [|exact Hins]. unfold spread. simpl.
    rewrite lookup_insert_ne; [exact Hform|].
    intros ->. by rewrite String.eqb_refl in Hoff.
Qed.

Lemma tasks_mount_unassigned (w : W) :
  unassigned (run TasksPage.mount TasksPage.init w).2.
Proof.
  unfold unassigned. mount_cases.
  all: split; [reflexivity | constructor].
Qed.

(** X15. A task created without choosing an attendee is sent with the
    empty string as its [attendee_id]. Along any run of the task page from
    mount in which the attendee drop-down is never changed, the form holds
    [attendee_id: ''] and every insert sent carries [attendee_id: '']: the
    option "Unassigned" is stored as the empty string, not as null and not
    by leaving the property out. *)
Theorem unassigned_is_sent_as_empty_string (w : W) (actions : list TasksPage.Action) :
  Forall (fun a => leaves_unassigned a = true) actions →
  let c0 := (run TasksPage.mount TasksPage.init w).2 in
  Forall unassigned (c0 :: TasksPage.history c0 actions).
Proof.
  intros Hacts c0. constructor; [apply tasks_mount_unassigned|].
  assert (Hc0 : unassigned c0) by apply tasks_mount_unassigned.
  clearbody c0. revert c0 Hc0.
  induction actions as [|a rest IH]; intros c0 Hc0; simpl; constructor;
    inversion Hacts; subst.
  - by apply tasks_step_unassigned.
  - apply IH; [done|]. by apply tasks_step_unassigned.
Qed.

End Unassigned.

(** Alice names a task, picks the event and the deadline, and submits. *)
Lemma unassigned_is_sent_as_empty_string_witness :
  let actions :=
    [TasksPage.Change "name" "Prep deck"; TasksPage.Change "event_id" "id-0";
     TasksPage.Change "deadline" "2025-05-30T09:00"; TasksPage.Submit] in
  Forall (fun a => leaves_unassigned a = true) actions ∧
  Forall unassigned
    ((run (@TasksPage.mount _ UTC.env) TasksPage.init Sample.planned).2
     :: @TasksPage.history _ UTC.env
          (run (@TasksPage.mount _ UTC.env) TasksPage.init Sample.planned).2 actions).
Proof.
  cbv zeta. split; [repeat constructor|].
  refine (@unassigned_is_sent_as_empty_string Backend.World UTC.env Sample.planned
            [TasksPage.Change "name" "Prep deck"; TasksPage.Change "event_id" "id-0";
             TasksPage.Change "deadline" "2025-05-30T09:00"; TasksPage.Submit] _).
  repeat constructor.
Defined.

(** ** Editing and deleting against the reference backend *)

Lemma filter_filter_andb {A : Type} (f g : A → bool) (l : list A) :
  List.filter f (List.filter g l) = List.filter (fun x => g x && f x) l.
Proof.
  induction l as [|x l IH]; [done|]. simpl.
  destruct (g x); simpl; [|exact IH].
  destruct (f x); by rewrite IH.
Qed.

Section EditAndDeleteOnBackend.
Context (toISO fmt : JsVal → Completion string).
Context (renv : Environment Backend.World := Backend.env toISO fmt).
#[local] Existing Instance renv.
Import Backend.

(** X16. Editing an event and submitting the form stores a second row.
    Against the reference backend, with the user signed in: after the edit
    button of an event and a submit of the form as filled, the collection
    holds all the rows it held, unchanged, and one more row with a fresh
    identifier and the name, description and location of the edited event;
    the list of the page grows by exactly that row. *)
Theorem edit_then_submit_adds_a_copy
    (w : World) (u : User) (rows : list JsObj) (event : JsObj)
    (s : EventsPage.State) (d iso : string) :
  current_user w = Some u →
  tables w !! "events" = Some rows →
  fmt (prop event "date") = Normal d →
  toISO (JStr d) = Normal iso →
  let c := (run (EventsPage.editClick event;; EventsPage.handleSubmit) s w).2 in
  let copy : JsObj :=
    <["id" := fresh_id (next_id w)]>
      (<["user_id" := JStr (uid u)]>
         (<["date" := JStr iso]>
            (<["location" := prop event "location"]>
               (<["description" := prop event "description"]>
                  (<["name" := prop event "name"]> ∅))))) in
  tables (world c) !! "events" = Some (rows ++ [copy]) ∧
  EventsPage.events (page c) ≡ₚ copy :: List.filter (owned_by u) rows ∧
  prop copy "name" = prop event "name" ∧
  prop copy "description" = prop event "description" ∧
  prop copy "location" = prop event "location" ∧
  prop copy "id" = fresh_id (next_id w).
Proof.
  intros Hu Ht Hd Hiso. cbv zeta.
  set (s' := EventsPage.mkState (EventsPage.events s) (EventsPage.loading s) true
               (<["date" := JStr d]>
                  (<["location" := prop event "location"]>
                     (<["description" := prop event "description"]>
                        (<["name" := prop event "name"]> ∅))))).
  assert (Hrun : run (EventsPage.editClick event;; EventsPage.handleSubmit) s w
                 = run EventsPage.handleSubmit s' w).
  { unfold run, mbind, Async_bind, bind.
    rewrite EventsFacts.events_edit_eq. simpl. rewrite Hd. reflexivity. }
  rewrite Hrun. unfold renv.
  assert (Hd' : toISO (prop (EventsPage.formData s') "date") = Normal iso).
  { unfold s', prop. simpl. rewrite lookup_insert_eq. exact Hiso. }
  rewrite (events_submit_backend toISO fmt s' w u rows iso Hu Ht Hd'). simpl.
  unfold EventsPage.new_row. simpl. rewrite insert_insert_eq.
  split; [apply lookup_insert_eq|]. split.
  - rewrite merge_sort_Permutation. apply filter_owned_snoc.
  - unfold prop. by simplify_map_eq.
Qed.

(** X17. A confirmed delete removes the record and nothing else. Against
    the reference backend, with the user signed in and the dialog confirmed:
    the collection loses exactly the rows of the user with the given
    identifier, the rows of other users stay, and the list of the page is
    the remaining rows of the user, none of which has that identifier. *)
Theorem confirmed_delete_removes_the_record
    (w : World) (u : User) (rows : list JsObj) (id : JsVal)
    (s : EventsPage.State) (rest : list bool) :
  current_user w = Some u →
  tables w !! "events" = Some rows →
  answers w = true :: rest →
  let c := (run (EventsPage.handleDelete id) s w).2 in
  tables (world c) !! "events" =
    Some (List.filter (fun row => negb (owned_by u row && matches (prop row "id") id))
                      rows) ∧
  EventsPage.events (page c) ≡ₚ
    List.filter (fun row => negb (matches (prop row "id") id))
                (List.filter (owned_by u) rows) ∧
  (∀ row, row ∈ EventsPage.events (page c) → matches (prop row "id") id = false) ∧
  (∀ row, row ∈ rows → owned_by u row = false →
          row ∈ default [] (tables (world c) !! "events")).
Proof.
  intros Hu Ht Ha. cbv zeta. unfold renv, run.
  rewrite EventsFacts.events_delete_eq. simpl. unfold answer. rewrite Ha.
  unfold EventsPage.delete_query at 1. unfold run_query. simpl. rewrite Ht. simpl.
  set (kept := List.filter _ rows).
  assert (Hkept : kept = List.filter
            (fun row => negb (owned_by u row && matches (prop row "id") id)) rows).
  { apply List.filter_ext. intros row. unfold selected, visible, satisfies. simpl.
    rewrite Hu. by rewrite andb_true_r. }
  erewrite (events_fetch_backend toISO fmt); [|exact Hu|apply lookup_insert_eq].
  simpl. rewrite lookup_insert_eq, Hkept.
  assert (Hlist : List.filter (owned_by u)
            (List.filter (fun row => negb (owned_by u row && matches (prop row "id") id))
                         rows)
          = List.filter (fun row => negb (matches (prop row "id") id))
                        (List.filter (owned_by u) rows)).
  { rewrite !filter_filter_andb. apply List.filter_ext. intros row.
    destruct (owned_by u row), (matches (prop row "id") id); reflexivity. }
  split; [reflexivity|]. split; [|split].
  - rewrite merge_sort_Permutation, Hlist. reflexivity.
  - intros row Hin. rewrite merge_sort_Permutation, Hlist in Hin.
    apply list_elem_of_In, List.filter_In in Hin as [_ Hm].
    by apply negb_true_iff in Hm.
  - intros row Hin Hown. simpl. apply list_elem_of_In, List.filter_In.
    split; [by apply list_elem_of_In|]. by rewrite Hown.
Qed.

End EditAndDeleteOnBackend.

(** The launch event is edited and submitted: the collection then holds the
    original and a copy under the next identifier. *)
Lemma edit_then_submit_adds_a_copy_witness :
  (Backend.current_user Sample.planned = Some Sample.alice ∧
   Backend.tables Sample.planned !! "events" = Some [Sample.launch] ∧
   UTC.format_datetime_local (prop Sample.launch "date") = Normal "2025-06-01T10:00" ∧
   UTC.toISOString (JStr "2025-06-01T10:00") = Normal "2025-06-01T10:00:00.000Z") ∧
  Backend.tables
    (world (run (@EventsPage.editClick _ UTC.env Sample.launch;;
                 @EventsPage.handleSubmit _ UTC.env)
                EventsPage.init Sample.planned).2) !! "events"
  = Some [Sample.launch; <["id" := JStr "id-2"]> Sample.launch].
Proof.
  split; [repeat split|].
  pose proof (proj1 (edit_then_submit_adds_a_copy
    UTC.toISOString UTC.format_datetime_local Sample.planned Sample.alice
    [Sample.launch] Sample.launch EventsPage.init
    "2025-06-01T10:00" "2025-06-01T10:00:00.000Z"
    eq_refl eq_refl eq_refl eq_refl)) as Hcopy.
  etransitivity; [exact Hcopy|]. evaluate.
Defined.

(** Alice confirms the deletion of the launch event. *)
Lemma confirmed_delete_removes_the_record_witness :
  let w := Backend.mkWorld (Some Sample.alice)
             (<["events" := [Sample.launch]]> Backend.empty_tables) 1 [true] in
  (Backend.current_user w = Some Sample.alice ∧
   Backend.tables w !! "events" = Some [Sample.launch] ∧
   Backend.answers w = [true]) ∧
  Backend.tables
    (world (run (@EventsPage.handleDelete _ UTC.env (JStr "id-0"))
                EventsPage.init w).2) !! "events"
  = Some [].
Proof.
  cbv zeta. split; [repeat split|].
  pose proof (proj1 (confirmed_delete_removes_the_record
    UTC.toISOString UTC.format_datetime_local
    (Backend.mkWorld (Some Sample.alice)
       (<["events" := [Sample.launch]]> Backend.empty_tables) 1 [true])
    Sample.alice [Sample.launch] (JStr "id-0") EventsPage.init []
    eq_refl eq_refl eq_refl)) as Hdel.
  etransitivity; [exact Hdel|]. evaluate.
Defined.

(** Signed out, the tasks route ends on the login view and on nothing else. *)
Lemma navigation_settles_witness :
  @App.visit _ UTC.env 2 None "/tasks/" Sample.planned
    = Some ("/login", [App.Login], [], Sample.planned) ∧
  (App.Login ∈ App.mounted (App.Routes None "/login") → App.Login = App.Login).
Proof.
  pose proof (@navigation_settles Backend.World UTC.env 0 None "/tasks/" Sample.planned)
    as (Hvisit & Hpages & _).
  split; [exact Hvisit | exact (Hpages App.Login)].
Defined.

(** A pending task: the click turns the cross into the check mark. *)
Lemma status_click_and_icon_witness :
  (JStr "pending" = JStr "pending" ∨ JStr "pending" = JStr "completed") ∧
  TasksView.icon (TasksPage.newStatus (JStr "pending")) ≠ TasksView.icon (JStr "pending").
Proof.
  split; [by left|].
  exact (proj2 (proj1 (status_click_and_icon (JStr "pending"))) (or_introl eq_refl)).
Defined.
